(** * The experiment query layer of cell_census

    A shallow embedding of
    [api/python/cell_census/src/cell_census/experiment_query/query.py]:
    the query object [ExperimentQuery], its lazily cached axis join ids,
    the chunked matrix reader, the full-read entry point [read], the
    positional indexer [AxisIndexer], the scoped helper
    [experiment_query] and the asynchronous facade.

    Python objects mutated in place (the query, its thread pool, the
    caller's [column_names] dict) live in an explicit state; exceptions
    are the [Err] results of a state-and-error monad, and a raise keeps
    the mutations made before it. *)

From Stdlib Require Import ZArith String List Bool Lia.
From stdpp Require Import base option list strings gmap.

Open Scope Z_scope.

(** ** Python values and exceptions *)

(** The values that flow through the query layer: identifiers are
    64-bit integers, axis columns also hold strings, and [VNone] is
    Python's [None] (also what an ill-typed argument may be). *)
Inductive value :=
| VNone
| VInt (z : Z)
| VStr (s : string).

#[global] Instance value_eq_dec : EqDecision value.
Proof. solve_decision. Defined.

(** Truthiness, as tested by [not x]. *)
Definition truthy (v : value) : bool :=
  match v with
  | VNone => false
  | VInt z => negb (z =? 0)
  | VStr s => negb (String.eqb s "")
  end.

(** [isinstance(v, str)] *)
Definition is_str (v : value) : bool :=
  match v with VStr _ => true | _ => false end.

(** The exception classes this module can raise, directly or through
    pyarrow, pandas, concurrent.futures and the storage engine. *)
Inductive exn :=
| ValueError
| NotImplementedError
| AssertionError
| KeyError
| AttributeError
| TypeError
| RuntimeError
| ArrowInvalid
| InvalidIndexError
| StorageError (msg : string).

#[global] Instance exn_eq_dec : EqDecision exn.
Proof. solve_decision. Defined.

(** The class of an exception followed by its base classes, as Python
    resolves [except C]. *)
Definition exn_mro (e : exn) : list string :=
  match e with
  | ValueError => ["ValueError"; "Exception"]
  | NotImplementedError => ["NotImplementedError"; "RuntimeError"; "Exception"]
  | AssertionError => ["AssertionError"; "Exception"]
  | KeyError => ["KeyError"; "LookupError"; "Exception"]
  | AttributeError => ["AttributeError"; "Exception"]
  | TypeError => ["TypeError"; "Exception"]
  | RuntimeError => ["RuntimeError"; "Exception"]
  | ArrowInvalid => ["ArrowInvalid"; "ValueError"; "ArrowException"; "Exception"]
  | InvalidIndexError => ["InvalidIndexError"; "Exception"]
  | StorageError _ => ["TileDBError"; "Exception"]
  end%string.

(** [isinstance(e, cls)] for a class named [cls]. *)
Definition is_instance (e : exn) (cls : string) : bool :=
  bool_decide (cls ∈ exn_mro e).

Inductive result (A : Type) :=
| Ok (a : A)
| Err (e : exn).
Arguments Ok {A} a.
Arguments Err {A} e.

#[global] Instance result_ret : MRet result := fun _ a => Ok a.
#[global] Instance result_bind : MBind result :=
  fun _ _ f r => match r with Ok a => f a | Err e => Err e end.
#[global] Instance result_fmap : FMap result :=
  fun _ _ f r => match r with Ok a => Ok (f a) | Err e => Err e end.

Definition is_ok {A} (r : result A) : bool :=
  match r with Ok _ => true | Err _ => false end.

(** ** Arrow tables *)

(** A column is a sequence of values; a table is an ordered list of
    named columns of one length. *)
Abbreviation Column := (list value).
Abbreviation Table := (list (string * Column)).

Definition column_names (t : Table) : list string := map fst t.

Definition num_rows (t : Table) : nat :=
  match t with
  | [] => 0%nat
  | (_, c) :: _ => length c
  end.

(** [tbl.column(name)] and [tbl[name]]: the name has to denote exactly
    one field of the schema. *)
Definition column (name : string) (t : Table) : result Column :=
  match filter (fun p => p.1 = name) t with
  | [(_, c)] => Ok c
  | _ => Err KeyError
  end.

(** [tbl.select(names)] *)
Definition select (names : list string) (t : Table) : result Table :=
  mapM (fun n => c ← column n t; mret (n, c)) names.

(** [pa.Table.from_pylist([], schema=schema)] *)
Definition from_pylist_empty (schema : list string) : Table :=
  map (fun n => (n, [])) schema.

Definition append_table (t1 t2 : Table) : result Table :=
  if decide (column_names t1 = column_names t2)
  then Ok (zip_with (fun p1 p2 => (p1.1, p1.2 ++ p2.2)) t1 t2)
  else Err ArrowInvalid.

(** [pa.concat_tables(tables)]: refuses an empty sequence and tables of
    different schemas. *)
Definition concat_tables (ts : list Table) : result Table :=
  match ts with
  | [] => Err ArrowInvalid
  | t :: rest => foldl (fun acc t' => a ← acc; append_table a t') (Ok t) rest
  end.

(** ** The storage collaborators *)

Inductive axis := Obs | Var.

#[global] Instance axis_eq_dec : EqDecision axis.
Proof. solve_decision. Defined.

(** The key of an axis in the dicts keyed by ["obs"] and ["var"]. *)
Definition axis_key (a : axis) : string :=
  match a with Obs => "obs" | Var => "var" end.

(** Modelled from the spec: [AxisQuery] of [axis.py], whose source is
    not included: an immutable filter made of a coordinate selection
    per dimension and an optional value-filter expression; the default
    [AxisQuery(coords=(slice(None),))] selects every row. *)
Inductive coord_sel :=
| SliceAll
| CoordIds (ids : list Z).

Record AxisQuery := mkAxisQuery {
  coords : list coord_sel;
  value_filter : option string
}.

Definition default_axis_query : AxisQuery :=
  {| coords := [SliceAll]; value_filter := None |}.

(** A [soma.DataFrame] handle, as far as the query layer uses it:
    [read_all(ids=..., value_filter=..., column_names=...)]. *)
Record DataFrame := mkDataFrame {
  read_all : list coord_sel -> option string -> option (list string) -> result Table
}.

(** An entry of the [X] collection: [soma_type], [schema] and
    [read_table((obs_joinids, var_joinids))], the latter delivering its
    chunks in storage order. *)
Record NDArray := mkNDArray {
  soma_type : string;
  schema : list string;
  read_table : Column -> Column -> result (list Table)
}.

Record Measurement := mkMeasurement {
  var : DataFrame;
  X : gmap string NDArray
}.

Record Experiment := mkExperiment {
  exists_ : bool;
  obs : DataFrame;
  ms : gmap string Measurement
}.

(** ** The query object and the world around it *)

(** The two-key typed dicts [MatrixAxisQuery] and [AxisJoinIds]. *)
Record per_axis (A : Type) := mkPerAxis {
  at_obs : A;
  at_var : A
}.
Arguments mkPerAxis {A} _ _.
Arguments at_obs {A} _.
Arguments at_var {A} _.

Definition get_axis {A} (a : axis) (d : per_axis A) : A :=
  match a with Obs => at_obs d | Var => at_var d end.

Definition set_axis {A} (a : axis) (v : A) (d : per_axis A) : per_axis A :=
  match a with
  | Obs => {| at_obs := v; at_var := at_var d |}
  | Var => {| at_obs := at_obs d; at_var := v |}
  end.

(** [AxisIndexer]: the two lazily built [pd.Index] objects, each held
    as the data it was built from. *)
Record AxisIndexer := mkAxisIndexer {
  _obs_index : option Column;
  _var_index : option Column
}.

Record ExperimentQuery := mkExperimentQuery {
  experiment : Experiment;
  ms_name : string;                    (* [self.ms] *)
  _query : per_axis AxisQuery;
  _joinids : per_axis (option Column);
  _indexer : AxisIndexer;
  _default_threadpool : nat            (* the executor, by identity *)
}.

(** What the storage engine is asked to read. *)
Inductive io_event :=
| EvAxisRead (a : axis) (cols : option (list string))
| EvMatrixRead (obs_ids var_ids : Column).

(** The caller-visible [column_names] argument of [read] is a dict that
    may lack either key; it is passed by reference. *)
Abbreviation AxisColumnNames := (gmap string (option (list string))).

(** The world: the log of storage reads, the dicts reachable from the
    caller, and for every executor created so far the number of times
    [shutdown()] was called on it. *)
Record World := mkWorld {
  io_log : list io_event;
  heap : gmap nat AxisColumnNames;
  pools : list nat
}.

Record State := mkState {
  this : ExperimentQuery;
  world : World
}.

Definition with_joinids (j : per_axis (option Column)) (q : ExperimentQuery) : ExperimentQuery :=
  {| experiment := experiment q; ms_name := ms_name q; _query := _query q;
     _joinids := j; _indexer := _indexer q;
     _default_threadpool := _default_threadpool q |}.

Definition with_indexer (i : AxisIndexer) (q : ExperimentQuery) : ExperimentQuery :=
  {| experiment := experiment q; ms_name := ms_name q; _query := _query q;
     _joinids := _joinids q; _indexer := i;
     _default_threadpool := _default_threadpool q |}.

Definition with_io_log (l : list io_event) (w : World) : World :=
  {| io_log := l; heap := heap w; pools := pools w |}.

Definition with_heap (h : gmap nat AxisColumnNames) (w : World) : World :=
  {| io_log := io_log w; heap := h; pools := pools w |}.

Definition with_pools (p : list nat) (w : World) : World :=
  {| io_log := io_log w; heap := heap w; pools := p |}.

(** ** The state-and-error monad *)

Definition M (A : Type) : Type := State -> result A * State.

Definition ret {A} (a : A) : M A := fun s => (Ok a, s).

Definition bind {A B} (c : M A) (k : A -> M B) : M B :=
  fun s =>
    match c s with
    | (Ok a, s') => k a s'
    | (Err e, s') => (Err e, s')
    end.

Definition raise {A} (e : exn) : M A := fun s => (Err e, s).

Definition lift {A} (r : result A) : M A := fun s => (r, s).

Definition get_this : M ExperimentQuery := fun s => (Ok (this s), s).

Definition modify_this (f : ExperimentQuery -> ExperimentQuery) : M unit :=
  fun s => (Ok tt, {| this := f (this s); world := world s |}).

Definition modify_world (f : World -> World) : M unit :=
  fun s => (Ok tt, {| this := this s; world := f (world s) |}).

Definition log_io (ev : io_event) : M unit :=
  modify_world (fun w => with_io_log (io_log w ++ [ev]) w).

Definition assert (b : bool) : M unit :=
  if b then ret tt else raise AssertionError.

Notation "'let*' x := c 'in' k" := (bind c (fun x => k))
  (at level 10, x name, c at level 100, k at level 200).
Notation "'let*' ' p := c 'in' k" := (bind c (fun x => match x with p => k end))
  (at level 10, p pattern, c at level 100, k at level 200).
Notation "c ;;; k" := (bind c (fun _ => k))
  (at level 100, k at level 200, right associativity).

(** ** The thread pool *)

(** [executor.submit(task)]: refused once the executor is shut down;
    otherwise the task runs and its outcome, exception included, is
    kept in the future. Tasks the query submits together touch
    different axes, so they are run in submission order. *)
Definition Future (A : Type) : Type := result A.

Definition pool_is_open (s : State) : bool :=
  match pools (world s) !! _default_threadpool (this s) with
  | Some O => true
  | _ => false
  end.

Definition submit {A} (task : M A) : M (Future A) :=
  fun s =>
    if pool_is_open s
    then let '(r, s') := task s in (Ok r, s')
    else (Err RuntimeError, s).

(** [future.result()] *)
Definition future_result {A} (f : Future A) : M A := lift f.

(** [executor.shutdown()] *)
Definition shutdown (pool : nat) : M unit :=
  modify_world (fun w => with_pools (alter S pool (pools w)) w).

(** ** ExperimentQuery *)

Definition soma_joinid : string := "soma_joinid".
Definition SOMASparseNDArray : string := "SOMASparseNDArray".

(** [ExperimentQuery.__init__]; the executor it creates is the next
    entry of [pools]. *)
Definition ExperimentQuery_init (experiment : Experiment) (measurement_name : string)
    (obs_query var_query : option AxisQuery) (w : World) : result ExperimentQuery * World :=
  if negb (exists_ experiment) then (Err ValueError, w)
  else if negb (bool_decide (is_Some (ms experiment !! measurement_name)))
  then (Err ValueError, w)
  else
    (Ok {| experiment := experiment;
           ms_name := measurement_name;
           _query := {| at_obs := default default_axis_query obs_query;
                        at_var := default default_axis_query var_query |};
           _joinids := {| at_obs := None; at_var := None |};
           _indexer := {| _obs_index := None; _var_index := None |};
           _default_threadpool := length (pools w) |},
     with_pools (pools w ++ [O]) w).

(** [ExperimentQuery.close] *)
Definition close : M unit :=
  let* self := get_this in
  shutdown (_default_threadpool self).

(** [self.experiment.ms[self.ms]] *)
Definition self_measurement : M Measurement :=
  let* self := get_this in
  match ms (experiment self) !! ms_name self with
  | Some m => ret m
  | None => raise KeyError
  end.

(** [ExperimentQuery._read_axis_dataframe]; every request to storage
    is logged, with the columns asked for. *)
Definition _read_axis_dataframe (axis : axis) (axis_df : DataFrame)
    (column_names : option (list string)) : M Table :=
  let* self := get_this in
  let query := get_axis axis (_query self) in
  let need_joinids := bool_decide (get_axis axis (_joinids self) = None) in
  let query_columns :=
    match column_names with
    | Some names =>
        if need_joinids && negb (bool_decide (soma_joinid ∈ names))
        then Some (soma_joinid :: names)
        else column_names
    | None => column_names
    end in
  log_io (EvAxisRead axis query_columns) ;;;
  let* tbl := lift (read_all axis_df (coords query) (value_filter query) query_columns) in
  (if need_joinids
   then let* ids := lift (column soma_joinid tbl) in
        modify_this (fun q => with_joinids (set_axis axis (Some ids) (_joinids q)) q)
   else ret tt) ;;;
  let* self := get_this in
  assert (bool_decide (get_axis axis (_joinids self) ≠ None)) ;;;
  match column_names with
  | Some names => lift (select names tbl)
  | None => ret tbl
  end.

(** [ExperimentQuery._read_axis_joinids]. The cached sequence is
    returned as the attribute holds it, so the result is [None] exactly
    when the attribute is. *)
Definition _read_axis_joinids (axis : axis) (axis_df : DataFrame) : M (option Column) :=
  let* self := get_this in
  (if bool_decide (get_axis axis (_joinids self) = None)
   then let* _ := _read_axis_dataframe axis axis_df (Some [soma_joinid]) in ret tt
   else ret tt) ;;;
  let* self := get_this in
  ret (get_axis axis (_joinids self)).

(** [ExperimentQuery.obs] and [ExperimentQuery.var]; the names [obs]
    and [var] are those of the dataframes of the experiment. *)
Definition obs_table (column_names : option (list string)) : M Table :=
  let* self := get_this in
  _read_axis_dataframe Obs (obs (experiment self)) column_names.

Definition var_table (column_names : option (list string)) : M Table :=
  let* m := self_measurement in
  _read_axis_dataframe Var (var m) column_names.

(** [ExperimentQuery.obs_joinids] and [ExperimentQuery.var_joinids] *)
Definition obs_joinids : M (option Column) :=
  let* self := get_this in
  _read_axis_joinids Obs (obs (experiment self)).

Definition var_joinids : M (option Column) :=
  let* m := self_measurement in
  _read_axis_joinids Var (var m).

Definition axis_joinids (a : axis) : M (option Column) :=
  match a with Obs => obs_joinids | Var => var_joinids end.

(** [len(x)] of an attribute that may hold [None]. *)
Definition py_len (c : option Column) : M nat :=
  match c with
  | Some ids => ret (length ids)
  | None => raise TypeError
  end.

(** The properties [n_obs] and [n_vars]. *)
Definition n_obs : M nat := let* ids := obs_joinids in py_len ids.
Definition n_vars : M nat := let* ids := var_joinids in py_len ids.

(** ** Generators driven one step at a time *)

(** A generator whose remaining effects are done is the list of values
    it has still to yield. [_next] of [wrap_generator] pulls once and
    reports [(value, False)], or [(None, True)] at the end of the
    iteration; it also leaves the generator advanced. *)
Definition wrap_generator_next {T} (gen : list T) : (option T * bool) * list T :=
  match gen with
  | value :: gen' => ((Some value, false), gen')
  | [] => ((None, true), [])
  end.

(** The loop of [_fetchX] with [prefetch]: it holds the future of the
    chunk fetched ahead, and submits the next fetch before it yields.
    [fuel] bounds the number of turns of [while True]. *)
Fixpoint prefetch_loop (fuel : nat) (gen : list Table)
    (_prefetch_future : Future (option Table * bool)) : M (option (list Table)) :=
  match fuel with
  | O => ret None
  | S fuel' =>
      let* '(value, done) := future_result _prefetch_future in
      if done : bool then ret (Some [])
      else
        assert (bool_decide (is_Some value)) ;;;
        let '(r, gen') := wrap_generator_next gen in
        let* fut := submit (ret r) in
        let* rest := prefetch_loop fuel' gen' fut in
        ret (match value, rest with
             | Some v, Some chunks => Some (v :: chunks)
             | _, _ => None
             end)
  end.

(** [ExperimentQuery._fetchX]: the chunks it yields, in order. *)
Definition _fetchX (X : NDArray) (prefetch : bool) : M (list Table) :=
  let* self := get_this in
  assert (bool_decide (get_axis Obs (_joinids self) ≠ None)) ;;;
  assert (bool_decide (get_axis Var (_joinids self) ≠ None)) ;;;
  let obs_joinids := default [] (get_axis Obs (_joinids self)) in
  let var_joinids := default [] (get_axis Var (_joinids self)) in
  if (length obs_joinids =? 0)%nat || (length var_joinids =? 0)%nat
  then ret [from_pylist_empty (schema X)]
  else
    log_io (EvMatrixRead obs_joinids var_joinids) ;;;
    let* gen := lift (read_table X obs_joinids var_joinids) in
    if negb prefetch
    then ret gen
    else
      let '(r, gen') := wrap_generator_next gen in
      let* fut := submit (ret r) in
      let* chunks := prefetch_loop (S (length gen)) gen' fut in
      match chunks with
      | Some l => ret l
      | None => raise RuntimeError  (* out of fuel: never, see [prefetch_loop_total] *)
      end.

(** [key in X_collection] and [X_collection[key]] for a key that need
    not be a string. *)
Definition lookup_layer (X_collection : gmap string NDArray) (key : value) : option NDArray :=
  match key with
  | VStr name => X_collection !! name
  | _ => None
  end.

(** [bool(x)] of a join-id attribute: [None] and the empty array are
    falsy. *)
Definition joinids_truthy (c : option Column) : bool :=
  match c with
  | Some ids => negb (length ids =? 0)%nat
  | None => false
  end.

(** The body of the generator function [ExperimentQuery.X]: what a
    complete iteration does and yields. *)
Definition X_body (layer : value) (prefetch : bool) : M (list Table) :=
  if negb (truthy layer) then raise ValueError
  else
    let* m := self_measurement in
    match lookup_layer (X m) layer with
    | None => raise ValueError
    | Some arr =>
        if negb (bool_decide (soma_type arr = SOMASparseNDArray))
        then raise NotImplementedError
        else
          let* self := get_this in
          (if negb (joinids_truthy (get_axis Obs (_joinids self)))
           then let* _ := submit obs_joinids in ret tt
           else ret tt) ;;;
          (if negb (joinids_truthy (get_axis Var (_joinids self)))
           then let* _ := submit var_joinids in ret tt
           else ret tt) ;;;
          _fetchX arr prefetch
    end.

(** A generator object that has not been started: calling a generator
    function runs none of its body. *)
Inductive Generator (T : Type) :=
| MkGenerator (body : M (list T)).
Arguments MkGenerator {T} body.

(** Iterating a generator to exhaustion. *)
Definition iterate {T} (g : Generator T) : M (list T) :=
  match g with MkGenerator body => body end.

(** [ExperimentQuery.X(layer, prefetch)]: the call itself. *)
Definition X_call (layer : value) (prefetch : bool) : M (Generator Table) :=
  ret (MkGenerator (X_body layer prefetch)).

(** ** AxisIndexer *)

(** [pd.Index(data).get_indexer(target)]: the position of every target
    in the index and -1 for a target that is not in it; an index with
    repeated values refuses the request. *)
Definition position_of (index : Column) (c : value) : Z :=
  match list_find (fun x => x = c) index with
  | Some (i, _) => Z.of_nat i
  | None => -1
  end.

Definition get_indexer (index target : Column) : result (list Z) :=
  if decide (NoDup index)
  then Ok (map (position_of index) target)
  else Err InvalidIndexError.

(** [pd.Index(data=ids.to_numpy())] *)
Definition build_index (ids : option Column) : M Column :=
  match ids with
  | Some data => ret data
  | None => raise AttributeError
  end.

(** [AxisIndexer.obs_index] and [AxisIndexer.var_index]; the indexer
    and the query it refers to are one object here. *)
Definition obs_index (coords : Column) : M (list Z) :=
  let* self := get_this in
  (if bool_decide (_obs_index (_indexer self) = None)
   then let* ids := obs_joinids in
        let* index := build_index ids in
        modify_this (fun q =>
          with_indexer {| _obs_index := Some index;
                          _var_index := _var_index (_indexer q) |} q)
   else ret tt) ;;;
  let* self := get_this in
  let* index := build_index (_obs_index (_indexer self)) in
  lift (get_indexer index coords).

Definition var_index (coords : Column) : M (list Z) :=
  let* self := get_this in
  (if bool_decide (_var_index (_indexer self) = None)
   then let* ids := var_joinids in
        let* index := build_index ids in
        modify_this (fun q =>
          with_indexer {| _obs_index := _obs_index (_indexer q);
                          _var_index := Some index |} q)
   else ret tt) ;;;
  let* self := get_this in
  let* index := build_index (_var_index (_indexer self)) in
  lift (get_indexer index coords).

Definition axis_index (a : axis) : Column -> M (list Z) :=
  match a with Obs => obs_index | Var => var_index end.

(** ** Reading the whole query result *)

(** A Python [dict] with insertion order. *)
Abbreviation dict V := (list (value * V)).

Definition dict_set {V} (k : value) (v : V) (d : dict V) : dict V :=
  if bool_decide (k ∈ d.*1)
  then map (fun p => if decide (p.1 = k) then (k, v) else p) d
  else d ++ [(k, v)].

Definition dict_get {V} (k : value) (d : dict V) : option V :=
  snd <$> (snd <$> list_find (fun p => p.1 = k) d).

(** [d.pop(k)] *)
Definition dict_pop {V} (k : value) (d : dict V) : result (V * dict V) :=
  match dict_get k d with
  | Some v => Ok (v, filter (fun p => p.1 ≠ k) d)
  | None => Err KeyError
  end.

(** [pa.Table.from_arrays(arrays, names=names)] *)
Definition from_arrays (arrays : list Column) (names : list string) : result Table :=
  if negb (bool_decide (length arrays = length names)) then Err ValueError
  else
    match arrays with
    | [] => Ok []
    | a :: rest =>
        if forallb (fun c => (length c =? length a)%nat) rest
        then Ok (zip names arrays)
        else Err ArrowInvalid
    end.

Fixpoint rewrite_items (items : list (value * Table)) (new_X_tables : dict Table)
    : M (dict Table) :=
  match items with
  | [] => ret new_X_tables
  | (X_name, X_table) :: rest =>
      let* dim0 := lift (column "soma_dim_0" X_table) in
      let* pos0 := obs_index dim0 in
      let* dim1 := lift (column "soma_dim_1" X_table) in
      let* pos1 := var_index dim1 in
      let* data := lift (column "soma_data" X_table) in
      let* tbl := lift (from_arrays [map VInt pos0; map VInt pos1; data]
                                    ["_dim_0"; "_dim_1"; "soma_data"]) in
      rewrite_items rest (dict_set X_name tbl new_X_tables)
  end.

Definition _rewrite_X_for_positional_indexing (X_tables : dict Table) : M (dict Table) :=
  rewrite_items X_tables [].

(** The validation loop at the head of [read]. *)
Fixpoint check_X_names (X_collection : gmap string NDArray) (names : list value)
    : result unit :=
  match names with
  | [] => Ok tt
  | _xname :: rest =>
      if negb (is_str _xname) || negb (truthy _xname) then Err ValueError
      else
        match lookup_layer X_collection _xname with
        | None => Err ValueError
        | Some arr =>
            if negb (bool_decide (soma_type arr = SOMASparseNDArray))
            then Err NotImplementedError
            else check_X_names X_collection rest
        end
  end.

(** The dict comprehension of [read] that drains every matrix. *)
Fixpoint fetch_X_tables (X_collection : gmap string NDArray) (names : list value)
    (X_tables : dict Table) : M (dict Table) :=
  match names with
  | [] => ret X_tables
  | _xname :: rest =>
      let* arr := match lookup_layer X_collection _xname with
                  | Some arr => ret arr
                  | None => raise KeyError
                  end in
      let* chunks := _fetchX arr true in
      let* tbl := lift (concat_tables chunks) in
      fetch_X_tables X_collection rest (dict_set _xname tbl X_tables)
  end.

(** A [column_names] dict in the hands of [read]: the caller's object,
    by reference, or the one [read] made for itself. *)
Inductive dict_ref :=
| Local (d : AxisColumnNames)
| Shared (l : nat).

Definition deref (r : dict_ref) : M AxisColumnNames :=
  match r with
  | Local d => ret d
  | Shared l =>
      fun s => match heap (world s) !! l with
               | Some d => (Ok d, s)
               | None => (Err RuntimeError, s)  (* a reference denotes an object *)
               end
  end.

(** [r[key] = v] *)
Definition setitem (key : string) (v : option (list string)) (r : dict_ref) : M dict_ref :=
  match r with
  | Local d => ret (Local (<[key := v]> d))
  | Shared l =>
      let* d := deref r in
      modify_world (fun w => with_heap (<[l := <[key := v]> d]> (heap w)) w) ;;;
      ret r
  end.

(** [if key not in r: r[key] = None] *)
Definition default_key (key : string) (r : dict_ref) : M dict_ref :=
  let* d := deref r in
  if bool_decide (d !! key = None) then setitem key None r else ret r.

(** [r[key]] *)
Definition getitem (key : string) (r : dict_ref) : M (option (list string)) :=
  let* d := deref r in
  match d !! key with
  | Some v => ret v
  | None => raise KeyError
  end.

Record ExperimentQueryReadArrowResult := mkReadResult {
  res_obs : Table;
  res_var : Table;
  res_X : Table;
  res_X_layers : option (dict Table)
}.

(** [ExperimentQuery.read] *)
Definition read (X_name : value) (use_position_indexing : bool)
    (column_names : option nat) (X_layers : option (list value))
    : M ExperimentQueryReadArrowResult :=
  let* m := self_measurement in
  let X_collection := X m in
  let X_layers := default [] X_layers in
  let all_X_names := X_name :: X_layers in
  let* _ := lift (check_X_names X_collection all_X_names) in
  let column_names :=
    match column_names with
    | None => Local {[ "obs" := None; "var" := None ]}
    | Some l => Shared l
    end in
  let* column_names := default_key "obs" column_names in
  let* column_names := default_key "var" column_names in
  let* self := get_this in
  let* obs_columns := getitem "obs" column_names in
  let* f_obs := submit (_read_axis_dataframe Obs (obs (experiment self)) obs_columns) in
  let* m := self_measurement in
  let* var_columns := getitem "var" column_names in
  let* f_var := submit (_read_axis_dataframe Var (var m) var_columns) in
  let* obs_table := future_result f_obs in
  let* var_table := future_result f_var in
  let* X_tables := fetch_X_tables X_collection all_X_names [] in
  let* X_tables := (if use_position_indexing
                    then _rewrite_X_for_positional_indexing X_tables
                    else ret X_tables) in
  let* '(X, X_tables) := lift (dict_pop X_name X_tables) in
  if (0 <? length X_layers)%nat
  then
    assert (length X_layers =? length X_tables)%nat ;;;
    ret {| res_obs := obs_table; res_var := var_table; res_X := X;
           res_X_layers := Some X_tables |}
  else
    ret {| res_obs := obs_table; res_var := var_table; res_X := X;
           res_X_layers := None |}.

(** ** The scoped helper [experiment_query] *)

(** How a suspended generator is resumed: [next(gen)] or
    [gen.throw(e)]. *)
Inductive resumption :=
| Next
| Throw (e : exn).

(** The generator [experiment_query] up to its [yield]. *)
Definition experiment_query_enter (experiment : Experiment) (measurement_name : string)
    (obs_query var_query : option AxisQuery) (w : World) : result ExperimentQuery * World :=
  ExperimentQuery_init experiment measurement_name obs_query var_query w.

(** The generator [experiment_query] from its [yield] on. The [yield]
    stands in no [try] statement, so an exception thrown into it leaves
    the generator at once. *)
Definition experiment_query_resume (r : resumption) : M unit :=
  match r with
  | Throw e => raise e
  | Next => close
  end.

(** [with experiment_query(...) as query: body], by the protocol of
    [contextlib.contextmanager]: [__enter__] runs the generator to its
    [yield]; [__exit__] resumes it with [next] after a body that
    completed and with [throw] after a body that raised. *)
Definition with_experiment_query {A} (experiment : Experiment) (measurement_name : string)
    (obs_query var_query : option AxisQuery) (body : M A) (w : World) : result A * World :=
  match experiment_query_enter experiment measurement_name obs_query var_query w with
  | (Err e, w1) => (Err e, w1)
  | (Ok query, w1) =>
      match body {| this := query; world := w1 |} with
      | (Ok a, s2) =>
          match experiment_query_resume Next s2 with
          | (Ok _, s3) => (Ok a, world s3)
          | (Err e, s3) => (Err e, world s3)
          end
      | (Err e, s2) =>
          match experiment_query_resume (Throw e) s2 with
          | (Ok _, s3) => (Err RuntimeError, world s3)  (* generator didn't stop after throw() *)
          | (Err e', s3) => (Err e', world s3)
          end
      end
  end.

(** The number of [shutdown()] calls the executor [pool] has seen. *)
Definition shutdown_calls (pool : nat) (w : World) : option nat := pools w !! pool.

(** ** The asynchronous facade *)

(** [to_thread(f)] awaits [f] run on the event loop's default executor.
    It is modelled by what the awaiting caller gets and by what [f]
    does to the query; the event loop and its executor, which asyncio
    creates on first use, are not among the executors of [pools], which
    holds the executors of the queries only. *)
Definition to_thread {A} (f : M A) : M A := f.

(** The loop of [async_iter] over a started generator. *)
Fixpoint async_iter_loop {T} (fuel : nat) (gen : list T) : M (option (list T)) :=
  match fuel with
  | O => ret None
  | S fuel' =>
      let '(r, gen') := wrap_generator_next gen in
      let* '(value, done) := to_thread (ret r) in
      if done : bool then ret (Some [])
      else
        assert (bool_decide (is_Some value)) ;;;
        let* rest := async_iter_loop fuel' gen' in
        ret (match value, rest with
             | Some v, Some values => Some (v :: values)
             | _, _ => None
             end)
  end.

(** [async_iter(gen)], iterated to its end: the first [_next] starts
    the generator. *)
Definition async_iter {T} (gen : Generator T) : M (list T) :=
  let* values := to_thread (iterate gen) in
  let* yielded := async_iter_loop (S (length values)) values in
  match yielded with
  | Some l => ret l
  | None => raise RuntimeError  (* out of fuel: never, see [async_iter_loop_total] *)
  end.

(** The generator expression [(i for i in gen)]. *)
Definition genexpr {T} (gen : Generator T) : Generator T :=
  MkGenerator (iterate gen).

(** The body of the async generator [AsyncExperimentQuery.X]. *)
Definition AsyncExperimentQuery_X_body (layer : value) (prefetch : bool) : M (list Table) :=
  let* gen := X_call layer prefetch in
  async_iter (genexpr gen).

(** ** More of the asynchronous facade *)

(** [AsyncExperimentQuery.close], [n_obs] and [n_vars] hand over to the
    query the facade wraps; facade and query are one object here. *)
Definition AsyncExperimentQuery_close : M unit := close.
Definition AsyncExperimentQuery_n_obs : M nat := n_obs.
Definition AsyncExperimentQuery_n_vars : M nat := n_vars.

(** [AsyncExperimentQuery.obs] and [AsyncExperimentQuery.var] *)
Definition AsyncExperimentQuery_obs (column_names : option (list string)) : M Table :=
  to_thread (obs_table column_names).

Definition AsyncExperimentQuery_var (column_names : option (list string)) : M Table :=
  to_thread (var_table column_names).

(** [AsyncExperimentQuery.obs_joinids] and
    [AsyncExperimentQuery.var_joinids]: the cached sequence if there is
    one, without a thread; otherwise the query's own method, on a
    thread. *)
Definition AsyncExperimentQuery_obs_joinids : M (option Column) :=
  let* self := get_this in
  if bool_decide (get_axis Obs (_joinids self) ≠ None)
  then ret (get_axis Obs (_joinids self))
  else to_thread obs_joinids.

Definition AsyncExperimentQuery_var_joinids : M (option Column) :=
  let* self := get_this in
  if bool_decide (get_axis Var (_joinids self) ≠ None)
  then ret (get_axis Var (_joinids self))
  else to_thread var_joinids.

(** [k] calls in a row of the function [wrap_generator] returns: what
    the last of them reports, and the generator it leaves. *)
Fixpoint wrap_generator_calls {T} (k : nat) (gen : list T) : (option T * bool) * list T :=
  match k with
  | O => wrap_generator_next gen
  | S k' => wrap_generator_calls k' (snd (wrap_generator_next gen))
  end.

(** ** Storage for the examples *)

(** A dataframe kept in memory: rows are selected by the join ids of
    the coordinate selection and columns by name. *)
Definition keep_rows (mask : list bool) (c : Column) : Column :=
  snd <$> filter (fun p => p.1 = true) (zip mask c).

Definition selected (sel : list coord_sel) (id : value) : bool :=
  match sel, id with
  | CoordIds ids :: _, VInt z => bool_decide (z ∈ ids)
  | CoordIds _ :: _, _ => false
  | _, _ => true
  end.

Definition memory_dataframe (stored : Table) : DataFrame :=
  {| read_all := fun sel _ names =>
       match column soma_joinid stored with
       | Err _ => Err (StorageError "no soma_joinid")
       | Ok ids =>
           let mask := map (selected sel) ids in
           let rows := map (fun p => (p.1, keep_rows mask p.2)) stored in
           match names with
           | None => Ok rows
           | Some names =>
               match select names rows with
               | Ok t => Ok t
               | Err _ => Err (StorageError "unknown column")
               end
           end
       end |}.

(** A dataframe whose every read fails. *)
Definition failing_dataframe : DataFrame :=
  {| read_all := fun _ _ _ => Err (StorageError "unavailable") |}.

(** A sparse matrix kept in memory as fragments of (row, column, data)
    cells; a read delivers one chunk per fragment. *)
Definition cell_in (obs_ids var_ids : Column) (c : Z * Z * Z) : bool :=
  bool_decide (VInt c.1.1 ∈ obs_ids) && bool_decide (VInt c.1.2 ∈ var_ids).

Definition chunk_of (cells : list (Z * Z * Z)) : Table :=
  [("soma_dim_0", map (fun c => VInt c.1.1) cells);
   ("soma_dim_1", map (fun c => VInt c.1.2) cells);
   ("soma_data", map (fun c => VInt c.2) cells)].

Definition memory_matrix (type : string) (fragments : list (list (Z * Z * Z))) : NDArray :=
  {| soma_type := type;
     schema := ["soma_dim_0"; "soma_dim_1"; "soma_data"];
     read_table := fun obs_ids var_ids =>
       Ok (map (fun cells => chunk_of (filter (fun c => cell_in obs_ids var_ids c = true) cells))
               fragments) |}.

(** The scenario of the documentation: obs rows 10, 20 and 30, var rows
    1 and 2, a sparse layer [raw] with the cells (10,1,5) and (20,2,7)
    and a stray cell (99,1,1), and a dense layer [dense]. *)
Definition example_obs : Table :=
  [("soma_joinid", [VInt 10; VInt 20; VInt 30]);
   ("cell_type", [VStr "T"; VStr "B"; VStr "NK"])].

Definition example_var : Table :=
  [("soma_joinid", [VInt 1; VInt 2]);
   ("feature_name", [VStr "g1"; VStr "g2"])].

Definition example_measurement : Measurement :=
  {| var := memory_dataframe example_var;
     X := {[ "raw" := memory_matrix SOMASparseNDArray [[(10, 1, 5)]; [(20, 2, 7); (99, 1, 1)]];
             "dense" := memory_matrix "SOMADenseNDArray" [] ]} |}.

Definition example_experiment : Experiment :=
  {| exists_ := true;
     obs := memory_dataframe example_obs;
     ms := {[ "RNA" := example_measurement ]} |}.

Definition empty_world : World :=
  {| io_log := []; heap := ∅; pools := [] |}.

(** The query on [example_experiment], as constructed in an empty
    world. *)
Definition example_state (obs_query var_query : option AxisQuery) : State :=
  match ExperimentQuery_init example_experiment "RNA" obs_query var_query empty_world with
  | (Ok q, w) => {| this := q; world := w |}
  | (Err _, w) =>
      {| this := {| experiment := example_experiment; ms_name := "RNA";
                    _query := {| at_obs := default_axis_query; at_var := default_axis_query |};
                    _joinids := {| at_obs := None; at_var := None |};
                    _indexer := {| _obs_index := None; _var_index := None |};
                    _default_threadpool := O |};
         world := w |}
  end.

(** The query on an experiment with three sparse layers, [raw], [norm]
    and [scaled]. *)
Definition layered_measurement : Measurement :=
  {| var := memory_dataframe example_var;
     X := {[ "raw" := memory_matrix SOMASparseNDArray [[(10, 1, 5)]; [(20, 2, 7); (99, 1, 1)]];
             "norm" := memory_matrix SOMASparseNDArray [[(10, 1, 50); (20, 2, 70)]];
             "scaled" := memory_matrix SOMASparseNDArray [[(30, 2, 3)]; [(10, 1, 1)]] ]} |}.

Definition layered_state : State :=
  {| this := {| experiment := {| exists_ := true;
                                 obs := memory_dataframe example_obs;
                                 ms := {[ "RNA" := layered_measurement ]} |};
                ms_name := "RNA";
                _query := {| at_obs := default_axis_query; at_var := default_axis_query |};
                _joinids := {| at_obs := None; at_var := None |};
                _indexer := {| _obs_index := None; _var_index := None |};
                _default_threadpool := O |};
     world := {| io_log := []; heap := ∅; pools := [O] |} |}.

(** * The vocabulary of the properties *)

(** [preserves R c]: however [c] ends, with a value or an exception,
    the state it ends in is related by [R] to the state it started
    in. *)
Definition preserves (R : State -> State -> Prop) {A} (c : M A) : Prop :=
  forall s r s', c s = (r, s') -> R s s'.

(** Why a requested matrix name is refused, if it is: it is not a
    non-empty string, it is not in the collection, or the matrix it
    names is not a sparse array. *)
Definition name_error (X_collection : gmap string NDArray) (name : value) : option exn :=
  if negb (is_str name) || negb (truthy name) then Some ValueError
  else
    match lookup_layer X_collection name with
    | None => Some ValueError
    | Some arr =>
        if bool_decide (soma_type arr = SOMASparseNDArray)
        then None
        else Some NotImplementedError
    end.

(** The state [s] after a storage read has been logged, and after the
    join ids of an axis have been cached. *)
Definition logged (ev : io_event) (s : State) : State :=
  {| this := this s; world := with_io_log (io_log (world s) ++ [ev]) (world s) |}.

Definition cached (a : axis) (ids : Column) (s : State) : State :=
  {| this := with_joinids (set_axis a (Some ids) (_joinids (this s))) (this s);
     world := world s |}.

(** The columns [_read_axis_dataframe] asks storage for. *)
Definition query_columns_of (need_joinids : bool) (column_names : option (list string))
    : option (list string) :=
  match column_names with
  | Some names =>
      if need_joinids && negb (bool_decide (soma_joinid ∈ names))
      then Some (soma_joinid :: names)
      else column_names
  | None => column_names
  end.

Definition narrow (column_names : option (list string)) (tbl : Table) : result Table :=
  match column_names with
  | Some names => select names tbl
  | None => Ok tbl
  end.

(** [query_frame s s']: from [s] to [s'] the query kept its experiment,
    measurement, filters and executor, and every axis whose join ids
    were cached in [s] has the same join ids cached in [s']. *)
Record query_frame (s s' : State) : Prop := mkQueryFrame {
  frame_experiment : experiment (this s') = experiment (this s);
  frame_ms_name : ms_name (this s') = ms_name (this s);
  frame_query : _query (this s') = _query (this s);
  frame_pool : _default_threadpool (this s') = _default_threadpool (this s);
  frame_joinids : forall a ids,
      get_axis a (_joinids (this s)) = Some ids ->
      get_axis a (_joinids (this s')) = Some ids
}.

(** The operations a caller can invoke on a query, and a run of
    several of them in a row, exceptions being caught by the caller. *)
Inductive call :=
| Call_read_axis_dataframe (a : axis) (axis_df : DataFrame) (column_names : option (list string))
| Call_read_axis_joinids (a : axis) (axis_df : DataFrame)
| Call_obs (column_names : option (list string))
| Call_var (column_names : option (list string))
| Call_obs_joinids
| Call_var_joinids
| Call_n_obs
| Call_n_vars
| Call_X (layer : value) (prefetch : bool)
| Call_async_X (layer : value) (prefetch : bool)
| Call_read (X_name : value) (use_position_indexing : bool)
    (column_names : option nat) (X_layers : option (list value))
| Call_obs_index (coords : Column)
| Call_var_index (coords : Column)
| Call_close.

Definition run_call (c : call) (s : State) : State :=
  match c with
  | Call_read_axis_dataframe a axis_df column_names =>
      snd (_read_axis_dataframe a axis_df column_names s)
  | Call_read_axis_joinids a axis_df => snd (_read_axis_joinids a axis_df s)
  | Call_obs column_names => snd (obs_table column_names s)
  | Call_var column_names => snd (var_table column_names s)
  | Call_obs_joinids => snd (obs_joinids s)
  | Call_var_joinids => snd (var_joinids s)
  | Call_n_obs => snd (n_obs s)
  | Call_n_vars => snd (n_vars s)
  | Call_X layer prefetch => snd (X_body layer prefetch s)
  | Call_async_X layer prefetch => snd (AsyncExperimentQuery_X_body layer prefetch s)
  | Call_read X_name use_position_indexing column_names X_layers =>
      snd (read X_name use_position_indexing column_names X_layers s)
  | Call_obs_index coords => snd (obs_index coords s)
  | Call_var_index coords => snd (var_index coords s)
  | Call_close => snd (close s)
  end.

Definition run_calls (calls : list call) (s : State) : State :=
  foldl (fun s c => run_call c s) s calls.

(** The example experiment with its [obs] dataframe out of reach. *)
Definition unreachable_obs_experiment : Experiment :=
  {| exists_ := true;
     obs := failing_dataframe;
     ms := {[ "RNA" := example_measurement ]} |}.

Definition unreachable_obs_state : State :=
  {| this := {| experiment := unreachable_obs_experiment; ms_name := "RNA";
                _query := {| at_obs := default_axis_query; at_var := default_axis_query |};
                _joinids := {| at_obs := None; at_var := None |};
                _indexer := {| _obs_index := None; _var_index := None |};
                _default_threadpool := O |};
     world := {| io_log := []; heap := ∅; pools := [O] |} |}.

(** The index the indexer holds for an axis, and the state after it
    has been built. *)
Definition index_of (a : axis) (q : ExperimentQuery) : option Column :=
  match a with
  | Obs => _obs_index (_indexer q)
  | Var => _var_index (_indexer q)
  end.

Definition indexed (a : axis) (index : Column) (s : State) : State :=
  {| this := with_indexer
               match a with
               | Obs => {| _obs_index := Some index;
                           _var_index := _var_index (_indexer (this s)) |}
               | Var => {| _obs_index := _obs_index (_indexer (this s));
                           _var_index := Some index |}
               end (this s);
     world := world s |}.

(** [outer_frame s s']: from [s] to [s'] no dict of the caller and no
    executor changed. *)
Definition outer_frame (s s' : State) : Prop :=
  heap (world s') = heap (world s) /\ pools (world s') = pools (world s).

(** A dict with the key [key] defaulted to [None], and with both axis
    keys defaulted. *)
Definition default_at (key : string) (d : AxisColumnNames) : AxisColumnNames :=
  if bool_decide (d !! key = None) then <[key := None]> d else d.

Definition completed (d : AxisColumnNames) : AxisColumnNames :=
  default_at "var" (default_at "obs" d).

(** The state in which the dict at [l] is [d]. *)
Definition set_dict (l : nat) (d : AxisColumnNames) (s : State) : State :=
  {| this := this s; world := with_heap (<[l := d]> (heap (world s))) (world s) |}.

(** The example query with the caller's dict [d] at reference 0. *)
Definition example_state_with_dict (d : AxisColumnNames) : State :=
  set_dict 0 d (example_state None None).

(** The table [read] gets for a matrix when the selection is empty. *)
Definition empty_for (X_collection : gmap string NDArray) (n : value) : Table :=
  match lookup_layer X_collection n with
  | Some arr => from_pylist_empty (schema arr)
  | None => []
  end.

Definition sparse_schema : list string := ["soma_dim_0"; "soma_dim_1"; "soma_data"].

Definition positional_empty : Table := [("_dim_0", []); ("_dim_1", []); ("soma_data", [])].

(** What the rewriting needs of a state: the measurement is there, the
    join ids of both axes are cached without repetitions, and an index
    already built was built from them. *)
Record indexable (m : Measurement) (o v : Column) (s : State) : Prop := mkIndexable {
  idx_measurement : ms (experiment (this s)) !! ms_name (this s) = Some m;
  idx_obs_ids : get_axis Obs (_joinids (this s)) = Some o;
  idx_var_ids : get_axis Var (_joinids (this s)) = Some v;
  idx_obs_nodup : NoDup o;
  idx_var_nodup : NoDup v;
  idx_obs_index : index_of Obs (this s) = None \/ index_of Obs (this s) = Some o;
  idx_var_index : index_of Var (this s) = None \/ index_of Var (this s) = Some v
}.

Definition both_indexed (o v : Column) (s : State) : State :=
  indexed Var v (indexed Obs o s).

(** The state in which [read] starts its axis reads, and the columns
    it requests for an axis, given the caller's [column_names]. *)
Definition entered (column_names : option nat) (s : State) : State :=
  match column_names with
  | Some l =>
      match heap (world s) !! l with
      | Some d => set_dict l (completed d) s
      | None => s
      end
  | None => s
  end.

Definition requested (key : string) (column_names : option nat) (s : State)
    : option (list string) :=
  match column_names with
  | Some l =>
      match heap (world s) !! l with
      | Some d => default None (d !! key)
      | None => None
      end
  | None => None
  end.

(** A filter that selects no row, and the example query with no
    observation selected, before and after its join ids are resolved. *)
Definition no_rows : AxisQuery := {| coords := [CoordIds []]; value_filter := None |}.

Definition empty_selection_state : State :=
  run_calls [Call_obs_joinids; Call_var_joinids] (example_state (Some no_rows) None).

(** A matrix table as storage delivers it: the three columns of a
    sparse matrix, of one length. *)
Definition matrix_table (t : Table) (dim0 dim1 data : Column) : Prop :=
  column "soma_dim_0" t = Ok dim0
  /\ column "soma_dim_1" t = Ok dim1
  /\ column "soma_data" t = Ok data
  /\ length dim0 = length data
  /\ length dim1 = length data.

(** The same table with join ids replaced by positions in the cached
    join ids [o] and [v]. *)
Definition positional_table (o v dim0 dim1 data : Column) : Table :=
  [("_dim_0", map VInt (map (position_of o) dim0));
   ("_dim_1", map VInt (map (position_of v) dim1));
   ("soma_data", data)].

(** An index, once built, was built from the cached join ids of its
    axis: this holds of a new query and of every state a run of calls
    leads to. *)
Definition indexer_consistent (s : State) : Prop :=
  forall a, index_of a (this s) = None
            \/ index_of a (this s) = get_axis a (_joinids (this s)).

Definition keeps_consistent (s s' : State) : Prop :=
  indexer_consistent s -> indexer_consistent s'.

(** The part of [read] that follows the completion of [column_names]:
    the two axis reads, the matrices, the positional rewriting and the
    assembly of the result. *)
Definition read_after_defaults (X_collection : gmap string NDArray) (X_name : value)
    (X_layers : list value) (use_position_indexing : bool) (column_names : dict_ref)
    : M ExperimentQueryReadArrowResult :=
  let all_X_names := X_name :: X_layers in
  let* self := get_this in
  let* obs_columns := getitem "obs" column_names in
  let* f_obs := submit (_read_axis_dataframe Obs (obs (experiment self)) obs_columns) in
  let* m := self_measurement in
  let* var_columns := getitem "var" column_names in
  let* f_var := submit (_read_axis_dataframe Var (var m) var_columns) in
  let* obs_table := future_result f_obs in
  let* var_table := future_result f_var in
  let* X_tables := fetch_X_tables X_collection all_X_names [] in
  let* X_tables := (if use_position_indexing
                    then _rewrite_X_for_positional_indexing X_tables
                    else ret X_tables) in
  let* '(X, X_tables) := lift (dict_pop X_name X_tables) in
  if (0 <? length X_layers)%nat
  then
    assert (length X_layers =? length X_tables)%nat ;;;
    ret {| res_obs := obs_table; res_var := var_table; res_X := X;
           res_X_layers := Some X_tables |}
  else
    ret {| res_obs := obs_table; res_var := var_table; res_X := X;
           res_X_layers := None |}.

(** The dict [read] works on, given the caller's argument. *)
Definition dict_of_argument (column_names : option nat) : dict_ref :=
  match column_names with
  | None => Local {[ "obs" := None; "var" := None ]}
  | Some l => Shared l
  end.

(** [keeps_cache b s s']: the cached join ids of axis [b] are in [s']
    what they are in [s]. *)
Definition keeps_cache (b : axis) (s s' : State) : Prop :=
  get_axis b (_joinids (this s')) = get_axis b (_joinids (this s)).

(** [same_pools s s']: from [s] to [s'] no executor of a query, as
    [ExperimentQuery.__init__] creates them, was created or shut
    down. *)
Definition same_pools (s s' : State) : Prop :=
  pools (world s') = pools (world s).

(** [same_heap s s']: from [s] to [s'] no dict of the caller changed. *)
Definition same_heap (s s' : State) : Prop :=
  heap (world s') = heap (world s).

(** The calls that use a dict of the caller, and the call [close]. *)
Definition uses_caller_dict (c : call) : bool :=
  match c with
  | Call_read _ _ (Some _) _ => true
  | _ => false
  end.

Definition is_close (c : call) : bool :=
  match c with
  | Call_close => true
  | _ => false
  end.

(** The calls of the asynchronous facade, which run on the event loop. *)
Definition is_async (c : call) : bool :=
  match c with
  | Call_async_X _ _ => true
  | _ => false
  end.

(** The keys of a dict after the keys [names] have been set in it, in
    this order. *)
Definition add_key (keys : list value) (k : value) : list value :=
  if bool_decide (k ∈ keys) then keys else keys ++ [k].

Definition keys_after (keys names : list value) : list value :=
  foldl add_key keys names.

(** The state [X] reaches before it reads the matrix: the join ids of
    both axes have been looked for, on the executor, [obs] first. *)
Definition resolved_for_X (s : State) : State :=
  let s1 := if joinids_truthy (get_axis Obs (_joinids (this s)))
            then s else snd (obs_joinids s) in
  if joinids_truthy (get_axis Var (_joinids (this s)))
  then s1 else snd (var_joinids s1).

(** * Properties *)

(** ** Reasoning about monadic code *)

Lemma bind_ok {A B} (c : M A) (k : A -> M B) s a s' :
  c s = (Ok a, s') -> bind c k s = k a s'.
Proof. intros H. unfold bind. now rewrite H. Qed.

Lemma bind_err {A B} (c : M A) (k : A -> M B) s e s' :
  c s = (Err e, s') -> bind c k s = (Err e, s').
Proof. intros H. unfold bind. now rewrite H. Qed.

Lemma bind_inv_ok {A B} (c : M A) (k : A -> M B) s b s' :
  bind c k s = (Ok b, s') ->
  exists a s1, c s = (Ok a, s1) /\ k a s1 = (Ok b, s').
Proof.
  unfold bind. destruct (c s) as [[a|e] s1]; intros H.
  - eauto.
  - discriminate.
Qed.

Lemma bind_inv_err {A B} (c : M A) (k : A -> M B) s e s' :
  bind c k s = (Err e, s') ->
  c s = (Err e, s') \/ exists a s1, c s = (Ok a, s1) /\ k a s1 = (Err e, s').
Proof.
  unfold bind. destruct (c s) as [[a|e0] s1]; intros H.
  - right. eauto.
  - left. inversion H; subst. reflexivity.
Qed.

Ltac unfold_monad :=
  unfold bind, ret, raise, lift, get_this, modify_this, modify_world, log_io,
    assert, future_result, to_thread in *.

(** ** Construction *)

Lemma init_ok_inv experiment name oq vq w q w' :
  ExperimentQuery_init experiment name oq vq w = (Ok q, w') ->
  exists_ experiment = true /\ is_Some (ms experiment !! name) /\
  _joinids q = {| at_obs := None; at_var := None |} /\
  _indexer q = {| _obs_index := None; _var_index := None |} /\
  _default_threadpool q = length (pools w) /\
  w' = with_pools (pools w ++ [O]) w.
Proof.
  unfold ExperimentQuery_init.
  destruct (exists_ experiment); simpl; [|discriminate].
  case_bool_decide as Hm; simpl; [|discriminate].
  intros H. inversion H; subst; clear H. simpl. repeat split; auto.
Qed.

(** C8, as the code has it: a query on an experiment that does not
    exist, or on a measurement the experiment does not have, is
    refused with [ValueError]; the world is left as it was: nothing was
    read and no executor was created. *)
Theorem init_rejects_unresolved experiment name oq vq w :
  exists_ experiment = false \/ ms experiment !! name = None ->
  ExperimentQuery_init experiment name oq vq w = (Err ValueError, w).
Proof.
  intros [H|H]; unfold ExperimentQuery_init.
  - now rewrite H.
  - destruct (exists_ experiment); simpl; [|reflexivity].
    rewrite H. case_bool_decide as Hs; simpl; [|reflexivity].
    destruct Hs as [x Hx]. discriminate.
Qed.

Lemma init_rejects_unresolved_witness :
  ExperimentQuery_init example_experiment "DNA" None None empty_world
  = (Err ValueError, empty_world).
Proof. apply init_rejects_unresolved. right. reflexivity. Defined.

(** C8 as stated fails: the exception raised for an experiment that
    does not exist is not a [ValidationError]. *)
Lemma init_error_not_ValidationError :
  ~ (exists e,
        fst (ExperimentQuery_init
               {| exists_ := false; obs := failing_dataframe; ms := ∅ |}
               "RNA" None None empty_world) = Err e
        /\ is_instance e "ValidationError" = true).
Proof.
  intros [e [He Hi]]. simpl in He. inversion He; subst. discriminate.
Qed.

(** ** Lifecycle *)

Lemma close_spec s :
  close s
  = (Ok tt, {| this := this s;
               world := with_pools (alter S (_default_threadpool (this s)) (pools (world s)))
                                   (world s) |}).
Proof. reflexivity. Qed.

(** When the body completes, the helper closes the query it opened,
    once, after the body. *)
Lemma with_experiment_query_normal_exit {A} experiment name oq vq (body : M A) w q w1 a s2 :
  ExperimentQuery_init experiment name oq vq w = (Ok q, w1) ->
  body {| this := q; world := w1 |} = (Ok a, s2) ->
  with_experiment_query experiment name oq vq body w = (Ok a, world (snd (close s2))).
Proof.
  intros Hinit Hbody. unfold with_experiment_query, experiment_query_enter.
  rewrite Hinit, Hbody. reflexivity.
Qed.

Lemma close_shutdown_calls s n :
  shutdown_calls (_default_threadpool (this s)) (world s) = Some n ->
  shutdown_calls (_default_threadpool (this s)) (world (snd (close s))) = Some (S n).
Proof.
  unfold shutdown_calls. rewrite close_spec. simpl. intros H.
  rewrite list_lookup_alter_eq, H. reflexivity.
Qed.

(** C2, on the path where the body raises: the helper hands the body's
    exception on and leaves the world as the body left it. [close] is
    not called: the executor has seen no [shutdown()] beyond those of
    the body itself. *)
Theorem experiment_query_exception_skips_close {A} experiment name oq vq
    (body : M A) w q w1 e s2 :
  ExperimentQuery_init experiment name oq vq w = (Ok q, w1) ->
  body {| this := q; world := w1 |} = (Err e, s2) ->
  with_experiment_query experiment name oq vq body w = (Err e, world s2)
  /\ shutdown_calls (_default_threadpool q)
       (snd (with_experiment_query experiment name oq vq body w))
     = shutdown_calls (_default_threadpool q) (world s2).
Proof.
  intros Hinit Hbody.
  assert (Heq : with_experiment_query experiment name oq vq body w = (Err e, world s2)).
  { unfold with_experiment_query, experiment_query_enter.
    rewrite Hinit, Hbody. reflexivity. }
  split; [exact Heq|]. now rewrite Heq.
Qed.

Lemma experiment_query_exception_skips_close_witness :
  with_experiment_query example_experiment "RNA" None None
    (raise (A := unit) (StorageError "lost")) empty_world
  = (Err (StorageError "lost"), with_pools [O] empty_world)
  /\ shutdown_calls O
       (snd (with_experiment_query example_experiment "RNA" None None
               (raise (A := unit) (StorageError "lost")) empty_world))
     = Some O.
Proof.
  exact (experiment_query_exception_skips_close (A := unit)
           example_experiment "RNA" None None (raise (StorageError "lost"))
           empty_world
           (this (example_state None None)) (with_pools [O] empty_world)
           (StorageError "lost") (example_state None None)
           eq_refl eq_refl).
Defined.

(** ** Generators, prefetch and the asynchronous facade *)

Lemma wrap_generator_done {T} (gen : list T) :
  snd (fst (wrap_generator_next gen)) = true <-> gen = [].
Proof. destruct gen; simpl; split; congruence. Qed.

Lemma wrap_generator_value {T} (v : T) (rest : list T) :
  wrap_generator_next (v :: rest) = ((Some v, false), rest).
Proof. reflexivity. Qed.

Lemma async_iter_loop_total {T} (gen : list T) :
  forall fuel s, (length gen < fuel)%nat ->
  async_iter_loop fuel gen s = (Ok (Some gen), s).
Proof.
  induction gen as [|v gen IH]; intros fuel s Hfuel;
    (destruct fuel as [|fuel]; [simpl in Hfuel; lia|]).
  - reflexivity.
  - simpl in Hfuel. simpl. unfold_monad. simpl.
    rewrite (IH fuel s) by lia. reflexivity.
Qed.

Lemma submit_open {A} (task : M A) s :
  pool_is_open s = true ->
  submit task s = (Ok (fst (task s)), snd (task s)).
Proof. intros H. unfold submit. rewrite H. now destruct (task s). Qed.

Lemma submit_closed {A} (task : M A) s :
  pool_is_open s = false -> submit task s = (Err RuntimeError, s).
Proof. intros H. unfold submit. now rewrite H. Qed.

Lemma prefetch_loop_total (gen : list Table) :
  forall fuel s, pool_is_open s = true -> (length gen < fuel)%nat ->
  prefetch_loop fuel (snd (wrap_generator_next gen)) (Ok (fst (wrap_generator_next gen))) s
  = (Ok (Some gen), s).
Proof.
  induction gen as [|v gen IH]; intros fuel s Hopen Hfuel;
    (destruct fuel as [|fuel]; [simpl in Hfuel; lia|]).
  - reflexivity.
  - simpl in Hfuel. simpl. unfold_monad. simpl.
    specialize (IH fuel s Hopen ltac:(lia)).
    destruct (wrap_generator_next gen) as [r gen'] eqn:Hn. simpl in IH.
    rewrite submit_open by exact Hopen. simpl.
    rewrite IH. reflexivity.
Qed.

Lemma async_iter_spec {T} (gen : Generator T) s :
  async_iter gen s = iterate gen s.
Proof.
  unfold async_iter, to_thread. unfold bind at 1.
  destruct (iterate gen s) as [[values|e] s1]; [|reflexivity].
  unfold bind. rewrite async_iter_loop_total by lia. reflexivity.
Qed.

Lemma async_X_body_spec layer prefetch s :
  AsyncExperimentQuery_X_body layer prefetch s = X_body layer prefetch s.
Proof.
  unfold AsyncExperimentQuery_X_body, X_call.
  unfold bind at 1. unfold ret at 1. rewrite async_iter_spec. reflexivity.
Qed.

(** C9: the asynchronous [X] runs and yields exactly what the
    synchronous [X] does: the same chunks in the same order (hence the
    same concatenation), the same exception, the same final state. The
    pair handed over by the wrapped generator has [done] set exactly
    when the generator is exhausted, and a yielded value, whatever it
    is, comes with [done] unset. *)
Theorem async_X_agrees_with_X :
  (forall layer prefetch s,
      AsyncExperimentQuery_X_body layer prefetch s = X_body layer prefetch s
      /\ (fst (AsyncExperimentQuery_X_body layer prefetch s) ≫= concat_tables)
         = (fst (X_body layer prefetch s) ≫= concat_tables))
  /\ (forall (gen : list Table), snd (fst (wrap_generator_next gen)) = true <-> gen = [])
  /\ (forall (v : Table) rest, wrap_generator_next (v :: rest) = ((Some v, false), rest)).
Proof.
  split; [|split].
  - intros layer prefetch s.
    pose proof (async_X_body_spec layer prefetch s) as H.
    split; [exact H|]. now rewrite H.
  - apply wrap_generator_done.
  - apply wrap_generator_value.
Qed.

(** ** Matrix names *)

Lemma name_error_cases X_collection name e :
  name_error X_collection name = Some e -> e = ValueError \/ e = NotImplementedError.
Proof.
  unfold name_error.
  destruct (negb (is_str name) || negb (truthy name)); [intros [= <-]; auto|].
  destruct (lookup_layer X_collection name) as [arr|]; [|intros [= <-]; auto].
  case_bool_decide; [discriminate|intros [= <-]; auto].
Qed.

Lemma check_X_names_app X_collection good rest :
  Forall (fun v => name_error X_collection v = None) good ->
  check_X_names X_collection (good ++ rest) = check_X_names X_collection rest.
Proof.
  induction 1 as [|v good Hv _ IH]; [reflexivity|].
  simpl. unfold name_error in Hv.
  destruct (negb (is_str v) || negb (truthy v)); [discriminate|].
  destruct (lookup_layer X_collection v) as [arr|]; [|discriminate].
  case_bool_decide; [|discriminate]. simpl. exact IH.
Qed.

Lemma check_X_names_bad X_collection bad rest e :
  name_error X_collection bad = Some e ->
  check_X_names X_collection (bad :: rest) = Err e.
Proof.
  simpl. unfold name_error.
  destruct (negb (is_str bad) || negb (truthy bad)); [now intros [= <-]|].
  destruct (lookup_layer X_collection bad) as [arr|]; [|now intros [= <-]].
  case_bool_decide; [discriminate|]. simpl. now intros [= <-].
Qed.

Lemma check_X_names_ok X_collection names :
  check_X_names X_collection names = Ok tt <->
  Forall (fun v => name_error X_collection v = None) names.
Proof.
  induction names as [|v names IH].
  - split; auto.
  - destruct (name_error X_collection v) as [e|] eqn:He.
    + rewrite (check_X_names_bad _ _ _ _ He).
      split; [discriminate|]. intros H. inversion H; subst. congruence.
    + change (v :: names) with ([v] ++ names).
      rewrite check_X_names_app by (constructor; auto).
      rewrite IH. split; [intros H; constructor; auto|].
      intros H. now inversion H.
Qed.

Lemma self_measurement_spec s m :
  ms (experiment (this s)) !! ms_name (this s) = Some m ->
  self_measurement s = (Ok m, s).
Proof. intros H. unfold self_measurement, bind, get_this. simpl. now rewrite H. Qed.

(** C7, as the code has it. Let [bad] be the first requested matrix
    name that is refused. [read] then fails at the call, and [X], a
    generator function, returns a generator that fails at its first
    pull; either way the state is untouched, so nothing was read. The
    exception is the one of [bad]: [ValueError] for a name that is not
    a non-empty string or is unknown, [NotImplementedError] for a
    matrix that is not sparse. *)
Theorem invalid_matrix_name_rejected s m :
  ms (experiment (this s)) !! ms_name (this s) = Some m ->
  (forall X_name use_position_indexing column_names X_layers good bad rest e,
      X_name :: default [] X_layers = good ++ bad :: rest ->
      Forall (fun v => name_error (X m) v = None) good ->
      name_error (X m) bad = Some e ->
      read X_name use_position_indexing column_names X_layers s = (Err e, s)
      /\ (e = ValueError \/ e = NotImplementedError))
  /\ (forall layer prefetch e,
      name_error (X m) layer = Some e ->
      (exists gen, X_call layer prefetch s = (Ok gen, s) /\ iterate gen s = (Err e, s))
      /\ (e = ValueError \/ e = NotImplementedError)).
Proof.
  intros Hm. split.
  - intros X_name upi cn X_layers good bad rest e Hnames Hgood Hbad.
    split; [|eapply name_error_cases; eauto].
    unfold read. rewrite (bind_ok _ _ _ _ _ (self_measurement_spec s m Hm)).
    apply bind_err. unfold lift. rewrite Hnames.
    rewrite check_X_names_app by exact Hgood.
    now rewrite (check_X_names_bad _ _ _ _ Hbad).
  - intros layer prefetch e Hbad.
    split; [|eapply name_error_cases; eauto].
    exists (MkGenerator (X_body layer prefetch)). split; [reflexivity|].
    simpl. unfold X_body. unfold name_error in Hbad.
    destruct (truthy layer) eqn:Ht; simpl.
    2:{ rewrite orb_true_r in Hbad. now inversion Hbad. }
    rewrite (bind_ok _ _ _ _ _ (self_measurement_spec s m Hm)).
    destruct layer as [|z|name]; simpl in Hbad |- *;
      [now inversion Hbad | now inversion Hbad |].
    destruct (X m !! name) as [arr|]; [|now inversion Hbad].
    case_bool_decide; [discriminate|]. simpl. now inversion Hbad.
Qed.

Lemma invalid_matrix_name_rejected_witness :
  (read (VStr "raw") false None (Some [VStr "dense"; VStr ""]) (example_state None None)
   = (Err NotImplementedError, example_state None None)
   /\ (NotImplementedError = ValueError \/ NotImplementedError = NotImplementedError))
  /\ ((exists gen, X_call (VStr "nope") false (example_state None None)
                   = (Ok gen, example_state None None)
                   /\ iterate gen (example_state None None)
                      = (Err ValueError, example_state None None))
      /\ (ValueError = ValueError \/ ValueError = NotImplementedError)).
Proof.
  destruct (invalid_matrix_name_rejected (example_state None None) example_measurement
              eq_refl) as [Hread HX].
  split.
  - apply (Hread (VStr "raw") false None (Some [VStr "dense"; VStr ""])
             [VStr "raw"] (VStr "dense") [VStr ""] NotImplementedError eq_refl).
    + repeat constructor.
    + reflexivity.
  - apply (HX (VStr "nope") false ValueError). reflexivity.
Defined.

(** C7 as stated fails twice over: a read that names a dense matrix
    does not fail with a [ValueError], and calling [X] with an empty
    layer name does not fail at the call. *)
Lemma dense_layer_not_ValueError :
  ~ (exists e,
        fst (read (VStr "dense") false None None (example_state None None)) = Err e
        /\ is_instance e "ValueError" = true)
  /\ is_ok (fst (X_call (VStr "") false (example_state None None))) = true.
Proof.
  split; [|reflexivity].
  intros [e [He Hi]]. vm_compute in He. inversion He; subst. discriminate.
Qed.

(** ** What a computation leaves in place *)

Section Preserves.
Context (R : State -> State -> Prop).
Context (R_refl : forall s, R s s).
Context (R_trans : forall s1 s2 s3, R s1 s2 -> R s2 s3 -> R s1 s3).

Lemma preserves_ret {A} (a : A) : preserves R (ret a).
Proof. intros s r s' [= _ <-]. apply R_refl. Qed.

Lemma preserves_raise {A} e : preserves R (raise (A := A) e).
Proof. intros s r s' [= _ <-]. apply R_refl. Qed.

Lemma preserves_lift {A} (x : result A) : preserves R (lift x).
Proof. intros s r s' [= _ <-]. apply R_refl. Qed.

Lemma preserves_get_this : preserves R get_this.
Proof. intros s r s' [= _ <-]. apply R_refl. Qed.

Lemma preserves_assert b : preserves R (assert b).
Proof. destruct b; [apply preserves_ret|apply preserves_raise]. Qed.

Lemma preserves_future_result {A} (f : Future A) : preserves R (future_result f).
Proof. apply preserves_lift. Qed.

Lemma preserves_bind {A B} (c : M A) (k : A -> M B) :
  preserves R c -> (forall a, preserves R (k a)) -> preserves R (bind c k).
Proof.
  intros Hc Hk s r s'. unfold bind.
  destruct (c s) as [[a|e] s1] eqn:Hcs; intros H.
  - eapply R_trans; [eapply Hc; eauto|eapply Hk; eauto].
  - inversion H; subst. eapply Hc; eauto.
Qed.

Lemma preserves_submit {A} (task : M A) : preserves R task -> preserves R (submit task).
Proof.
  intros Ht s r s'. unfold submit. destruct (pool_is_open s).
  - destruct (task s) as [r1 s1] eqn:Hts. intros [= _ <-]. eapply Ht; eauto.
  - intros [= _ <-]. apply R_refl.
Qed.

Lemma preserves_to_thread {A} (f : M A) : preserves R f -> preserves R (to_thread f).
Proof. auto. Qed.

Lemma preserves_py_len c : preserves R (py_len c).
Proof. destruct c; [apply preserves_ret|apply preserves_raise]. Qed.

Lemma preserves_build_index c : preserves R (build_index c).
Proof. destruct c; [apply preserves_ret|apply preserves_raise]. Qed.

Lemma preserves_self_measurement : preserves R self_measurement.
Proof.
  apply preserves_bind; [apply preserves_get_this|]. intros q.
  destruct (ms (experiment q) !! ms_name q); [apply preserves_ret|apply preserves_raise].
Qed.

Lemma preserves_deref r : preserves R (deref r).
Proof.
  destruct r as [d|l]; [apply preserves_ret|].
  intros s r s'. simpl. destruct (heap (world s) !! l); intros [= _ <-]; apply R_refl.
Qed.

Lemma preserves_getitem key r : preserves R (getitem key r).
Proof.
  apply preserves_bind; [apply preserves_deref|]. intros d.
  destruct (d !! key); [apply preserves_ret|apply preserves_raise].
Qed.
End Preserves.

(** Steps of a proof that a computation preserves a relation: the
    structure of the code is followed down to the calls for which a
    lemma is at hand in the hint database [preserves]. *)
Create HintDb preserves.

Ltac preserves_step :=
  lazymatch goal with
  | |- preserves _ (if ?b then _ else _) => destruct b
  | |- preserves _ (match ?x with _ => _ end) => destruct x
  | |- preserves _ (bind _ _) => apply preserves_bind; [assumption| |intros]
  | |- preserves _ (ret _) => apply preserves_ret; assumption
  | |- preserves _ (raise _) => apply preserves_raise; assumption
  | |- preserves _ (lift _) => apply preserves_lift; assumption
  | |- preserves _ get_this => apply preserves_get_this; assumption
  | |- preserves _ (assert _) => apply preserves_assert; assumption
  | |- preserves _ (future_result _) => apply preserves_future_result; assumption
  | |- preserves _ (py_len _) => apply preserves_py_len; assumption
  | |- preserves _ (build_index _) => apply preserves_build_index; assumption
  | |- preserves _ self_measurement => apply preserves_self_measurement; assumption
  | |- preserves _ (deref _) => apply preserves_deref; assumption
  | |- preserves _ (getitem _ _) => apply preserves_getitem; assumption
  | |- preserves _ (submit _) => apply preserves_submit; [assumption|]
  | |- preserves _ (to_thread _) => apply preserves_to_thread
  | |- preserves _ _ => solve [eauto with preserves]
  end.

Ltac solve_preserves := repeat preserves_step.

(** *** The query's own data *)

(** [_read_axis_dataframe], path by path. *)
Lemma read_axis_dataframe_unfold a axis_df column_names s :
  let query := get_axis a (_query (this s)) in
  let need_joinids := bool_decide (get_axis a (_joinids (this s)) = None) in
  let query_columns := query_columns_of need_joinids column_names in
  let s1 := logged (EvAxisRead a query_columns) s in
  _read_axis_dataframe a axis_df column_names s =
  match read_all axis_df (coords query) (value_filter query) query_columns with
  | Err e => (Err e, s1)
  | Ok tbl =>
      if need_joinids
      then match column soma_joinid tbl with
           | Err e => (Err e, s1)
           | Ok ids => (narrow column_names tbl, cached a ids s1)
           end
      else (narrow column_names tbl, s1)
  end.
Proof.
  intros query need_joinids query_columns s1.
  unfold _read_axis_dataframe. unfold_monad. simpl.
  fold query. fold need_joinids.
  change (match column_names with
          | Some names =>
              if need_joinids && negb (bool_decide (soma_joinid ∈ names))
              then Some (soma_joinid :: names) else column_names
          | None => column_names
          end) with query_columns.
  fold s1.
  destruct (read_all axis_df (coords query) (value_filter query) query_columns)
    as [tbl|e]; [|reflexivity].
  destruct need_joinids eqn:Hneed.
  - destruct (column soma_joinid tbl) as [ids|e]; [|reflexivity].
    simpl. fold (cached a ids s1).
    assert (Hc : get_axis a (set_axis a (Some ids) (_joinids (this s))) ≠ None)
      by (destruct a; simpl; congruence).
    rewrite (bool_decide_eq_true_2 _ Hc).
    destruct column_names; reflexivity.
  - subst need_joinids. apply bool_decide_eq_false in Hneed.
    simpl. rewrite (bool_decide_eq_true_2 _ Hneed).
    destruct column_names; reflexivity.
Qed.

Lemma query_frame_refl s : query_frame s s.
Proof. constructor; auto. Qed.

Lemma query_frame_trans s1 s2 s3 :
  query_frame s1 s2 -> query_frame s2 s3 -> query_frame s1 s3.
Proof.
  intros [E1 N1 Q1 P1 J1] [E2 N2 Q2 P2 J2].
  constructor; try congruence. auto.
Qed.

Lemma query_frame_world s w : query_frame s {| this := this s; world := w |}.
Proof. constructor; auto. Qed.

Lemma query_frame_indexer s i w :
  query_frame s {| this := with_indexer i (this s); world := w |}.
Proof. constructor; auto. Qed.

Lemma query_frame_cached a ids s :
  get_axis a (_joinids (this s)) = None ->
  query_frame s (cached a ids s).
Proof.
  intros Hnone. constructor; try reflexivity.
  intros a' ids' H. destruct a, a'; simpl in *; congruence.
Qed.

Ltac frame_facts :=
  pose proof query_frame_refl as Hframe_refl;
  pose proof query_frame_trans as Hframe_trans.

Lemma frame_modify_world f : preserves query_frame (modify_world f).
Proof. intros s r s' [= _ <-]. apply query_frame_world. Qed.

Lemma frame_log_io ev : preserves query_frame (log_io ev).
Proof. apply frame_modify_world. Qed.

Lemma frame_shutdown pool : preserves query_frame (shutdown pool).
Proof. apply frame_modify_world. Qed.

Lemma frame_close : preserves query_frame close.
Proof. intros s r s'. rewrite close_spec. intros [= _ <-]. apply query_frame_world. Qed.

Lemma frame_set_indexer (f : ExperimentQuery -> AxisIndexer) :
  preserves query_frame (modify_this (fun q => with_indexer (f q) q)).
Proof. intros s r s' [= _ <-]. apply query_frame_indexer. Qed.

Lemma frame_read_axis_dataframe a axis_df column_names :
  preserves query_frame (_read_axis_dataframe a axis_df column_names).
Proof.
  intros s r s'. rewrite read_axis_dataframe_unfold.
  set (ev := EvAxisRead a _).
  assert (Hlog : query_frame s (logged ev s)) by apply query_frame_world.
  destruct (read_all _ _ _ _) as [tbl|e]; [|intros [= _ <-]; exact Hlog].
  case_bool_decide as Hneed; [|intros [= _ <-]; exact Hlog].
  destruct (column soma_joinid tbl) as [ids|e]; intros [= _ <-]; [|exact Hlog].
  eapply query_frame_trans; [exact Hlog|]. now apply query_frame_cached.
Qed.

#[export] Hint Resolve frame_modify_world frame_log_io frame_shutdown frame_close
  frame_set_indexer frame_read_axis_dataframe : preserves.

Lemma frame_read_axis_joinids a axis_df :
  preserves query_frame (_read_axis_joinids a axis_df).
Proof. frame_facts. unfold _read_axis_joinids. solve_preserves. Qed.

#[export] Hint Resolve frame_read_axis_joinids : preserves.

Lemma frame_obs_table column_names : preserves query_frame (obs_table column_names).
Proof. frame_facts. unfold obs_table. solve_preserves. Qed.

Lemma frame_var_table column_names : preserves query_frame (var_table column_names).
Proof. frame_facts. unfold var_table. solve_preserves. Qed.

Lemma frame_obs_joinids : preserves query_frame obs_joinids.
Proof. frame_facts. unfold obs_joinids. solve_preserves. Qed.

Lemma frame_var_joinids : preserves query_frame var_joinids.
Proof. frame_facts. unfold var_joinids. solve_preserves. Qed.

#[export] Hint Resolve frame_obs_table frame_var_table frame_obs_joinids
  frame_var_joinids : preserves.

Lemma frame_n_obs : preserves query_frame n_obs.
Proof. frame_facts. unfold n_obs. solve_preserves. Qed.

Lemma frame_n_vars : preserves query_frame n_vars.
Proof. frame_facts. unfold n_vars. solve_preserves. Qed.

Lemma frame_prefetch_loop fuel :
  forall gen fut, preserves query_frame (prefetch_loop fuel gen fut).
Proof.
  frame_facts. induction fuel as [|fuel IH]; intros gen fut; simpl.
  - solve_preserves.
  - solve_preserves.
Qed.

#[export] Hint Resolve frame_n_obs frame_n_vars frame_prefetch_loop : preserves.

Lemma frame_fetchX arr prefetch : preserves query_frame (_fetchX arr prefetch).
Proof. frame_facts. unfold _fetchX. solve_preserves. Qed.

#[export] Hint Resolve frame_fetchX : preserves.

Lemma frame_X_body layer prefetch : preserves query_frame (X_body layer prefetch).
Proof. frame_facts. unfold X_body. solve_preserves. Qed.

Lemma frame_async_iter_loop {T} fuel :
  forall gen : list T, preserves query_frame (async_iter_loop fuel gen).
Proof.
  frame_facts. induction fuel as [|fuel IH]; intros gen; simpl.
  - solve_preserves.
  - solve_preserves.
Qed.

#[export] Hint Resolve frame_X_body frame_async_iter_loop : preserves.

Lemma frame_obs_index coords : preserves query_frame (obs_index coords).
Proof.
  frame_facts. unfold obs_index. solve_preserves.
Qed.

Lemma frame_var_index coords : preserves query_frame (var_index coords).
Proof.
  frame_facts. unfold var_index. solve_preserves.
Qed.

#[export] Hint Resolve frame_obs_index frame_var_index : preserves.

Lemma frame_rewrite_items items :
  forall acc, preserves query_frame (rewrite_items items acc).
Proof.
  frame_facts. induction items as [|[X_name X_table] items IH]; intros acc; simpl;
    solve_preserves.
Qed.

Lemma frame_fetch_X_tables X_collection names :
  forall acc, preserves query_frame (fetch_X_tables X_collection names acc).
Proof.
  frame_facts. induction names as [|n names IH]; intros acc; simpl; solve_preserves.
Qed.

Lemma frame_setitem key v r : preserves query_frame (setitem key v r).
Proof. frame_facts. unfold setitem. solve_preserves. Qed.

#[export] Hint Resolve frame_rewrite_items frame_fetch_X_tables frame_setitem : preserves.

Lemma frame_default_key key r : preserves query_frame (default_key key r).
Proof. frame_facts. unfold default_key. solve_preserves. Qed.

#[export] Hint Resolve frame_default_key : preserves.

Lemma frame_read X_name use_position_indexing column_names X_layers :
  preserves query_frame (read X_name use_position_indexing column_names X_layers).
Proof.
  frame_facts. unfold read, _rewrite_X_for_positional_indexing. solve_preserves.
Qed.

Lemma frame_async_X_body layer prefetch :
  preserves query_frame (AsyncExperimentQuery_X_body layer prefetch).
Proof.
  intros s r s'. rewrite async_X_body_spec. apply frame_X_body.
Qed.

Lemma preserves_snd {A} R (c : M A) s : preserves R c -> R s (snd (c s)).
Proof. intros H. destruct (c s) as [r s'] eqn:Hc. eapply H; eauto. Qed.

Lemma frame_run_call c s : query_frame s (run_call c s).
Proof.
  destruct c; cbn [run_call]; apply preserves_snd;
    auto using frame_read_axis_dataframe, frame_read_axis_joinids, frame_obs_table,
      frame_var_table, frame_obs_joinids, frame_var_joinids, frame_n_obs, frame_n_vars,
      frame_X_body, frame_async_X_body, frame_read, frame_obs_index, frame_var_index,
      frame_close.
Qed.

Lemma frame_run_calls calls : forall s, query_frame s (run_calls calls s).
Proof.
  induction calls as [|c calls IH]; intros s; simpl.
  - apply query_frame_refl.
  - eapply query_frame_trans; [apply frame_run_call|apply IH].
Qed.

(** ** Axis reads and the join-id cache *)

Lemma select_cons n names tbl :
  select (n :: names) tbl
  = match column n tbl with
    | Ok c => match select names tbl with
              | Ok out => Ok ((n, c) :: out)
              | Err e => Err e
              end
    | Err e => Err e
    end.
Proof.
  unfold select. simpl. unfold mbind, result_bind, mret, result_ret.
  destruct (column n tbl); [|reflexivity].
  destruct (mapM _ names); reflexivity.
Qed.

(** Narrowing a table to names it has: the outcome has exactly these
    names, in this order, each with the column of that name. *)
Lemma select_ok names tbl :
  Forall (fun n => is_ok (column n tbl) = true) names ->
  exists out,
    select names tbl = Ok out
    /\ column_names out = names
    /\ Forall2 (fun n p => p.1 = n /\ column n tbl = Ok p.2) names out.
Proof.
  induction 1 as [|n names Hn _ IH].
  - exists []. repeat split. constructor.
  - destruct IH as [out [Hsel [Hnames Hcols]]].
    destruct (column n tbl) as [c|e] eqn:Hc; [|discriminate].
    exists ((n, c) :: out). rewrite select_cons, Hc, Hsel.
    repeat split.
    + simpl. now rewrite Hnames.
    + constructor; auto.
Qed.

(** C5: an axis read with the cache of its axis unset and a column
    list that leaves out [soma_joinid] asks storage for [soma_joinid]
    followed by the requested columns; given the table storage returns
    for that request, the cache becomes the [soma_joinid] column of
    that table, and the caller receives exactly the requested columns,
    in order, taken from that table, [soma_joinid] not among them. *)
Theorem read_axis_prepends_joinid_and_narrows a axis_df names s tbl ids :
  get_axis a (_joinids (this s)) = None ->
  soma_joinid ∉ names ->
  read_all axis_df (coords (get_axis a (_query (this s))))
           (value_filter (get_axis a (_query (this s))))
           (Some (soma_joinid :: names)) = Ok tbl ->
  column soma_joinid tbl = Ok ids ->
  Forall (fun n => is_ok (column n tbl) = true) names ->
  exists out s',
    _read_axis_dataframe a axis_df (Some names) s = (Ok out, s')
    /\ io_log (world s') = (io_log (world s) ++ [EvAxisRead a (Some (soma_joinid :: names))])
    /\ get_axis a (_joinids (this s')) = Some ids
    /\ column_names out = names
    /\ (soma_joinid ∉ column_names out)
    /\ Forall2 (fun n p => p.1 = n /\ column n tbl = Ok p.2) names out.
Proof.
  intros Hnone Hnotin Hread Hids Hcols.
  destruct (select_ok names tbl Hcols) as [out [Hsel [Hnames Hout]]].
  rewrite read_axis_dataframe_unfold.
  rewrite (bool_decide_eq_true_2 _ Hnone). simpl.
  rewrite (bool_decide_eq_false_2 _ Hnotin). simpl.
  rewrite Hread, Hids, Hsel.
  eexists. eexists. split; [reflexivity|].
  repeat split; auto.
  - destruct a; reflexivity.
  - now rewrite Hnames.
Qed.

Lemma read_axis_prepends_joinid_and_narrows_witness :
  exists out s',
    _read_axis_dataframe Obs (memory_dataframe example_obs) (Some ["cell_type"])
      (example_state None None) = (Ok out, s')
    /\ io_log (world s')
       = (io_log (world (example_state None None))
          ++ [EvAxisRead Obs (Some [soma_joinid; "cell_type"])])
    /\ get_axis Obs (_joinids (this s')) = Some [VInt 10; VInt 20; VInt 30]
    /\ column_names out = ["cell_type"]
    /\ (soma_joinid ∉ column_names out)
    /\ Forall2 (fun n p => p.1 = n /\ column n example_obs = Ok p.2) ["cell_type"] out.
Proof.
  apply (read_axis_prepends_joinid_and_narrows Obs (memory_dataframe example_obs)
           ["cell_type"] (example_state None None) example_obs
           [VInt 10; VInt 20; VInt 30]).
  - reflexivity.
  - intros H. apply list_elem_of_singleton in H. discriminate.
  - reflexivity.
  - reflexivity.
  - repeat constructor.
Defined.

Lemma read_axis_joinids_cached a axis_df s ids :
  get_axis a (_joinids (this s)) = Some ids ->
  _read_axis_joinids a axis_df s = (Ok (Some ids), s).
Proof.
  intros H. unfold _read_axis_joinids. unfold_monad. simpl.
  rewrite H. rewrite bool_decide_eq_false_2 by congruence. simpl. now rewrite H.
Qed.

Lemma axis_joinids_cached a s m ids :
  ms (experiment (this s)) !! ms_name (this s) = Some m ->
  get_axis a (_joinids (this s)) = Some ids ->
  axis_joinids a s = (Ok (Some ids), s).
Proof.
  intros Hm H. destruct a; simpl.
  - unfold obs_joinids. unfold bind at 1. simpl. now apply read_axis_joinids_cached.
  - unfold var_joinids.
    rewrite (bind_ok _ _ _ _ _ (self_measurement_spec s m Hm)).
    now apply read_axis_joinids_cached.
Qed.

(** A first read that succeeds sets the cache, to the [soma_joinid]
    column of the table that storage returned. *)
Lemma read_axis_dataframe_populates a axis_df column_names s out s' :
  get_axis a (_joinids (this s)) = None ->
  _read_axis_dataframe a axis_df column_names s = (Ok out, s') ->
  exists tbl ids,
    read_all axis_df (coords (get_axis a (_query (this s))))
             (value_filter (get_axis a (_query (this s))))
             (query_columns_of true column_names) = Ok tbl
    /\ column soma_joinid tbl = Ok ids
    /\ get_axis a (_joinids (this s')) = Some ids.
Proof.
  intros Hnone. rewrite read_axis_dataframe_unfold.
  rewrite (bool_decide_eq_true_2 _ Hnone).
  destruct (read_all _ _ _ _) as [tbl|e] eqn:Hread; [|discriminate].
  destruct (column soma_joinid tbl) as [ids|e] eqn:Hids; [|discriminate].
  intros [= _ <-]. exists tbl, ids. repeat split; auto. destruct a; reflexivity.
Qed.

(** A first read on which storage fails, or whose table has no
    [soma_joinid], changes nothing in the query. *)
Lemma read_axis_dataframe_storage_failure a axis_df column_names s e :
  get_axis a (_joinids (this s)) = None ->
  (read_all axis_df (coords (get_axis a (_query (this s))))
            (value_filter (get_axis a (_query (this s))))
            (query_columns_of true column_names)
   ≫= column soma_joinid) = Err e ->
  exists s',
    _read_axis_dataframe a axis_df column_names s = (Err e, s') /\ this s' = this s.
Proof.
  intros Hnone. rewrite read_axis_dataframe_unfold.
  rewrite (bool_decide_eq_true_2 _ Hnone).
  destruct (read_all _ _ _ _) as [tbl|e0]; simpl.
  - unfold mbind, result_bind. intros ->. eexists. split; reflexivity.
  - unfold mbind, result_bind. intros [= ->]. eexists. split; reflexivity.
Qed.

Lemma read_axis_joinids_failure a axis_df s e s' :
  get_axis a (_joinids (this s)) = None ->
  _read_axis_joinids a axis_df s = (Err e, s') ->
  this s' = this s.
Proof.
  intros Hnone. unfold _read_axis_joinids. unfold bind at 1. simpl.
  rewrite (bool_decide_eq_true_2 _ Hnone).
  unfold bind at 1. unfold bind at 1.
  rewrite read_axis_dataframe_unfold.
  rewrite (bool_decide_eq_true_2 _ Hnone).
  destruct (read_all _ _ _ _) as [tbl|e0]; [|now intros [= _ <-]].
  destruct (column soma_joinid tbl) as [ids|e0] eqn:Hids; [|now intros [= _ <-]].
  unfold narrow. rewrite select_cons, Hids. simpl. unfold_monad. simpl. discriminate.
Qed.

Lemma axis_joinids_failure a s e s' :
  get_axis a (_joinids (this s)) = None ->
  axis_joinids a s = (Err e, s') ->
  this s' = this s.
Proof.
  intros Hnone. destruct a; simpl.
  - unfold obs_joinids. unfold bind at 1. simpl. now apply read_axis_joinids_failure.
  - unfold var_joinids, self_measurement. unfold bind at 1. unfold bind at 1. simpl.
    destruct (ms (experiment (this s)) !! ms_name (this s)) as [m|]; simpl.
    + now apply read_axis_joinids_failure.
    + now intros [= _ <-].
Qed.

(** C6: the join-id cache of an axis is written once. Once it holds a
    sequence, no run of later operations, whatever they are and
    whatever they ask of storage, changes it, and [obs_joinids] and
    [var_joinids] return that sequence without reading; the sequence
    is the [soma_joinid] column of the first successful read, whatever
    columns that read was asked for; when [obs_joinids] or
    [var_joinids] fails on an unset cache, the query is as it was
    before the call, the cache still unset; and so it is after any
    axis read on which storage fails or returns no [soma_joinid]. An
    axis read that fails later, when the table storage returned is
    narrowed to the requested columns, has set the cache by then, to
    the [soma_joinid] column of that table: the cache stays set, and
    [obs_joinids] and [var_joinids] return it without asking storage
    again. *)
Theorem joinids_cache_written_once :
  (forall a ids s m calls,
      ms (experiment (this s)) !! ms_name (this s) = Some m ->
      get_axis a (_joinids (this s)) = Some ids ->
      get_axis a (_joinids (this (run_calls calls s))) = Some ids
      /\ axis_joinids a (run_calls calls s) = (Ok (Some ids), run_calls calls s))
  /\ (forall a axis_df column_names s out s',
      get_axis a (_joinids (this s)) = None ->
      _read_axis_dataframe a axis_df column_names s = (Ok out, s') ->
      exists tbl ids,
        read_all axis_df (coords (get_axis a (_query (this s))))
                 (value_filter (get_axis a (_query (this s))))
                 (query_columns_of true column_names) = Ok tbl
        /\ column soma_joinid tbl = Ok ids
        /\ get_axis a (_joinids (this s')) = Some ids)
  /\ (forall a s e s',
      get_axis a (_joinids (this s)) = None ->
      axis_joinids a s = (Err e, s') ->
      this s' = this s /\ get_axis a (_joinids (this s')) = None)
  /\ (forall a axis_df column_names s e,
      get_axis a (_joinids (this s)) = None ->
      (read_all axis_df (coords (get_axis a (_query (this s))))
                (value_filter (get_axis a (_query (this s))))
                (query_columns_of true column_names)
       ≫= column soma_joinid) = Err e ->
      exists s',
        _read_axis_dataframe a axis_df column_names s = (Err e, s')
        /\ this s' = this s)
  /\ (forall a axis_df column_names s tbl ids e,
      get_axis a (_joinids (this s)) = None ->
      read_all axis_df (coords (get_axis a (_query (this s))))
               (value_filter (get_axis a (_query (this s))))
               (query_columns_of true column_names) = Ok tbl ->
      column soma_joinid tbl = Ok ids ->
      narrow column_names tbl = Err e ->
      exists s',
        _read_axis_dataframe a axis_df column_names s = (Err e, s')
        /\ get_axis a (_joinids (this s')) = Some ids
        /\ (forall m calls,
              ms (experiment (this s')) !! ms_name (this s') = Some m ->
              axis_joinids a (run_calls calls s')
              = (Ok (Some ids), run_calls calls s'))).
Proof.
  split; [|split; [|split; [|split]]].
  - intros a ids s m calls Hm Hids.
    destruct (frame_run_calls calls s) as [He Hn _ _ Hj].
    split; [now apply Hj|].
    apply (axis_joinids_cached a _ m); [now rewrite He, Hn|now apply Hj].
  - intros a axis_df column_names s out s' Hnone Hread.
    exact (read_axis_dataframe_populates _ _ _ _ _ _ Hnone Hread).
  - intros a s e s' Hnone Hfail.
    pose proof (axis_joinids_failure _ _ _ _ Hnone Hfail) as Hsame.
    split; [exact Hsame|]. now rewrite Hsame.
  - intros a axis_df column_names s e Hnone Hfail.
    exact (read_axis_dataframe_storage_failure _ _ _ _ _ Hnone Hfail).
  - intros a axis_df column_names s tbl ids e Hnone Hread Hids Hnarrow.
    rewrite read_axis_dataframe_unfold.
    rewrite (bool_decide_eq_true_2 _ Hnone), Hread, Hids, Hnarrow.
    eexists. split; [reflexivity|].
    assert (Hset : get_axis a (_joinids (this (cached a ids
                     (logged (EvAxisRead a (query_columns_of true column_names)) s))))
                   = Some ids) by (destruct a; reflexivity).
    split; [exact Hset|].
    intros m calls Hm.
    destruct (frame_run_calls calls
                (cached a ids (logged (EvAxisRead a (query_columns_of true column_names)) s)))
      as [He Hn _ _ Hj].
    apply (axis_joinids_cached a _ m); [now rewrite He, Hn|now apply Hj].
Qed.

Lemma joinids_cache_written_once_witness :
  (get_axis Obs
     (_joinids (this (run_calls
                        [Call_obs (Some ["cell_type"]);
                         Call_read (VStr "raw") true None None;
                         Call_read_axis_dataframe Obs failing_dataframe None;
                         Call_close]
                        (run_call Call_obs_joinids (example_state None None)))))
   = Some [VInt 10; VInt 20; VInt 30]
   /\ axis_joinids Obs
        (run_calls
           [Call_obs (Some ["cell_type"]);
            Call_read (VStr "raw") true None None;
            Call_read_axis_dataframe Obs failing_dataframe None;
            Call_close]
           (run_call Call_obs_joinids (example_state None None)))
      = (Ok (Some [VInt 10; VInt 20; VInt 30]),
         run_calls
           [Call_obs (Some ["cell_type"]);
            Call_read (VStr "raw") true None None;
            Call_read_axis_dataframe Obs failing_dataframe None;
            Call_close]
           (run_call Call_obs_joinids (example_state None None))))
  /\ (exists tbl ids,
        read_all (memory_dataframe example_obs) [SliceAll] None
                 (query_columns_of true (Some ["cell_type"])) = Ok tbl
        /\ column soma_joinid tbl = Ok ids
        /\ get_axis Obs
             (_joinids (this (run_call (Call_obs (Some ["cell_type"]))
                                (example_state None None))))
           = Some ids)
  /\ (this (snd (axis_joinids Obs unreachable_obs_state)) = this unreachable_obs_state
      /\ get_axis Obs (_joinids (this (snd (axis_joinids Obs unreachable_obs_state))))
         = None)
  /\ (exists s',
        _read_axis_dataframe Obs failing_dataframe (Some ["cell_type"])
          unreachable_obs_state = (Err (StorageError "unavailable"), s')
        /\ this s' = this unreachable_obs_state)
  /\ (exists s',
        _read_axis_dataframe Obs (memory_dataframe example_obs)
          (Some ["cell_type"; "cell_type"]) (example_state None None)
        = (Err KeyError, s')
        /\ get_axis Obs (_joinids (this s')) = Some [VInt 10; VInt 20; VInt 30]
        /\ (forall m calls,
              ms (experiment (this s')) !! ms_name (this s') = Some m ->
              axis_joinids Obs (run_calls calls s')
              = (Ok (Some [VInt 10; VInt 20; VInt 30]), run_calls calls s'))).
Proof.
  destruct joinids_cache_written_once as [Hkeep [Hfirst [Hfail [Hstorage Hnarrow]]]].
  split; [|split; [|split; [|split]]].
  - apply (Hkeep Obs [VInt 10; VInt 20; VInt 30]
             (run_call Call_obs_joinids (example_state None None))
             example_measurement).
    + reflexivity.
    + reflexivity.
  - apply (Hfirst Obs (memory_dataframe example_obs) (Some ["cell_type"])
             (example_state None None)
             [("cell_type", [VStr "T"; VStr "B"; VStr "NK"])]
             (run_call (Call_obs (Some ["cell_type"])) (example_state None None))).
    + reflexivity.
    + reflexivity.
  - apply (Hfail Obs unreachable_obs_state (StorageError "unavailable")
             (snd (axis_joinids Obs unreachable_obs_state))).
    + reflexivity.
    + reflexivity.
  - apply (Hstorage Obs failing_dataframe (Some ["cell_type"]) unreachable_obs_state
             (StorageError "unavailable")).
    + reflexivity.
    + reflexivity.
  - apply (Hnarrow Obs (memory_dataframe example_obs) (Some ["cell_type"; "cell_type"])
             (example_state None None)
             [("soma_joinid", [VInt 10; VInt 20; VInt 30]);
              ("cell_type", [VStr "T"; VStr "B"; VStr "NK"]);
              ("cell_type", [VStr "T"; VStr "B"; VStr "NK"])]
             [VInt 10; VInt 20; VInt 30] KeyError).
    + reflexivity.
    + reflexivity.
    + reflexivity.
    + reflexivity.
Defined.

(** A first read of an axis can fail and yet leave the cache set: the
    request names a column twice, storage answers, the join ids are
    cached, and narrowing the answer to the doubly named column is
    refused. [obs_joinids] then returns the cached join ids, and
    storage has been asked once in all. *)
Lemma failed_read_leaves_cache_set :
  get_axis Obs (_joinids (this (example_state None None))) = None
  /\ fst (obs_table (Some ["cell_type"; "cell_type"]) (example_state None None))
     = Err KeyError
  /\ get_axis Obs
       (_joinids (this (run_call (Call_obs (Some ["cell_type"; "cell_type"]))
                          (example_state None None))))
     = Some [VInt 10; VInt 20; VInt 30]
  /\ obs_joinids (run_call (Call_obs (Some ["cell_type"; "cell_type"]))
                    (example_state None None))
     = (Ok (Some [VInt 10; VInt 20; VInt 30]),
        run_call (Call_obs (Some ["cell_type"; "cell_type"])) (example_state None None))
  /\ io_log (world (run_calls [Call_obs (Some ["cell_type"; "cell_type"]);
                               Call_obs_joinids]
                      (example_state None None)))
     = [EvAxisRead Obs (Some ["soma_joinid"; "cell_type"; "cell_type"])].
Proof. repeat split; reflexivity. Qed.

(** ** The indexer *)

Lemma position_of_lookup index i c :
  NoDup index -> index !! i = Some c -> position_of index c = Z.of_nat i.
Proof.
  intros Hnd Hi. unfold position_of.
  destruct (list_find (fun x => x = c) index) as [[j y]|] eqn:Hfind.
  - apply list_find_Some in Hfind as [Hj [-> _]].
    now rewrite (NoDup_lookup _ _ _ _ Hnd Hi Hj).
  - apply list_find_None in Hfind.
    rewrite Forall_forall in Hfind.
    exfalso. apply (Hfind c); [|reflexivity].
    eapply list_elem_of_lookup_2; eauto.
Qed.

Lemma position_of_absent index c :
  c ∉ index -> position_of index c = -1.
Proof.
  intros Hc. unfold position_of.
  destruct (list_find (fun x => x = c) index) as [[j y]|] eqn:Hfind; [|reflexivity].
  apply list_find_Some in Hfind as [Hj [-> _]].
  exfalso. apply Hc. eapply list_elem_of_lookup_2; eauto.
Qed.

Lemma position_of_self index :
  NoDup index ->
  map (position_of index) index = map Z.of_nat (seq 0 (length index)).
Proof.
  intros Hnd. apply list_eq. intros i.
  rewrite !list_lookup_fmap.
  destruct (index !! i) as [c|] eqn:Hi; simpl.
  - rewrite (position_of_lookup _ _ _ Hnd Hi).
    rewrite lookup_seq_lt by (eapply lookup_lt_Some; eauto). reflexivity.
  - rewrite lookup_seq_ge by (now apply lookup_ge_None). reflexivity.
Qed.

Lemma get_indexer_unique index target :
  NoDup index -> get_indexer index target = Ok (map (position_of index) target).
Proof. intros H. unfold get_indexer. now destruct (decide (NoDup index)). Qed.

Lemma indexed_same a ids s :
  index_of a (this s) = Some ids -> indexed a ids s = s.
Proof.
  destruct s as [[e n q j [io iv] p] w]. destruct a; simpl; intros ->; reflexivity.
Qed.

(** With the join ids of the axis cached and free of repetitions,
    [obs_index] and [var_index] build their index from the cache, if
    it is not built yet, and look every coordinate up in it. *)
Lemma axis_index_spec a s m ids target :
  ms (experiment (this s)) !! ms_name (this s) = Some m ->
  get_axis a (_joinids (this s)) = Some ids ->
  index_of a (this s) = None \/ index_of a (this s) = Some ids ->
  NoDup ids ->
  axis_index a target s = (Ok (map (position_of ids) target), indexed a ids s).
Proof.
  intros Hm Hids Hidx Hnd.
  pose proof (axis_joinids_cached a s m ids Hm Hids) as Hj.
  destruct a; simpl in *.
  - unfold obs_index. unfold bind at 1. simpl. destruct Hidx as [Hi|Hi]; rewrite Hi; simpl.
    + unfold bind at 1. unfold bind at 1. rewrite Hj. simpl.
      unfold_monad. simpl. now rewrite get_indexer_unique.
    + unfold_monad. simpl. rewrite Hi. simpl.
      rewrite get_indexer_unique by exact Hnd.
      now rewrite (indexed_same Obs ids s Hi).
  - unfold var_index. unfold bind at 1. simpl. destruct Hidx as [Hi|Hi]; rewrite Hi; simpl.
    + unfold bind at 1. unfold bind at 1. rewrite Hj. simpl.
      unfold_monad. simpl. now rewrite get_indexer_unique.
    + unfold_monad. simpl. rewrite Hi. simpl.
      rewrite get_indexer_unique by exact Hnd.
      now rewrite (indexed_same Var ids s Hi).
Qed.

(** C4: [obs_index] and [var_index] answer, without raising, with one
    position per coordinate, in the order of the coordinates: the
    coordinate found at place [i] of the cached join ids gets [i], so
    the cached sequence itself gets 0, 1, ...; a coordinate that is not
    among the cached join ids gets -1; equal coordinates get equal
    positions. *)
Theorem axis_index_positions a s m ids target :
  ms (experiment (this s)) !! ms_name (this s) = Some m ->
  get_axis a (_joinids (this s)) = Some ids ->
  index_of a (this s) = None \/ index_of a (this s) = Some ids ->
  NoDup ids ->
  exists pos s',
    axis_index a target s = (Ok pos, s')
    /\ length pos = length target
    /\ (forall k c i, target !! k = Some c -> ids !! i = Some c ->
                      pos !! k = Some (Z.of_nat i))
    /\ (forall k c, target !! k = Some c -> c ∉ ids -> pos !! k = Some (-1))
    /\ (forall k1 k2, target !! k1 = target !! k2 -> pos !! k1 = pos !! k2)
    /\ (target = ids -> pos = map Z.of_nat (seq 0 (length ids))).
Proof.
  intros Hm Hids Hidx Hnd.
  exists (map (position_of ids) target), (indexed a ids s).
  split; [now apply (axis_index_spec a s m)|].
  split; [apply length_map|].
  split; [|split; [|split]].
  - intros k c i Hk Hi. rewrite list_lookup_fmap, Hk. simpl.
    now rewrite (position_of_lookup _ _ _ Hnd Hi).
  - intros k c Hk Hc. rewrite list_lookup_fmap, Hk. simpl.
    now rewrite position_of_absent.
  - intros k1 k2 Hk. rewrite !list_lookup_fmap. now rewrite Hk.
  - intros ->. now apply position_of_self.
Qed.

Lemma axis_index_positions_witness :
  exists pos s',
    axis_index Obs [VInt 20; VInt 99; VInt 20; VInt 10]
      (run_call Call_obs_joinids (example_state None None)) = (Ok pos, s')
    /\ length pos = length [VInt 20; VInt 99; VInt 20; VInt 10]
    /\ (forall k c i,
           [VInt 20; VInt 99; VInt 20; VInt 10] !! k = Some c ->
           [VInt 10; VInt 20; VInt 30] !! i = Some c ->
           pos !! k = Some (Z.of_nat i))
    /\ (forall k c,
           [VInt 20; VInt 99; VInt 20; VInt 10] !! k = Some c ->
           c ∉ [VInt 10; VInt 20; VInt 30] -> pos !! k = Some (-1))
    /\ (forall k1 k2,
           [VInt 20; VInt 99; VInt 20; VInt 10] !! k1
           = [VInt 20; VInt 99; VInt 20; VInt 10] !! k2 ->
           pos !! k1 = pos !! k2)
    /\ ([VInt 20; VInt 99; VInt 20; VInt 10] = [VInt 10; VInt 20; VInt 30] ->
        pos = map Z.of_nat (seq 0 (length [VInt 10; VInt 20; VInt 30]))).
Proof.
  apply (axis_index_positions Obs (run_call Call_obs_joinids (example_state None None))
           example_measurement [VInt 10; VInt 20; VInt 30]
           [VInt 20; VInt 99; VInt 20; VInt 10]).
  - reflexivity.
  - reflexivity.
  - left. reflexivity.
  - refine (bool_decide_unpack _ _). reflexivity.
Defined.

Example obs_index_example :
  fst (obs_index [VInt 20; VInt 99; VInt 20; VInt 10]
         (run_call Call_obs_joinids (example_state None None)))
  = Ok [1; -1; 1; 0].
Proof. reflexivity. Qed.

(** ** The caller's world *)

Lemma outer_frame_refl s : outer_frame s s.
Proof. split; reflexivity. Qed.

Lemma outer_frame_trans s1 s2 s3 :
  outer_frame s1 s2 -> outer_frame s2 s3 -> outer_frame s1 s3.
Proof. intros [H1 P1] [H2 P2]. split; congruence. Qed.

Ltac outer_facts :=
  pose proof outer_frame_refl as Houter_refl;
  pose proof outer_frame_trans as Houter_trans.

Lemma outer_modify_this f : preserves outer_frame (modify_this f).
Proof. intros s r s' [= _ <-]. split; reflexivity. Qed.

Lemma outer_log_io ev : preserves outer_frame (log_io ev).
Proof. intros s r s' [= _ <-]. split; reflexivity. Qed.

#[export] Hint Resolve outer_modify_this outer_log_io : preserves.

Lemma outer_read_axis_dataframe a axis_df column_names :
  preserves outer_frame (_read_axis_dataframe a axis_df column_names).
Proof. outer_facts. unfold _read_axis_dataframe. solve_preserves. Qed.

#[export] Hint Resolve outer_read_axis_dataframe : preserves.

Lemma outer_read_axis_joinids a axis_df :
  preserves outer_frame (_read_axis_joinids a axis_df).
Proof. outer_facts. unfold _read_axis_joinids. solve_preserves. Qed.

#[export] Hint Resolve outer_read_axis_joinids : preserves.

Lemma outer_obs_joinids : preserves outer_frame obs_joinids.
Proof. outer_facts. unfold obs_joinids. solve_preserves. Qed.

Lemma outer_var_joinids : preserves outer_frame var_joinids.
Proof. outer_facts. unfold var_joinids. solve_preserves. Qed.

#[export] Hint Resolve outer_obs_joinids outer_var_joinids : preserves.

Lemma outer_obs_index target : preserves outer_frame (obs_index target).
Proof. outer_facts. unfold obs_index. solve_preserves. Qed.

Lemma outer_var_index target : preserves outer_frame (var_index target).
Proof. outer_facts. unfold var_index. solve_preserves. Qed.

Lemma outer_prefetch_loop fuel :
  forall gen fut, preserves outer_frame (prefetch_loop fuel gen fut).
Proof.
  outer_facts. induction fuel as [|fuel IH]; intros gen fut; simpl; solve_preserves.
Qed.

#[export] Hint Resolve outer_obs_index outer_var_index outer_prefetch_loop : preserves.

Lemma outer_fetchX arr prefetch : preserves outer_frame (_fetchX arr prefetch).
Proof. outer_facts. unfold _fetchX. solve_preserves. Qed.

#[export] Hint Resolve outer_fetchX : preserves.

Lemma outer_rewrite_items items :
  forall acc, preserves outer_frame (rewrite_items items acc).
Proof.
  outer_facts. induction items as [|[X_name X_table] items IH]; intros acc; simpl;
    solve_preserves.
Qed.

Lemma outer_fetch_X_tables X_collection names :
  forall acc, preserves outer_frame (fetch_X_tables X_collection names acc).
Proof.
  outer_facts. induction names as [|n names IH]; intros acc; simpl; solve_preserves.
Qed.

#[export] Hint Resolve outer_rewrite_items outer_fetch_X_tables : preserves.

Lemma outer_X_body layer prefetch : preserves outer_frame (X_body layer prefetch).
Proof. outer_facts. unfold X_body. solve_preserves. Qed.

(** ** The [column_names] dict of [read] *)

Lemma set_dict_set_dict l d1 d2 s :
  set_dict l d2 (set_dict l d1 s) = set_dict l d2 s.
Proof. unfold set_dict, with_heap. simpl. now rewrite insert_insert_eq. Qed.

Lemma set_dict_lookup l d s : heap (world (set_dict l d s)) !! l = Some d.
Proof. simpl. apply lookup_insert_eq. Qed.

Lemma default_at_lookup key d :
  default_at key d !! key = Some (default None (d !! key)).
Proof.
  unfold default_at. case_bool_decide as H.
  - rewrite lookup_insert_eq, H. reflexivity.
  - destruct (d !! key); [reflexivity|congruence].
Qed.

Lemma default_at_lookup_ne key key' d :
  key ≠ key' -> default_at key d !! key' = d !! key'.
Proof.
  intros Hne. unfold default_at. case_bool_decide; [|reflexivity].
  now rewrite lookup_insert_ne.
Qed.

Lemma default_key_shared key l d s :
  heap (world s) !! l = Some d ->
  default_key key (Shared l) s = (Ok (Shared l), set_dict l (default_at key d) s).
Proof.
  intros Hd. unfold default_key, default_at. unfold bind at 1. simpl. rewrite Hd.
  case_bool_decide.
  - unfold setitem. unfold_monad. simpl. rewrite Hd. reflexivity.
  - unfold ret, set_dict. rewrite insert_id by exact Hd.
    destruct s as [q [io h p]]. reflexivity.
Qed.

Lemma completed_idempotent d : completed (completed d) = completed d.
Proof.
  apply map_eq. intros key. unfold completed.
  destruct (decide (key = "var")) as [->|Hv].
  - rewrite !default_at_lookup. rewrite default_at_lookup_ne by discriminate.
    rewrite default_at_lookup. reflexivity.
  - rewrite (default_at_lookup_ne "var" key) by congruence.
    destruct (decide (key = "obs")) as [->|Ho].
    + rewrite !default_at_lookup.
      rewrite (default_at_lookup_ne "var" "obs") by discriminate.
      rewrite default_at_lookup. reflexivity.
    + rewrite !default_at_lookup_ne by congruence. reflexivity.
Qed.

(** Past the validation of the names, a [read] handed the caller's
    dict completes it and goes on with code [K] that touches no dict. *)
Lemma read_shared_prefix X_name use_position_indexing l X_layers q m :
  ms (experiment q) !! ms_name q = Some m ->
  check_X_names (X m) (X_name :: default [] X_layers) = Ok tt ->
  exists K : M ExperimentQueryReadArrowResult,
    preserves outer_frame K
    /\ forall s d,
        this s = q -> heap (world s) !! l = Some d ->
        read X_name use_position_indexing (Some l) X_layers s
        = K (set_dict l (completed d) s).
Proof.
  intros Hm Hcheck. eexists. split.
  2:{ intros s d Hthis Hd. subst q. unfold read.
      rewrite (bind_ok _ _ _ _ _ (self_measurement_spec s m Hm)).
      unfold bind at 1. unfold lift at 1. rewrite Hcheck.
      rewrite (bind_ok _ _ _ _ _ (default_key_shared "obs" l d s Hd)).
      rewrite (bind_ok _ _ _ _ _
                 (default_key_shared "var" l (default_at "obs" d) _
                    (set_dict_lookup l _ s))).
      rewrite set_dict_set_dict. fold (completed d).
      match goal with |- ?K0 _ = _ => instantiate (1 := K0) end.
      reflexivity. }
  outer_facts. unfold _rewrite_X_for_positional_indexing. solve_preserves.
Qed.

(** C10, as the code has it: in a [read] that is handed the caller's
    dict [d] and whose matrix names are accepted, the dict is completed
    in place, a missing ["obs"] or ["var"] key being set to [None] and
    nothing else changed, and it stays so however the read ends; and
    the read proceeds, result and final state, exactly as the read
    handed the completed dict. *)
Theorem read_completes_column_names X_name use_position_indexing l X_layers s m d :
  ms (experiment (this s)) !! ms_name (this s) = Some m ->
  check_X_names (X m) (X_name :: default [] X_layers) = Ok tt ->
  heap (world s) !! l = Some d ->
  (forall r s',
      read X_name use_position_indexing (Some l) X_layers s = (r, s') ->
      heap (world s') = <[l := completed d]> (heap (world s)))
  /\ completed d !! "obs" = Some (default None (d !! "obs"))
  /\ completed d !! "var" = Some (default None (d !! "var"))
  /\ (forall key, key ≠ "obs" -> key ≠ "var" -> completed d !! key = d !! key)
  /\ read X_name use_position_indexing (Some l) X_layers s
     = read X_name use_position_indexing (Some l) X_layers (set_dict l (completed d) s).
Proof.
  intros Hm Hcheck Hd.
  destruct (read_shared_prefix X_name use_position_indexing l X_layers (this s) m
              Hm Hcheck) as [K [HK Hread]].
  split; [|split; [|split; [|split]]].
  - intros r s' Hrun. rewrite (Hread s d eq_refl Hd) in Hrun.
    apply HK in Hrun as [Hheap _]. exact Hheap.
  - unfold completed. rewrite default_at_lookup_ne by discriminate.
    apply default_at_lookup.
  - unfold completed. rewrite default_at_lookup.
    now rewrite default_at_lookup_ne by discriminate.
  - intros key Ho Hv. unfold completed. rewrite !default_at_lookup_ne by congruence.
    reflexivity.
  - rewrite (Hread s d eq_refl Hd).
    rewrite (Hread (set_dict l (completed d) s) (completed d) eq_refl
               (set_dict_lookup l _ s)).
    now rewrite completed_idempotent, set_dict_set_dict.
Qed.

Lemma read_completes_column_names_witness :
  (forall r s',
      read (VStr "raw") false (Some O) None
        (example_state_with_dict {[ "obs" := Some ["cell_type"] ]}) = (r, s') ->
      heap (world s')
      = <[O := completed {[ "obs" := Some ["cell_type"] ]}]>
          (heap (world (example_state_with_dict {[ "obs" := Some ["cell_type"] ]}))))
  /\ completed {[ "obs" := Some ["cell_type"] ]} !! "obs"
     = Some (default None
               (({[ "obs" := Some ["cell_type"] ]} : AxisColumnNames) !! "obs"))
  /\ completed {[ "obs" := Some ["cell_type"] ]} !! "var"
     = Some (default None
               (({[ "obs" := Some ["cell_type"] ]} : AxisColumnNames) !! "var"))
  /\ (forall key, key ≠ "obs" -> key ≠ "var" ->
        completed {[ "obs" := Some ["cell_type"] ]} !! key
        = ({[ "obs" := Some ["cell_type"] ]} : AxisColumnNames) !! key)
  /\ read (VStr "raw") false (Some O) None
       (example_state_with_dict {[ "obs" := Some ["cell_type"] ]})
     = read (VStr "raw") false (Some O) None
         (set_dict O (completed {[ "obs" := Some ["cell_type"] ]})
            (example_state_with_dict {[ "obs" := Some ["cell_type"] ]})).
Proof.
  apply (read_completes_column_names (VStr "raw") false O None
           (example_state_with_dict {[ "obs" := Some ["cell_type"] ]})
           example_measurement {[ "obs" := Some ["cell_type"] ]}).
  - reflexivity.
  - reflexivity.
  - reflexivity.
Defined.

Example read_column_names_example :
  let s := example_state_with_dict {[ "obs" := Some ["cell_type"] ]} in
  let '(r, s') := read (VStr "raw") false (Some O) None s in
  (res_obs <$> r) = Ok [("cell_type", [VStr "T"; VStr "B"; VStr "NK"])]
  /\ heap (world s') !! O = Some {[ "obs" := Some ["cell_type"]; "var" := None ]}.
Proof. vm_compute. split; reflexivity. Qed.

(** C10 as stated fails for a read that is refused for its matrix
    name: the caller's dict, here empty, is left without the keys. *)
Lemma refused_read_leaves_column_names :
  ~ (exists d,
        heap (world (snd (read (VStr "nope") false (Some O) None
                            (example_state_with_dict ∅)))) !! O = Some d
        /\ is_Some (d !! "obs") /\ is_Some (d !! "var")).
Proof.
  intros [d [Hd [[v Hobs] _]]]. vm_compute in Hd. inversion Hd; subst.
  vm_compute in Hobs. discriminate.
Qed.

(** ** Empty selections *)

Lemma num_rows_from_pylist_empty schema : num_rows (from_pylist_empty schema) = O.
Proof. destruct schema; reflexivity. Qed.

(** With the join ids of both axes resolved and one of the two
    sequences empty, [_fetchX] yields one chunk, the empty table of the
    matrix's schema, and asks nothing of storage or of the executor. *)
Lemma fetchX_empty arr prefetch s o v :
  get_axis Obs (_joinids (this s)) = Some o ->
  get_axis Var (_joinids (this s)) = Some v ->
  o = [] \/ v = [] ->
  _fetchX arr prefetch s = (Ok [from_pylist_empty (schema arr)], s).
Proof.
  intros Ho Hv Hempty. unfold _fetchX. unfold_monad. simpl in *. rewrite Ho, Hv. simpl.
  destruct Hempty as [-> | ->]; simpl; [reflexivity|].
  now rewrite orb_true_r.
Qed.

Lemma pool_is_open_frame s s' :
  query_frame s s' -> outer_frame s s' -> pool_is_open s' = pool_is_open s.
Proof.
  intros [_ _ _ Hp _] [_ Hpools]. unfold pool_is_open. now rewrite Hp, Hpools.
Qed.

Lemma X_body_empty layer prefetch s m arr o v :
  ms (experiment (this s)) !! ms_name (this s) = Some m ->
  truthy layer = true ->
  lookup_layer (X m) layer = Some arr ->
  soma_type arr = SOMASparseNDArray ->
  pool_is_open s = true ->
  get_axis Obs (_joinids (this s)) = Some o ->
  get_axis Var (_joinids (this s)) = Some v ->
  o = [] \/ v = [] ->
  X_body layer prefetch s = (Ok [from_pylist_empty (schema arr)], s).
Proof.
  intros Hm Ht Hl Hsparse Hopen Ho Hv Hempty.
  unfold X_body. rewrite Ht. simpl.
  rewrite (bind_ok _ _ _ _ _ (self_measurement_spec s m Hm)).
  rewrite Hl. rewrite (bool_decide_eq_true_2 _ Hsparse). simpl.
  unfold bind at 1. simpl. simpl in Ho, Hv. rewrite Ho, Hv.
  pose proof (axis_joinids_cached Obs s m o Hm Ho) as Hjo.
  pose proof (axis_joinids_cached Var s m v Hm Hv) as Hjv.
  simpl in Hjo, Hjv.
  assert (Hso : (let* _ := submit obs_joinids in ret tt) s = (Ok tt, s)).
  { unfold bind. rewrite submit_open by exact Hopen. now rewrite Hjo. }
  assert (Hsv : (let* _ := submit var_joinids in ret tt) s = (Ok tt, s)).
  { unfold bind. rewrite submit_open by exact Hopen. now rewrite Hjv. }
  assert (Hfetch := fetchX_empty arr prefetch s o v Ho Hv Hempty).
  assert (Hstep_o : (if negb (joinids_truthy (Some o))
                     then let* _ := submit obs_joinids in ret tt
                     else ret tt) s = (Ok tt, s))
    by (destruct (negb (joinids_truthy (Some o))); [exact Hso|reflexivity]).
  assert (Hstep_v : (if negb (joinids_truthy (Some v))
                     then let* _ := submit var_joinids in ret tt
                     else ret tt) s = (Ok tt, s))
    by (destruct (negb (joinids_truthy (Some v))); [exact Hsv|reflexivity]).
  rewrite (bind_ok _ _ _ _ _ Hstep_o).
  rewrite (bind_ok _ _ _ _ _ Hstep_v).
  exact Hfetch.
Qed.

(** *** Dicts built from distinct keys *)

Lemma dict_set_fresh {V} (k : value) (v : V) (d : dict V) :
  k ∉ d.*1 -> dict_set k v d = d ++ [(k, v)].
Proof. intros H. unfold dict_set. now rewrite bool_decide_eq_false_2. Qed.

Lemma dict_pop_head {V} (k : value) (v : V) (d : dict V) :
  k ∉ d.*1 -> dict_pop k ((k, v) :: d) = Ok (v, d).
Proof.
  intros H. unfold dict_pop, dict_get. simpl.
  destruct (decide (k = k)) as [_|Hne]; [|congruence]. simpl.
  rewrite filter_cons_False by (simpl; intros Hk; now apply Hk).
  f_equal. f_equal.
  induction d as [|[k' v'] d IH]; [reflexivity|].
  rewrite fmap_cons in H. apply not_elem_of_cons in H as [Hk Hd].
  simpl in Hk. rewrite filter_cons_True by (simpl; congruence).
  now rewrite IH.
Qed.

Lemma concat_tables_singleton t : concat_tables [t] = Ok t.
Proof. reflexivity. Qed.

Lemma fetch_X_tables_empty X_collection o v names :
  forall acc s,
    get_axis Obs (_joinids (this s)) = Some o ->
    get_axis Var (_joinids (this s)) = Some v ->
    o = [] \/ v = [] ->
    Forall (fun n => is_Some (lookup_layer X_collection n)) names ->
    NoDup names ->
    (forall n, n ∈ names -> n ∉ acc.*1) ->
    fetch_X_tables X_collection names acc s
    = (Ok (acc ++ map (fun n => (n, empty_for X_collection n)) names), s).
Proof.
  induction names as [|n names IH]; intros acc s Ho Hv Hempty Hknown Hnd Hfresh; simpl.
  - now rewrite app_nil_r.
  - inversion Hknown as [|? ? [arr Harr] Hknown']; subst.
    inversion Hnd as [|? ? Hn Hnd']; subst.
    unfold empty_for at 1. rewrite Harr.
    unfold bind at 1. unfold ret at 1.
    rewrite (bind_ok _ _ _ _ _ (fetchX_empty arr true s o v Ho Hv Hempty)).
    unfold bind at 1. unfold lift at 1. rewrite concat_tables_singleton.
    rewrite dict_set_fresh by (apply Hfresh; left).
    rewrite IH; auto.
    + now rewrite <- app_assoc.
    + intros n' Hn'. rewrite fmap_app. simpl.
      intros Hin. apply elem_of_app in Hin as [Hin|Hin].
      * apply (Hfresh n'); [now right|exact Hin].
      * apply list_elem_of_singleton in Hin. congruence.
Qed.

(** *** Positional rewriting of empty tables *)

Lemma both_indexed_indexable m o v s :
  indexable m o v s -> indexable m o v (both_indexed o v s).
Proof. intros [Hm Ho Hv No Nv Io Iv]. constructor; simpl; auto. Qed.

Lemma both_indexed_idempotent o v s :
  both_indexed o v (both_indexed o v s) = both_indexed o v s.
Proof. reflexivity. Qed.

Lemma rewrite_one_empty m o v s :
  indexable m o v s ->
  obs_index [] s = (Ok [], indexed Obs o s)
  /\ var_index [] (indexed Obs o s) = (Ok [], both_indexed o v s).
Proof.
  intros [Hm Ho Hv No Nv Io Iv]. split.
  - exact (axis_index_spec Obs s m o [] Hm Ho Io No).
  - exact (axis_index_spec Var (indexed Obs o s) m v [] Hm Hv Iv Nv).
Qed.

Lemma rewrite_items_empty m o v items :
  forall acc s,
    indexable m o v s ->
    Forall (fun p => p.2 = from_pylist_empty sparse_schema) items ->
    NoDup items.*1 ->
    (forall n, n ∈ items.*1 -> n ∉ acc.*1) ->
    rewrite_items items acc s
    = (Ok (acc ++ map (fun p => (p.1, positional_empty)) items),
       match items with [] => s | _ => both_indexed o v s end).
Proof.
  induction items as [|[n t] items IH]; intros acc s Hs Hempty Hnd Hfresh; simpl.
  - now rewrite app_nil_r.
  - inversion Hempty as [|? ? Ht Hempty']; subst. simpl in Ht. subst t.
    rewrite fmap_cons in Hnd. inversion Hnd as [|? ? Hn Hnd']; subst.
    destruct (rewrite_one_empty m o v s Hs) as [Hobs Hvar].
    unfold bind at 1. unfold lift at 1. simpl.
    rewrite (bind_ok _ _ _ _ _ Hobs).
    unfold bind at 1. unfold lift at 1. simpl.
    rewrite (bind_ok _ _ _ _ _ Hvar).
    unfold bind at 1. unfold lift at 1. simpl.
    unfold bind at 1. unfold lift at 1. simpl.
    rewrite dict_set_fresh by (apply Hfresh; left).
    rewrite (IH _ (both_indexed o v s)); auto.
    + rewrite <- app_assoc. simpl. f_equal. now destruct items.
    + now apply both_indexed_indexable.
    + intros n' Hn'. rewrite fmap_app. simpl.
      intros Hin. apply elem_of_app in Hin as [Hin|Hin].
      * apply (Hfresh n'); [now right|exact Hin].
      * apply list_elem_of_singleton in Hin. simpl in Hn. congruence.
Qed.

(** *** [read] on an empty selection *)

Lemma default_key_local key d x s :
  d !! key = Some x -> default_key key (Local d) s = (Ok (Local d), s).
Proof.
  intros H. unfold default_key. unfold bind, deref, ret.
  rewrite bool_decide_eq_false_2 by congruence. reflexivity.
Qed.

Lemma getitem_local key d x s :
  d !! key = Some x -> getitem key (Local d) s = (Ok x, s).
Proof. intros H. unfold getitem, bind, deref, ret. now rewrite H. Qed.

Lemma getitem_shared key l d x s :
  heap (world s) !! l = Some d -> d !! key = Some x ->
  getitem key (Shared l) s = (Ok x, s).
Proof. intros Hd H. unfold getitem, bind, deref, ret. now rewrite Hd, H. Qed.

Lemma empty_for_rows X_collection n : num_rows (empty_for X_collection n) = O.
Proof.
  unfold empty_for. destruct (lookup_layer X_collection n); [|reflexivity].
  apply num_rows_from_pylist_empty.
Qed.

Lemma read_empty_selection X_name use_position_indexing column_names X_layers
    s m s1 s2 obs_tbl var_tbl o v :
  ms (experiment (this s)) !! ms_name (this s) = Some m ->
  check_X_names (X m) (X_name :: default [] X_layers) = Ok tt ->
  NoDup (X_name :: default [] X_layers) ->
  pool_is_open s = true ->
  (forall l, column_names = Some l -> is_Some (heap (world s) !! l)) ->
  _read_axis_dataframe Obs (obs (experiment (this s))) (requested "obs" column_names s)
    (entered column_names s) = (Ok obs_tbl, s1) ->
  _read_axis_dataframe Var (var m) (requested "var" column_names s) s1
  = (Ok var_tbl, s2) ->
  get_axis Obs (_joinids (this s2)) = Some o ->
  get_axis Var (_joinids (this s2)) = Some v ->
  o = [] \/ v = [] ->
  (use_position_indexing = true ->
   indexable m o v s2
   /\ Forall (fun n => empty_for (X m) n = from_pylist_empty sparse_schema)
        (X_name :: default [] X_layers)) ->
  exists res s3,
    read X_name use_position_indexing column_names X_layers s = (Ok res, s3)
    /\ res_obs res = obs_tbl
    /\ res_var res = var_tbl
    /\ num_rows (res_X res) = O
    /\ match res_X_layers res with
       | Some layers =>
           layers.*1 = default [] X_layers
           /\ Forall (fun p => num_rows p.2 = O) layers
       | None => default [] X_layers = []
       end.
Proof.
  intros Hm Hcheck Hnd Hopen Hcn Hobs Hvar Ho Hv Hempty Hupi.
  set (s0 := entered column_names s) in *.
  set (co := requested "obs" column_names s) in *.
  set (cv := requested "var" column_names s) in *.
  assert (Hthis0 : this s0 = this s)
    by (subst s0; unfold entered; destruct column_names as [l|]; [|reflexivity];
        destruct (heap (world s) !! l); reflexivity).
  assert (Hopen0 : pool_is_open s0 = true).
  { rewrite <- Hopen. subst s0. unfold entered.
    destruct column_names as [l|]; [|reflexivity].
    destruct (heap (world s) !! l); reflexivity. }
  pose proof (frame_read_axis_dataframe _ _ _ _ _ _ Hobs) as F01.
  pose proof (outer_read_axis_dataframe _ _ _ _ _ _ Hobs) as O01.
  pose proof (frame_read_axis_dataframe _ _ _ _ _ _ Hvar) as F12.
  pose proof (outer_read_axis_dataframe _ _ _ _ _ _ Hvar) as O12.
  assert (Hopen1 : pool_is_open s1 = true)
    by (now rewrite (pool_is_open_frame _ _ F01 O01)).
  assert (Hm1 : ms (experiment (this s1)) !! ms_name (this s1) = Some m).
  { destruct F01 as [He Hn _ _ _]. now rewrite He, Hn, Hthis0. }
  unfold read.
  rewrite (bind_ok _ _ _ _ _ (self_measurement_spec s m Hm)).
  unfold bind at 1. unfold lift at 1. rewrite Hcheck.
  match goal with
  | |- context [bind (default_key "obs" ?r0)
                  (fun c1 => bind (default_key "var" c1) ?T)] => set (tail := T)
  end.
  assert (Htail : forall r dd,
             (forall t, heap (world t) = heap (world s0) -> deref r t = (Ok dd, t)) ->
             dd !! "obs" = Some co -> dd !! "var" = Some cv ->
             exists res s3,
               tail r s0 = (Ok res, s3)
               /\ res_obs res = obs_tbl
               /\ res_var res = var_tbl
               /\ num_rows (res_X res) = O
               /\ match res_X_layers res with
                  | Some layers =>
                      layers.*1 = default [] X_layers
                      /\ Forall (fun p => num_rows p.2 = O) layers
                  | None => default [] X_layers = []
                  end).
  { intros r dd Hderef Hdo Hdv. subst tail. cbv beta.
    unfold bind at 1. unfold get_this at 1.
    assert (Hgo : getitem "obs" r s0 = (Ok co, s0))
      by (unfold getitem, bind; rewrite (Hderef s0 eq_refl), Hdo; reflexivity).
    rewrite (bind_ok _ _ _ _ _ Hgo).
    rewrite Hthis0.
    assert (Hso : submit (_read_axis_dataframe Obs (obs (experiment (this s))) co) s0
                  = (Ok (Ok obs_tbl), s1))
      by (rewrite submit_open by exact Hopen0; now rewrite Hobs).
    rewrite (bind_ok _ _ _ _ _ Hso).
    rewrite (bind_ok _ _ _ _ _ (self_measurement_spec s1 m Hm1)).
    assert (Hgv : getitem "var" r s1 = (Ok cv, s1))
      by (unfold getitem, bind; rewrite (Hderef s1 (proj1 O01)), Hdv; reflexivity).
    rewrite (bind_ok _ _ _ _ _ Hgv).
    assert (Hsv : submit (_read_axis_dataframe Var (var m) cv) s1
                  = (Ok (Ok var_tbl), s2))
      by (rewrite submit_open by exact Hopen1; now rewrite Hvar).
    rewrite (bind_ok _ _ _ _ _ Hsv).
    unfold bind at 1. unfold future_result at 1. unfold lift at 1.
    unfold bind at 1. unfold future_result at 1. unfold lift at 1.
    assert (Hknown : Forall (fun n => is_Some (lookup_layer (X m) n))
                       (X_name :: default [] X_layers)).
    { apply check_X_names_ok in Hcheck. eapply Forall_impl; [exact Hcheck|].
      intros n Hn. unfold name_error in Hn.
      destruct (negb (is_str n) || negb (truthy n)); [discriminate|].
      destruct (lookup_layer (X m) n); [eauto|discriminate]. }
    pose proof (fetch_X_tables_empty (X m) o v (X_name :: default [] X_layers) [] s2
                  Ho Hv Hempty Hknown Hnd
                  ltac:(intros n _ Hin; simpl in Hin; inversion Hin)) as Hfetch.
    rewrite app_nil_l in Hfetch.
    rewrite (bind_ok _ _ _ _ _ Hfetch).
    inversion Hnd as [|? ? HX Hnd']; subst.
    destruct use_position_indexing.
    - destruct (Hupi eq_refl) as [Hidx Hschema].
      set (items := map (fun n => (n, empty_for (X m) n)) (X_name :: default [] X_layers)).
      assert (Hitems_tables : Forall (fun p => p.2 = from_pylist_empty sparse_schema) items).
      { subst items. rewrite Forall_fmap. exact Hschema. }
      assert (Hitems_keys : items.*1 = X_name :: default [] X_layers).
      { subst items. rewrite <- list_fmap_compose. apply list_fmap_id. }
      pose proof (rewrite_items_empty m o v items [] s2 Hidx Hitems_tables
                    ltac:(rewrite Hitems_keys; exact Hnd)
                    ltac:(intros n _ Hin; simpl in Hin; inversion Hin)) as Hrw.
      rewrite app_nil_l in Hrw.
      unfold _rewrite_X_for_positional_indexing.
      rewrite (bind_ok _ _ _ _ _ Hrw).
      subst items. simpl map.
      set (rest := map (fun p : value * Table => (p.1, positional_empty))
                       (map (fun n => (n, empty_for (X m) n)) (default [] X_layers))).
      assert (Hrest_keys : rest.*1 = default [] X_layers).
      { subst rest. rewrite <- !list_fmap_compose. apply list_fmap_id. }
      assert (Hrest_rows : Forall (fun p : value * Table => num_rows p.2 = O) rest).
      { subst rest. rewrite !Forall_fmap. apply Forall_true. intros n. reflexivity. }
      unfold bind at 1. unfold lift at 1.
      rewrite dict_pop_head by (now rewrite Hrest_keys).
      assert (Hlen : length rest = length (default [] X_layers))
        by (now rewrite <- Hrest_keys, length_fmap).
      destruct (default [] X_layers) as [|x layers] eqn:Hlayers.
      + simpl. eexists. eexists. split; [reflexivity|]. simpl. auto.
      + rewrite Hlen. simpl length. simpl Nat.ltb. cbv iota.
        rewrite Nat.eqb_refl. unfold assert, bind, ret.
        eexists. eexists. split; [reflexivity|]. simpl. auto.
    - rewrite (bind_ok _ _ _ _ _ (eq_refl : ret _ s2 = (Ok _, s2))).
      simpl map.
      set (rest := map (fun n => (n, empty_for (X m) n)) (default [] X_layers)).
      assert (Hrest_keys : rest.*1 = default [] X_layers).
      { subst rest. rewrite <- !list_fmap_compose. apply list_fmap_id. }
      assert (Hrest_rows : Forall (fun p : value * Table => num_rows p.2 = O) rest).
      { subst rest. rewrite !Forall_fmap. apply Forall_true. intros n.
        apply empty_for_rows. }
      unfold bind at 1. unfold lift at 1.
      rewrite dict_pop_head by (now rewrite Hrest_keys).
      assert (Hlen : length rest = length (default [] X_layers))
        by (now rewrite <- Hrest_keys, length_fmap).
      destruct (default [] X_layers) as [|x layers] eqn:Hlayers.
      + simpl. eexists. eexists. split; [reflexivity|]. simpl.
        repeat split; auto. apply empty_for_rows.
      + rewrite Hlen. simpl length. simpl Nat.ltb. cbv iota.
        rewrite Nat.eqb_refl. unfold assert, bind, ret.
        eexists. eexists. split; [reflexivity|]. simpl.
        repeat split; auto. apply empty_for_rows. }
  destruct column_names as [l|].
  - destruct (Hcn l eq_refl) as [d Hd].
    assert (Hs0 : s0 = set_dict l (completed d) s)
      by (subst s0; unfold entered; now rewrite Hd).
    rewrite (bind_ok _ _ _ _ _ (default_key_shared "obs" l d s Hd)).
    rewrite (bind_ok _ _ _ _ _
               (default_key_shared "var" l (default_at "obs" d) _
                  (set_dict_lookup l _ s))).
    rewrite set_dict_set_dict. fold (completed d). rewrite <- Hs0.
    apply (Htail (Shared l) (completed d)).
    + intros t Ht. unfold deref. rewrite Ht, Hs0, set_dict_lookup. reflexivity.
    + subst co. unfold requested. rewrite Hd. unfold completed.
      rewrite default_at_lookup_ne by discriminate. apply default_at_lookup.
    + subst cv. unfold requested. rewrite Hd. unfold completed.
      rewrite default_at_lookup. now rewrite default_at_lookup_ne by discriminate.
  - set (dd := ({[ "obs" := None; "var" := None ]} : AxisColumnNames)).
    assert (Hdo : dd !! "obs" = Some None) by reflexivity.
    assert (Hdv : dd !! "var" = Some None) by reflexivity.
    rewrite (bind_ok _ _ _ _ _ (default_key_local "obs" dd None s Hdo)).
    rewrite (bind_ok _ _ _ _ _ (default_key_local "var" dd None s Hdv)).
    apply (Htail (Local dd) dd); auto.
Qed.




(** ** Positional indexing *)

Lemma from_arrays_three a b c :
  length a = length c -> length b = length c ->
  from_arrays [a; b; c] ["_dim_0"; "_dim_1"; "soma_data"]
  = Ok [("_dim_0", a); ("_dim_1", b); ("soma_data", c)].
Proof.
  intros Ha Hb. unfold from_arrays. simpl.
  rewrite Hb, Ha, Nat.eqb_refl. reflexivity.
Qed.

(** The rewriting turns every matrix table into its positional form,
    under the same name. *)
Lemma rewrite_items_positions m o v items :
  forall acc s,
    indexable m o v s ->
    NoDup items.*1 ->
    (forall n, n ∈ items.*1 -> n ∉ acc.*1) ->
    Forall (fun p => exists dim0 dim1 data, matrix_table p.2 dim0 dim1 data) items ->
    exists out s',
      rewrite_items items acc s = (Ok (acc ++ out), s')
      /\ Forall2 (fun p q =>
                    q.1 = p.1
                    /\ exists dim0 dim1 data,
                        matrix_table p.2 dim0 dim1 data
                        /\ q.2 = positional_table o v dim0 dim1 data)
           items out.
Proof.
  induction items as [|[n t] items IH]; intros acc s Hs Hnd Hfresh Htables; simpl.
  - exists [], s. rewrite app_nil_r. split; [reflexivity|constructor].
  - inversion Htables as [|? ? [dim0 [dim1 [data Ht]]] Htables']; subst.
    rewrite fmap_cons in Hnd. inversion Hnd as [|? ? Hn Hnd']; subst.
    simpl in Ht, Hn. pose proof Ht as [H0 [H1 [Hd [L0 L1]]]].
    destruct Hs as [Hm Ho Hv No Nv Io Iv].
    rewrite H0, H1, Hd.
    unfold bind at 1. unfold lift at 1.
    rewrite (bind_ok _ _ _ _ _ (axis_index_spec Obs s m o dim0 Hm Ho Io No)).
    unfold bind at 1. unfold lift at 1.
    rewrite (bind_ok _ _ _ _ _
               (axis_index_spec Var (indexed Obs o s) m v dim1 Hm Hv Iv Nv)).
    unfold bind at 1. unfold lift at 1.
    unfold bind at 1. unfold lift at 1.
    rewrite from_arrays_three by (now rewrite !length_map).
    rewrite dict_set_fresh by (apply Hfresh; left).
    destruct (IH (acc ++ [(n, positional_table o v dim0 dim1 data)])
                 (both_indexed o v s)) as [out [s' [Hrun Hout]]]; auto.
    + apply both_indexed_indexable. now constructor.
    + intros n' Hn'. rewrite fmap_app. simpl.
      intros Hin. apply elem_of_app in Hin as [Hin|Hin].
      * apply (Hfresh n'); [now right|exact Hin].
      * apply list_elem_of_singleton in Hin. congruence.
    + exists ((n, positional_table o v dim0 dim1 data) :: out), s'.
      split.
      * unfold positional_table in Hrun. unfold both_indexed in Hrun.
        rewrite Hrun. now rewrite <- app_assoc.
      * constructor; [|exact Hout]. simpl. split; [reflexivity|].
        exists dim0, dim1, data. auto.
Qed.

(** C3 on the documented scenario, positional indexing requested: the
    matrix table comes back with positions under the names [_dim_0] and
    [_dim_1]; the [obs] and [var] tables come back with their
    [soma_joinid] column, which is not dropped. *)
Theorem positional_read_keeps_soma_joinid :
  exists res s',
    read (VStr "raw") true None None (example_state None None) = (Ok res, s')
    /\ res_X res = [("_dim_0", [VInt 0; VInt 1]);
                    ("_dim_1", [VInt 0; VInt 1]);
                    ("soma_data", [VInt 5; VInt 7])]
    /\ soma_joinid ∈ column_names (res_obs res)
    /\ soma_joinid ∈ column_names (res_var res).
Proof.
  eexists. eexists. split; [vm_compute; reflexivity|].
  split; [reflexivity|]. split; simpl; left.
Qed.

(** ** Prefetch *)

Lemma pool_is_open_logged ev s : pool_is_open (logged ev s) = pool_is_open s.
Proof. reflexivity. Qed.

(** [_fetchX], path by path. Fetching ahead yields the very chunks of
    the plain read; it only needs the executor. *)
Lemma fetchX_unfold arr prefetch s :
  _fetchX arr prefetch s =
  match get_axis Obs (_joinids (this s)), get_axis Var (_joinids (this s)) with
  | Some o, Some v =>
      if (length o =? 0)%nat || (length v =? 0)%nat
      then (Ok [from_pylist_empty (schema arr)], s)
      else
        let s1 := logged (EvMatrixRead o v) s in
        match read_table arr o v with
        | Err e => (Err e, s1)
        | Ok gen =>
            if negb prefetch || pool_is_open s
            then (Ok gen, s1)
            else (Err RuntimeError, s1)
        end
  | _, _ => (Err AssertionError, s)
  end.
Proof.
  unfold _fetchX. unfold bind at 1. unfold get_this at 1. simpl.
  destruct (at_obs (_joinids (this s))) as [o|]; [|reflexivity].
  destruct (at_var (_joinids (this s))) as [v|]; [|reflexivity].
  simpl. unfold bind at 1. unfold ret at 1. unfold bind at 1. unfold ret at 1.
  destruct ((length o =? 0)%nat || (length v =? 0)%nat); [reflexivity|].
  unfold bind at 1. unfold log_io, modify_world. fold (logged (EvMatrixRead o v) s).
  unfold bind at 1. unfold lift at 1.
  destruct (read_table arr o v) as [gen|e]; [|reflexivity].
  destruct prefetch; simpl; [|reflexivity].
  destruct (pool_is_open s) eqn:Hopen.
  - pose proof (prefetch_loop_total gen (S (length gen)) (logged (EvMatrixRead o v) s)
                  Hopen ltac:(lia)) as Hloop.
    destruct (wrap_generator_next gen) as [r gen'] eqn:Hnext.
    simpl in Hloop.
    rewrite (bind_ok _ _ _ _ _
               (submit_open (ret r) (logged (EvMatrixRead o v) s) Hopen)).
    unfold ret at 1. simpl fst. simpl snd.
    now rewrite (bind_ok _ _ _ _ _ Hloop).
  - destruct (wrap_generator_next gen) as [r gen'].
    now rewrite (bind_err _ _ _ _ _
                   (submit_closed (ret r) (logged (EvMatrixRead o v) s) Hopen)).
Qed.

Lemma fetchX_prefetch_agrees arr s :
  pool_is_open s = true -> _fetchX arr true s = _fetchX arr false s.
Proof. intros Hopen. rewrite !fetchX_unfold, Hopen. reflexivity. Qed.

(** ** The indexer follows the cache *)

Lemma keeps_consistent_refl s : keeps_consistent s s.
Proof. intros H. exact H. Qed.

Lemma keeps_consistent_trans s1 s2 s3 :
  keeps_consistent s1 s2 -> keeps_consistent s2 s3 -> keeps_consistent s1 s3.
Proof. unfold keeps_consistent. auto. Qed.

Ltac consistent_facts :=
  pose proof keeps_consistent_refl as Hcons_refl;
  pose proof keeps_consistent_trans as Hcons_trans.

Lemma consistent_modify_world f : preserves keeps_consistent (modify_world f).
Proof. intros s r s' [= _ <-]. intros H. exact H. Qed.

Lemma consistent_log_io ev : preserves keeps_consistent (log_io ev).
Proof. apply consistent_modify_world. Qed.

Lemma consistent_shutdown pool : preserves keeps_consistent (shutdown pool).
Proof. apply consistent_modify_world. Qed.

Lemma consistent_cached a ids s :
  get_axis a (_joinids (this s)) = None ->
  keeps_consistent s (cached a ids s).
Proof.
  intros Hnone Hs a'. specialize (Hs a').
  destruct a, a'; simpl in *; auto; destruct Hs as [Hs|Hs]; auto; left; congruence.
Qed.

Lemma consistent_read_axis_dataframe a axis_df column_names :
  preserves keeps_consistent (_read_axis_dataframe a axis_df column_names).
Proof.
  intros s r s'. rewrite read_axis_dataframe_unfold.
  set (ev := EvAxisRead a _).
  assert (Hlog : keeps_consistent s (logged ev s)) by (intros H; exact H).
  destruct (read_all _ _ _ _) as [tbl|e]; [|intros [= _ <-]; exact Hlog].
  case_bool_decide as Hneed; [|intros [= _ <-]; exact Hlog].
  destruct (column soma_joinid tbl) as [ids|e]; intros [= _ <-]; [|exact Hlog].
  eapply keeps_consistent_trans; [exact Hlog|]. now apply consistent_cached.
Qed.

#[export] Hint Resolve consistent_modify_world consistent_log_io consistent_shutdown
  consistent_read_axis_dataframe : preserves.

Lemma consistent_read_axis_joinids a axis_df :
  preserves keeps_consistent (_read_axis_joinids a axis_df).
Proof. consistent_facts. unfold _read_axis_joinids. solve_preserves. Qed.

#[export] Hint Resolve consistent_read_axis_joinids : preserves.

Lemma consistent_obs_joinids : preserves keeps_consistent obs_joinids.
Proof. consistent_facts. unfold obs_joinids. solve_preserves. Qed.

Lemma consistent_var_joinids : preserves keeps_consistent var_joinids.
Proof. consistent_facts. unfold var_joinids. solve_preserves. Qed.

#[export] Hint Resolve consistent_obs_joinids consistent_var_joinids : preserves.

(** What [_read_axis_joinids] returns is what the cache holds when it
    returns. *)
Lemma read_axis_joinids_result a axis_df s r s' :
  _read_axis_joinids a axis_df s = (Ok r, s') ->
  r = get_axis a (_joinids (this s')).
Proof.
  unfold _read_axis_joinids. intros H.
  apply bind_inv_ok in H as [q [s1 [_ H]]].
  apply bind_inv_ok in H as [u [s2 [_ H]]].
  apply bind_inv_ok in H as [q' [s3 [Hq H]]].
  unfold get_this in Hq. inversion Hq; subst. unfold ret in H. now inversion H.
Qed.

Lemma axis_joinids_result a s r s' :
  axis_joinids a s = (Ok r, s') -> r = get_axis a (_joinids (this s')).
Proof.
  destruct a; simpl.
  - unfold obs_joinids. intros H. apply bind_inv_ok in H as [q [s1 [Hq H]]].
    unfold get_this in Hq. inversion Hq; subst.
    now apply read_axis_joinids_result in H.
  - unfold var_joinids. intros H. apply bind_inv_ok in H as [m [s1 [Hm H]]].
    unfold self_measurement, bind, get_this in Hm.
    destruct (ms (experiment (this s)) !! ms_name (this s)); inversion Hm; subst.
    now apply read_axis_joinids_result in H.
Qed.

Lemma consistent_indexed a ids s :
  get_axis a (_joinids (this s)) = Some ids ->
  keeps_consistent s (indexed a ids s).
Proof.
  intros Hids Hs a'. specialize (Hs a').
  destruct a, a'; simpl in *; auto.
Qed.

Lemma axis_index_unfold a target s :
  axis_index a target s =
  match index_of a (this s) with
  | Some index => (get_indexer index target, s)
  | None =>
      match axis_joinids a s with
      | (Ok (Some ids), s1) => (get_indexer ids target, indexed a ids s1)
      | (Ok None, s1) => (Err AttributeError, s1)
      | (Err e, s1) => (Err e, s1)
      end
  end.
Proof.
  destruct a; simpl.
  - unfold obs_index. unfold bind at 1. unfold get_this at 1.
    destruct (_obs_index (_indexer (this s))) as [index|] eqn:Hi; simpl.
    + unfold_monad. simpl. rewrite Hi. reflexivity.
    + unfold bind at 1. unfold bind at 1.
      destruct (obs_joinids s) as [[[ids|]|e] s1]; reflexivity.
  - unfold var_index. unfold bind at 1. unfold get_this at 1.
    destruct (_var_index (_indexer (this s))) as [index|] eqn:Hi; simpl.
    + unfold_monad. simpl. rewrite Hi. reflexivity.
    + unfold bind at 1. unfold bind at 1.
      destruct (var_joinids s) as [[[ids|]|e] s1]; reflexivity.
Qed.

Lemma consistent_axis_index a target :
  preserves keeps_consistent (axis_index a target).
Proof.
  intros s r s'. rewrite axis_index_unfold.
  destruct (index_of a (this s)) as [index|]; [intros [= _ <-]; apply keeps_consistent_refl|].
  destruct (axis_joinids a s) as [[[ids|]|e] s1] eqn:Hj; intros [= _ <-].
  - eapply keeps_consistent_trans.
    + destruct a; [eapply consistent_obs_joinids|eapply consistent_var_joinids]; exact Hj.
    + apply consistent_indexed. symmetry. now apply (axis_joinids_result a s).
  - destruct a; [eapply consistent_obs_joinids|eapply consistent_var_joinids]; exact Hj.
  - destruct a; [eapply consistent_obs_joinids|eapply consistent_var_joinids]; exact Hj.
Qed.

Lemma consistent_obs_index target : preserves keeps_consistent (obs_index target).
Proof. exact (consistent_axis_index Obs target). Qed.

Lemma consistent_var_index target : preserves keeps_consistent (var_index target).
Proof. exact (consistent_axis_index Var target). Qed.

Lemma consistent_prefetch_loop fuel :
  forall gen fut, preserves keeps_consistent (prefetch_loop fuel gen fut).
Proof.
  consistent_facts. induction fuel as [|fuel IH]; intros gen fut; simpl; solve_preserves.
Qed.

#[export] Hint Resolve consistent_obs_index consistent_var_index
  consistent_prefetch_loop : preserves.

Lemma consistent_fetchX arr prefetch : preserves keeps_consistent (_fetchX arr prefetch).
Proof. consistent_facts. unfold _fetchX. solve_preserves. Qed.

#[export] Hint Resolve consistent_fetchX : preserves.

Lemma consistent_rewrite_items items :
  forall acc, preserves keeps_consistent (rewrite_items items acc).
Proof.
  consistent_facts. induction items as [|[X_name X_table] items IH]; intros acc; simpl;
    solve_preserves.
Qed.

Lemma consistent_fetch_X_tables X_collection names :
  forall acc, preserves keeps_consistent (fetch_X_tables X_collection names acc).
Proof.
  consistent_facts. induction names as [|n names IH]; intros acc; simpl; solve_preserves.
Qed.

Lemma consistent_setitem key v r : preserves keeps_consistent (setitem key v r).
Proof. consistent_facts. unfold setitem. solve_preserves. Qed.

#[export] Hint Resolve consistent_rewrite_items consistent_fetch_X_tables
  consistent_setitem : preserves.

Lemma consistent_X_body layer prefetch : preserves keeps_consistent (X_body layer prefetch).
Proof. consistent_facts. unfold X_body. solve_preserves. Qed.

Lemma consistent_run_call c s : keeps_consistent s (run_call c s).
Proof.
  consistent_facts.
  destruct c; cbn [run_call]; apply preserves_snd;
    try solve [eauto with preserves].
  - unfold obs_table. solve_preserves.
  - unfold var_table. solve_preserves.
  - unfold n_obs. solve_preserves.
  - unfold n_vars. solve_preserves.
  - apply consistent_X_body.
  - intros s0 r s'. rewrite async_X_body_spec. apply consistent_X_body.
  - unfold read, default_key, _rewrite_X_for_positional_indexing. solve_preserves.
  - unfold close. solve_preserves.
Qed.

(** A new query has no index, and no run of calls breaks the tie
    between an index and the cache. *)
Lemma indexer_consistent_reachable experiment name oq vq w q w' calls :
  ExperimentQuery_init experiment name oq vq w = (Ok q, w') ->
  indexer_consistent (run_calls calls {| this := q; world := w' |}).
Proof.
  intros Hinit. apply init_ok_inv in Hinit as [_ [_ [_ [Hidx _]]]].
  assert (H0 : indexer_consistent {| this := q; world := w' |}).
  { intros a. left. destruct a; simpl; now rewrite Hidx. }
  revert H0. generalize {| this := q; world := w' |}.
  induction calls as [|c calls IH]; intros s Hs; simpl; [exact Hs|].
  apply IH. now apply consistent_run_call.
Qed.

(** ** The scoped helper on the path without exception *)

(** When the query is constructed and the body completes, the helper
    calls [close] once: the executor, fresh and so far never shut
    down, has seen one [shutdown()] more than the body made. *)
Lemma experiment_query_closes_on_normal_exit {A} experiment name oq vq
    (body : M A) w q w1 a s2 n :
  ExperimentQuery_init experiment name oq vq w = (Ok q, w1) ->
  body {| this := q; world := w1 |} = (Ok a, s2) ->
  _default_threadpool (this s2) = _default_threadpool q ->
  shutdown_calls (_default_threadpool q) (world s2) = Some n ->
  exists w3,
    with_experiment_query experiment name oq vq body w = (Ok a, w3)
    /\ shutdown_calls (_default_threadpool q) w3 = Some (S n).
Proof.
  intros Hinit Hbody Hpool Hn.
  rewrite (with_experiment_query_normal_exit _ _ _ _ _ _ _ _ _ _ Hinit Hbody).
  eexists. split; [reflexivity|].
  rewrite <- Hpool. apply close_shutdown_calls. now rewrite Hpool.
Qed.

(** ** The axis tables of [read] *)

Lemma submit_inv_ok {A} (task : M A) s f s' :
  submit task s = (Ok f, s') -> task s = (f, s').
Proof.
  unfold submit. destruct (pool_is_open s); [|discriminate].
  destruct (task s) as [r s1]. now intros [= <- <-].
Qed.

Lemma getitem_state key r s x s' : getitem key r s = (x, s') -> s' = s.
Proof.
  unfold getitem, bind, deref. destruct r as [d|l]; unfold ret.
  - destruct (d !! key); now intros [= _ <-].
  - destruct (heap (world s) !! l) as [d|]; [|now intros [= _ <-]].
    destruct (d !! key); now intros [= _ <-].
Qed.

Lemma self_measurement_state s x s' : self_measurement s = (x, s') -> s' = s.
Proof.
  unfold self_measurement, bind, get_this.
  destruct (ms (experiment (this s)) !! ms_name (this s)); now intros [= _ <-].
Qed.

Ltac invert_bind H :=
  let a := fresh "a" in
  let s := fresh "s" in
  let Ha := fresh "Hstep" in
  apply bind_inv_ok in H as [a [s [Ha H]]].

(** Whatever [use_position_indexing] is, the [obs] and [var] tables a
    [read] returns are the tables its two axis reads returned: nothing
    is taken from them afterwards. *)
Lemma read_returns_axis_tables X_name use_position_indexing column_names X_layers
    s res s' :
  read X_name use_position_indexing column_names X_layers s = (Ok res, s') ->
  exists m obs_columns var_columns s0 s1 s2,
    _read_axis_dataframe Obs (obs (experiment (this s0))) obs_columns s0
    = (Ok (res_obs res), s1)
    /\ _read_axis_dataframe Var (var m) var_columns s1 = (Ok (res_var res), s2).
Proof.
  unfold read. intros H.
  invert_bind H. invert_bind H. invert_bind H. invert_bind H.
  invert_bind H. invert_bind H. invert_bind H. invert_bind H.
  invert_bind H. invert_bind H. invert_bind H. invert_bind H.
  invert_bind H. invert_bind H. invert_bind H.
  match goal with
  | Hs : submit (_read_axis_dataframe Obs _ _) _ = _ |- _ =>
      apply submit_inv_ok in Hs; rename Hs into Hobs
  end.
  match goal with
  | Hs : submit (_read_axis_dataframe Var _ _) _ = _ |- _ =>
      apply submit_inv_ok in Hs; rename Hs into Hvar
  end.
  repeat match goal with
         | Hf : future_result _ _ = (Ok _, _) |- _ =>
             unfold future_result, lift in Hf; inversion Hf; subst; clear Hf
         | Hg : get_this _ = (Ok _, _) |- _ =>
             unfold get_this in Hg; inversion Hg; subst; clear Hg
         end.
  match goal with
  | p : (Table * dict Table)%type |- _ => destruct p as [tX rest]
  end.
  match type of H with
  | context [ {| res_obs := ?to; res_var := ?tv; res_X := _; res_X_layers := None |} ] =>
      assert (Hres : res_obs res = to /\ res_var res = tv)
  end.
  { destruct (0 <? length (default [] X_layers))%nat.
    - invert_bind H. unfold ret in H. inversion H; subst. now split.
    - unfold ret in H. inversion H; subst. now split. }
  destruct Hres as [-> ->].
  repeat match goal with
         | Hg : getitem _ _ _ = _ |- _ => apply getitem_state in Hg; subst
         | Hm : self_measurement ?t = (_, ?t') |- _ =>
             pose proof (self_measurement_state _ _ _ Hm); clear Hm; subst t'
         end.
  eauto 10.
Qed.

(** * Further properties *)

(** ** A new query *)

(** A query on an experiment that exists and has the measurement is
    constructed: with the filters given, or the filter that selects
    every row; with no join ids cached and no index built; and with an
    executor of its own, new and open. Nothing is read, and the
    executors that were there are as they were. *)
Theorem init_establishes_query exp name oq vq w m :
  exists_ exp = true ->
  ms exp !! name = Some m ->
  exists q w',
    ExperimentQuery_init exp name oq vq w = (Ok q, w')
    /\ experiment q = exp /\ ms_name q = name
    /\ _query q = {| at_obs := default default_axis_query oq;
                     at_var := default default_axis_query vq |}
    /\ _joinids q = {| at_obs := None; at_var := None |}
    /\ _indexer q = {| _obs_index := None; _var_index := None |}
    /\ shutdown_calls (_default_threadpool q) w = None
    /\ pool_is_open {| this := q; world := w' |} = true
    /\ io_log w' = io_log w /\ heap w' = heap w
    /\ (forall p n, shutdown_calls p w = Some n -> shutdown_calls p w' = Some n).
Proof.
  intros Hex Hm. unfold ExperimentQuery_init. rewrite Hex. simpl.
  rewrite bool_decide_eq_true_2 by (rewrite Hm; eauto). simpl.
  eexists. eexists. split; [reflexivity|]. simpl.
  repeat split.
  - unfold shutdown_calls. apply lookup_ge_None. lia.
  - unfold pool_is_open. simpl. rewrite lookup_app_r by lia.
    now rewrite Nat.sub_diag.
  - intros p n Hp. unfold shutdown_calls in *. simpl.
    rewrite lookup_app_l; [exact Hp|]. eapply lookup_lt_Some; eauto.
Qed.

Lemma init_establishes_query_witness :
  exists q w',
    ExperimentQuery_init example_experiment "RNA" (Some no_rows) None empty_world
    = (Ok q, w')
    /\ experiment q = example_experiment /\ ms_name q = "RNA"
    /\ _query q = {| at_obs := default default_axis_query (Some no_rows);
                     at_var := default default_axis_query None |}
    /\ _joinids q = {| at_obs := None; at_var := None |}
    /\ _indexer q = {| _obs_index := None; _var_index := None |}
    /\ shutdown_calls (_default_threadpool q) empty_world = None
    /\ pool_is_open {| this := q; world := w' |} = true
    /\ io_log w' = io_log empty_world /\ heap w' = heap empty_world
    /\ (forall p n, shutdown_calls p empty_world = Some n -> shutdown_calls p w' = Some n).
Proof.
  apply (init_establishes_query example_experiment "RNA" (Some no_rows) None empty_world
           example_measurement).
  - reflexivity.
  - reflexivity.
Defined.

(** ** The scoped helper, the other paths *)

(** When the query cannot be constructed the helper raises the
    constructor's exception and the body does not run; when the body
    completes, the helper returns the body's value after one call of
    [close], which is one [shutdown()] more on the query's executor. *)
Theorem experiment_query_scope {A} exp name oq vq (body : M A) w :
  (forall e w1,
      ExperimentQuery_init exp name oq vq w = (Err e, w1) ->
      with_experiment_query exp name oq vq body w = (Err e, w1))
  /\ (forall q w1 a s2 n,
      ExperimentQuery_init exp name oq vq w = (Ok q, w1) ->
      body {| this := q; world := w1 |} = (Ok a, s2) ->
      _default_threadpool (this s2) = _default_threadpool q ->
      shutdown_calls (_default_threadpool q) (world s2) = Some n ->
      exists w3,
        with_experiment_query exp name oq vq body w = (Ok a, w3)
        /\ shutdown_calls (_default_threadpool q) w3 = Some (S n)
        /\ io_log w3 = io_log (world s2) /\ heap w3 = heap (world s2)).
Proof.
  split.
  - intros e w1 Hinit. unfold with_experiment_query, experiment_query_enter.
    now rewrite Hinit.
  - intros q w1 a s2 n Hinit Hbody Hpool Hn.
    rewrite (with_experiment_query_normal_exit _ _ _ _ _ _ _ _ _ _ Hinit Hbody).
    eexists. split; [reflexivity|]. split; [|split; reflexivity].
    rewrite <- Hpool. apply close_shutdown_calls. now rewrite Hpool.
Qed.

Lemma experiment_query_scope_witness :
  with_experiment_query example_experiment "DNA" None None obs_joinids empty_world
  = (Err ValueError, empty_world)
  /\ exists w3,
       with_experiment_query example_experiment "RNA" None None obs_joinids empty_world
       = (Ok (Some [VInt 10; VInt 20; VInt 30]), w3)
       /\ shutdown_calls O w3 = Some 1%nat
       /\ io_log w3 = io_log (world (run_call Call_obs_joinids (example_state None None)))
       /\ heap w3 = heap (world (run_call Call_obs_joinids (example_state None None))).
Proof.
  split.
  - apply (proj1 (experiment_query_scope example_experiment "DNA" None None
                    obs_joinids empty_world) ValueError empty_world).
    reflexivity.
  - apply (proj2 (experiment_query_scope example_experiment "RNA" None None
                    obs_joinids empty_world)
             (this (example_state None None)) (with_pools [O] empty_world)
             (Some [VInt 10; VInt 20; VInt 30])
             (run_call Call_obs_joinids (example_state None None)) O).
    + reflexivity.
    + reflexivity.
    + reflexivity.
    + reflexivity.
Defined.

(** ** [read] past its defaults *)

Lemma entered_this cn s : this (entered cn s) = this s.
Proof.
  unfold entered. destruct cn as [l|]; [|reflexivity].
  destruct (heap (world s) !! l); reflexivity.
Qed.

Lemma entered_pools cn s : pools (world (entered cn s)) = pools (world s).
Proof.
  unfold entered. destruct cn as [l|]; [|reflexivity].
  destruct (heap (world s) !! l); reflexivity.
Qed.

Lemma entered_log cn s : io_log (world (entered cn s)) = io_log (world s).
Proof.
  unfold entered. destruct cn as [l|]; [|reflexivity].
  destruct (heap (world s) !! l); reflexivity.
Qed.

Lemma entered_pool_is_open cn s : pool_is_open (entered cn s) = pool_is_open s.
Proof. unfold pool_is_open. now rewrite entered_this, entered_pools. Qed.

(** A [read] whose names are accepted completes the dict and goes on
    with the rest of its code. *)
Lemma read_enters X_name use_position_indexing cn X_layers s m :
  ms (experiment (this s)) !! ms_name (this s) = Some m ->
  check_X_names (X m) (X_name :: default [] X_layers) = Ok tt ->
  (forall l, cn = Some l -> is_Some (heap (world s) !! l)) ->
  read X_name use_position_indexing cn X_layers s
  = read_after_defaults (X m) X_name (default [] X_layers) use_position_indexing
      (dict_of_argument cn) (entered cn s).
Proof.
  intros Hm Hcheck Hcn. unfold read.
  rewrite (bind_ok _ _ _ _ _ (self_measurement_spec s m Hm)).
  unfold bind at 1. unfold lift at 1. rewrite Hcheck.
  destruct cn as [l|]; simpl dict_of_argument.
  - destruct (Hcn l eq_refl) as [d Hd].
    rewrite (bind_ok _ _ _ _ _ (default_key_shared "obs" l d s Hd)).
    rewrite (bind_ok _ _ _ _ _
               (default_key_shared "var" l (default_at "obs" d) _
                  (set_dict_lookup l _ s))).
    rewrite set_dict_set_dict. fold (completed d).
    unfold entered. rewrite Hd. reflexivity.
  - set (dd := ({[ "obs" := None; "var" := None ]} : AxisColumnNames)).
    assert (Hdo : dd !! "obs" = Some None) by reflexivity.
    assert (Hdv : dd !! "var" = Some None) by reflexivity.
    rewrite (bind_ok _ _ _ _ _ (default_key_local "obs" dd None s Hdo)).
    rewrite (bind_ok _ _ _ _ _ (default_key_local "var" dd None s Hdv)).
    reflexivity.
Qed.

(** Past the defaults, the dict answers for both axes, in any state
    with the same dicts. *)
Lemma getitem_entered key cn s t :
  (forall l, cn = Some l -> is_Some (heap (world s) !! l)) ->
  key = "obs" \/ key = "var" ->
  heap (world t) = heap (world (entered cn s)) ->
  getitem key (dict_of_argument cn) t = (Ok (requested key cn s), t).
Proof.
  intros Hcn Hkey Ht. destruct cn as [l|]; simpl.
  - destruct (Hcn l eq_refl) as [d Hd].
    apply (getitem_shared key l (completed d)).
    + rewrite Ht. unfold entered. rewrite Hd. apply set_dict_lookup.
    + rewrite Hd. unfold completed. destruct Hkey as [-> | ->].
      * rewrite default_at_lookup_ne by discriminate. apply default_at_lookup.
      * rewrite default_at_lookup. now rewrite default_at_lookup_ne by discriminate.
  - apply getitem_local. destruct Hkey as [-> | ->]; reflexivity.
Qed.

(** ** What one axis read does to the state *)

Lemma query_columns_of_cached column_names :
  query_columns_of false column_names = column_names.
Proof. now destruct column_names. Qed.

(** The state an axis read leaves, whatever its outcome. *)
Lemma axis_read_effect a axis_df column_names s :
  let s' := snd (_read_axis_dataframe a axis_df column_names s) in
  io_log (world s')
  = io_log (world s)
    ++ [EvAxisRead a (query_columns_of
                        (bool_decide (get_axis a (_joinids (this s)) = None))
                        column_names)]
  /\ heap (world s') = heap (world s)
  /\ pools (world s') = pools (world s)
  /\ _indexer (this s') = _indexer (this s)
  /\ (forall b, b ≠ a ->
        get_axis b (_joinids (this s')) = get_axis b (_joinids (this s)))
  /\ (get_axis a (_joinids (this s)) ≠ None -> this s' = this s).
Proof.
  intros s'. subst s'. rewrite read_axis_dataframe_unfold.
  destruct (read_all _ _ _ _) as [tbl|e]; simpl.
  2:{ repeat split; auto. }
  case_bool_decide as Hneed; simpl.
  - destruct (column soma_joinid tbl) as [ids|e]; simpl.
    + repeat split; auto.
      * intros b Hb. destruct a, b; simpl; congruence.
      * congruence.
    + repeat split; auto.
  - repeat split; auto.
Qed.

(** Every axis read, whatever its outcome and whether or not the join
    ids are cached, asks storage once: the log grows by exactly one
    entry, for the columns requested, with [soma_joinid] put in front
    only when the cache is unset and the caller's list lacks it.
    Besides the log and the cache of its own axis, the read leaves the
    state alone. *)
Theorem axis_read_asks_storage_once a axis_df column_names s :
  let s' := snd (_read_axis_dataframe a axis_df column_names s) in
  io_log (world s')
  = io_log (world s)
    ++ [EvAxisRead a (query_columns_of
                        (bool_decide (get_axis a (_joinids (this s)) = None))
                        column_names)]
  /\ heap (world s') = heap (world s)
  /\ pools (world s') = pools (world s)
  /\ _indexer (this s') = _indexer (this s)
  /\ (forall b, b ≠ a ->
        get_axis b (_joinids (this s')) = get_axis b (_joinids (this s)))
  /\ (get_axis a (_joinids (this s)) ≠ None -> this s' = this s).
Proof. exact (axis_read_effect a axis_df column_names s). Qed.

Lemma axis_read_asks_storage_once_witness :
  io_log (world (run_call (Call_obs (Some ["cell_type"])) (example_state None None)))
  = [EvAxisRead Obs (Some ["soma_joinid"; "cell_type"])]
  /\ get_axis Var (_joinids (this (run_call (Call_obs (Some ["cell_type"]))
                                     (example_state None None))))
     = None
  /\ this (run_calls [Call_obs_joinids; Call_obs (Some ["cell_type"])]
             (example_state None None))
     = this (run_call Call_obs_joinids (example_state None None)).
Proof.
  destruct (axis_read_asks_storage_once Obs (memory_dataframe example_obs)
              (Some ["cell_type"]) (example_state None None))
    as [Hlog [_ [_ [_ [Hother _]]]]].
  destruct (axis_read_asks_storage_once Obs (memory_dataframe example_obs)
              (Some ["cell_type"]) (run_call Call_obs_joinids (example_state None None)))
    as [_ [_ [_ [_ [_ Hthis]]]]].
  split; [exact Hlog|]. split.
  - apply (Hother Var). discriminate.
  - apply Hthis. discriminate.
Defined.

(** With the join ids of its axis cached, an axis read asks storage
    for exactly the caller's columns, returns the answer narrowed to
    them, and changes nothing but the log. *)
Theorem axis_read_with_cache a axis_df column_names s ids :
  get_axis a (_joinids (this s)) = Some ids ->
  _read_axis_dataframe a axis_df column_names s
  = (read_all axis_df (coords (get_axis a (_query (this s))))
              (value_filter (get_axis a (_query (this s)))) column_names
     ≫= narrow column_names,
     logged (EvAxisRead a column_names) s).
Proof.
  intros Hids. rewrite read_axis_dataframe_unfold.
  rewrite bool_decide_eq_false_2 by congruence.
  rewrite query_columns_of_cached.
  destruct (read_all _ _ _ _) as [tbl|e]; reflexivity.
Qed.

Lemma axis_read_with_cache_witness :
  _read_axis_dataframe Obs (memory_dataframe example_obs) (Some ["cell_type"])
    (run_call Call_obs_joinids (example_state None None))
  = (read_all (memory_dataframe example_obs)
       (coords (get_axis Obs (_query (this (run_call Call_obs_joinids
                                              (example_state None None))))))
       (value_filter (get_axis Obs (_query (this (run_call Call_obs_joinids
                                                    (example_state None None))))))
       (Some ["cell_type"])
     ≫= narrow (Some ["cell_type"]),
     logged (EvAxisRead Obs (Some ["cell_type"]))
       (run_call Call_obs_joinids (example_state None None))).
Proof.
  apply (axis_read_with_cache Obs (memory_dataframe example_obs) (Some ["cell_type"])
           (run_call Call_obs_joinids (example_state None None))
           [VInt 10; VInt 20; VInt 30]).
  reflexivity.
Defined.

(** ** A closed query *)

Lemma close_closes_pool s n :
  shutdown_calls (_default_threadpool (this s)) (world s) = Some n ->
  pool_is_open (snd (close s)) = false.
Proof.
  intros Hn. pose proof (close_shutdown_calls s n Hn) as H.
  unfold pool_is_open. rewrite close_spec in *. simpl in *.
  unfold shutdown_calls in H. simpl in H. now rewrite H.
Qed.

Lemma read_axis_dataframe_any_world a axis_df column_names s w :
  fst (_read_axis_dataframe a axis_df column_names {| this := this s; world := w |})
  = fst (_read_axis_dataframe a axis_df column_names s).
Proof.
  rewrite !read_axis_dataframe_unfold. simpl.
  destruct (read_all _ _ _ _) as [tbl|e]; [|reflexivity].
  destruct (bool_decide _); [|reflexivity].
  destruct (column soma_joinid tbl); reflexivity.
Qed.

(** Once [close] was called, the executor takes no work: a [read]
    whose names are accepted, and an [X] that has join ids to resolve,
    raise [RuntimeError] before they read anything. The methods [obs]
    and [var] do not use the executor and return what they would
    have. *)
Theorem closed_query_refuses_pool_work s n :
  shutdown_calls (_default_threadpool (this s)) (world s) = Some n ->
  let closed := snd (close s) in
  pool_is_open closed = false
  /\ (forall X_name use_position_indexing cn X_layers m,
        ms (experiment (this s)) !! ms_name (this s) = Some m ->
        check_X_names (X m) (X_name :: default [] X_layers) = Ok tt ->
        (forall l, cn = Some l -> is_Some (heap (world s) !! l)) ->
        exists s',
          read X_name use_position_indexing cn X_layers closed = (Err RuntimeError, s')
          /\ io_log (world s') = io_log (world s)
          /\ this s' = this s)
  /\ (forall layer prefetch m arr,
        ms (experiment (this s)) !! ms_name (this s) = Some m ->
        truthy layer = true ->
        lookup_layer (X m) layer = Some arr ->
        soma_type arr = SOMASparseNDArray ->
        joinids_truthy (get_axis Obs (_joinids (this s))) = false
        \/ joinids_truthy (get_axis Var (_joinids (this s))) = false ->
        X_body layer prefetch closed = (Err RuntimeError, closed))
  /\ (forall column_names,
        fst (obs_table column_names closed) = fst (obs_table column_names s)
        /\ fst (var_table column_names closed) = fst (var_table column_names s)).
Proof.
  intros Hn closed.
  assert (Hclosed : pool_is_open closed = false) by (eapply close_closes_pool; eauto).
  assert (Hthis : this closed = this s) by reflexivity.
  split; [exact Hclosed|]. split; [|split].
  - intros X_name upi cn X_layers m Hm Hcheck Hcn.
    rewrite (read_enters X_name upi cn X_layers closed m Hm Hcheck Hcn).
    unfold read_after_defaults. unfold bind at 1. unfold get_this at 1.
    rewrite (bind_ok _ _ _ _ _
               (getitem_entered "obs" cn closed (entered cn closed) Hcn
                  (or_introl eq_refl) eq_refl)).
    rewrite (bind_err _ _ _ RuntimeError (entered cn closed)).
    + eexists. split; [reflexivity|].
      split; [now rewrite entered_log|now rewrite entered_this].
    + apply submit_closed. now rewrite entered_pool_is_open.
  - intros layer prefetch m arr Hm Ht Hl Hsparse Hfalsy.
    unfold X_body. rewrite Ht. simpl.
    rewrite (bind_ok _ _ _ _ _ (self_measurement_spec closed m Hm)).
    rewrite Hl. rewrite (bool_decide_eq_true_2 _ Hsparse). simpl.
    unfold bind at 1. unfold get_this at 1. rewrite Hthis.
    simpl get_axis in *.
    destruct (joinids_truthy (at_obs (_joinids (this s)))) eqn:Ho; simpl.
    + destruct Hfalsy as [Hf|Hf]; [discriminate|]. rewrite Hf. simpl.
      unfold bind at 1. unfold ret at 1.
      apply bind_err. apply bind_err. now apply submit_closed.
    + apply bind_err. apply bind_err. now apply submit_closed.
  - intros column_names. split.
    + unfold obs_table. unfold bind, get_this. rewrite Hthis.
      apply (read_axis_dataframe_any_world Obs _ column_names s (world closed)).
    + unfold var_table.
      destruct (ms (experiment (this s)) !! ms_name (this s)) as [m|] eqn:Hm.
      * rewrite (bind_ok _ _ _ _ _ (self_measurement_spec closed m Hm)).
        rewrite (bind_ok _ _ _ _ _ (self_measurement_spec s m Hm)).
        apply (read_axis_dataframe_any_world Var _ column_names s (world closed)).
      * unfold self_measurement, bind, get_this. rewrite Hthis, Hm. reflexivity.
Qed.

Lemma closed_query_refuses_pool_work_witness :
  pool_is_open (snd (close (example_state None None))) = false
  /\ (exists s',
        read (VStr "raw") true None None (snd (close (example_state None None)))
        = (Err RuntimeError, s')
        /\ io_log (world s') = io_log (world (example_state None None))
        /\ this s' = this (example_state None None))
  /\ X_body (VStr "raw") false (snd (close (example_state None None)))
     = (Err RuntimeError, snd (close (example_state None None)))
  /\ fst (obs_table (Some ["cell_type"]) (snd (close (example_state None None))))
     = fst (obs_table (Some ["cell_type"]) (example_state None None))
  /\ fst (var_table (Some ["cell_type"]) (snd (close (example_state None None))))
     = fst (var_table (Some ["cell_type"]) (example_state None None)).
Proof.
  destruct (closed_query_refuses_pool_work (example_state None None) O eq_refl)
    as [Hclosed [Hread [HX Haxis]]].
  split; [exact Hclosed|]. split; [|split].
  - apply (Hread (VStr "raw") true None None example_measurement).
    + reflexivity.
    + reflexivity.
    + intros l H. discriminate.
  - apply (HX (VStr "raw") false example_measurement
             (memory_matrix SOMASparseNDArray [[(10, 1, 5)]; [(20, 2, 7); (99, 1, 1)]])).
    + reflexivity.
    + reflexivity.
    + reflexivity.
    + reflexivity.
    + left. reflexivity.
  - apply Haxis.
Defined.

(** ** The matrix read *)

Lemma fetchX_resolved arr prefetch s o v gen :
  get_axis Obs (_joinids (this s)) = Some o ->
  get_axis Var (_joinids (this s)) = Some v ->
  o ≠ [] -> v ≠ [] ->
  read_table arr o v = Ok gen ->
  prefetch = false \/ pool_is_open s = true ->
  _fetchX arr prefetch s = (Ok gen, logged (EvMatrixRead o v) s).
Proof.
  intros Ho Hv Hno Hnv Hread Hpool. rewrite fetchX_unfold, Ho, Hv.
  destruct o; [congruence|]. destruct v; [congruence|]. simpl.
  rewrite Hread.
  destruct Hpool as [-> | ->]; [reflexivity|]. now rewrite orb_true_r.
Qed.

(** With join ids of both axes cached and neither sequence empty,
    [_fetchX] asks storage once, for the two cached sequences, and
    yields the chunks storage delivers, in their order; with the
    executor open it does so whether or not it fetches ahead. *)
Theorem fetchX_yields_storage_chunks arr prefetch s o v gen :
  get_axis Obs (_joinids (this s)) = Some o ->
  get_axis Var (_joinids (this s)) = Some v ->
  o ≠ [] -> v ≠ [] ->
  read_table arr o v = Ok gen ->
  prefetch = false \/ pool_is_open s = true ->
  _fetchX arr prefetch s = (Ok gen, logged (EvMatrixRead o v) s).
Proof. exact (fetchX_resolved arr prefetch s o v gen). Qed.

Lemma fetchX_yields_storage_chunks_witness :
  _fetchX (memory_matrix SOMASparseNDArray [[(10, 1, 5)]; [(20, 2, 7); (99, 1, 1)]]) true
    (run_calls [Call_obs_joinids; Call_var_joinids] (example_state None None))
  = (Ok [chunk_of [(10, 1, 5)]; chunk_of [(20, 2, 7)]],
     logged (EvMatrixRead [VInt 10; VInt 20; VInt 30] [VInt 1; VInt 2])
       (run_calls [Call_obs_joinids; Call_var_joinids] (example_state None None))).
Proof.
  apply (fetchX_yields_storage_chunks
           (memory_matrix SOMASparseNDArray [[(10, 1, 5)]; [(20, 2, 7); (99, 1, 1)]]) true
           (run_calls [Call_obs_joinids; Call_var_joinids] (example_state None None))
           [VInt 10; VInt 20; VInt 30] [VInt 1; VInt 2]).
  - reflexivity.
  - reflexivity.
  - discriminate.
  - discriminate.
  - reflexivity.
  - right. reflexivity.
Defined.

(** Fetching ahead on a closed executor: storage has been asked, and
    then the first fetch is refused. *)
Lemma fetchX_prefetch_closed arr s o v gen :
  get_axis Obs (_joinids (this s)) = Some o ->
  get_axis Var (_joinids (this s)) = Some v ->
  o ≠ [] -> v ≠ [] ->
  read_table arr o v = Ok gen ->
  pool_is_open s = false ->
  _fetchX arr true s = (Err RuntimeError, logged (EvMatrixRead o v) s).
Proof.
  intros Ho Hv Hno Hnv Hread Hpool. rewrite fetchX_unfold, Ho, Hv.
  destruct o; [congruence|]. destruct v; [congruence|]. simpl.
  now rewrite Hread, Hpool.
Qed.

(** *** [X] from an unresolved query *)

Lemma keeps_cache_read_axis_dataframe a b axis_df column_names :
  b ≠ a -> preserves (keeps_cache b) (_read_axis_dataframe a axis_df column_names).
Proof.
  intros Hb s r s' Hrun.
  destruct (axis_read_effect a axis_df column_names s)
    as [_ [_ [_ [_ [Hother _]]]]].
  rewrite Hrun in Hother. simpl in Hother. now apply Hother.
Qed.

Lemma keeps_cache_refl b s : keeps_cache b s s.
Proof. reflexivity. Qed.

Lemma keeps_cache_trans b s1 s2 s3 :
  keeps_cache b s1 s2 -> keeps_cache b s2 s3 -> keeps_cache b s1 s3.
Proof. unfold keeps_cache. congruence. Qed.

Lemma keeps_cache_axis_joinids a b :
  b ≠ a -> preserves (keeps_cache b) (axis_joinids a).
Proof.
  intros Hb.
  pose proof (keeps_cache_refl b) as Hr.
  pose proof (keeps_cache_trans b) as Ht.
  pose proof (keeps_cache_read_axis_dataframe a b) as Hleaf.
  destruct a; simpl.
  - unfold obs_joinids, _read_axis_joinids. solve_preserves.
  - unfold var_joinids, _read_axis_joinids. solve_preserves.
Qed.

Lemma submit_discard_open {A} (task : M A) s :
  pool_is_open s = true ->
  (let* _ := submit task in ret tt) s = (Ok tt, snd (task s)).
Proof.
  intros Hopen. unfold bind. rewrite submit_open by exact Hopen. reflexivity.
Qed.

Lemma axis_joinids_frames a s :
  query_frame s (snd (axis_joinids a s)) /\ outer_frame s (snd (axis_joinids a s)).
Proof.
  split; apply preserves_snd; destruct a; simpl;
    auto using frame_obs_joinids, frame_var_joinids, outer_obs_joinids, outer_var_joinids.
Qed.

(** With the executor open, [X] on an accepted layer is [_fetchX] run
    after the join ids have been looked for. *)
Lemma X_body_open layer prefetch s m arr :
  ms (experiment (this s)) !! ms_name (this s) = Some m ->
  truthy layer = true ->
  lookup_layer (X m) layer = Some arr ->
  soma_type arr = SOMASparseNDArray ->
  pool_is_open s = true ->
  X_body layer prefetch s = _fetchX arr prefetch (resolved_for_X s).
Proof.
  intros Hm Ht Hl Hsparse Hopen.
  unfold X_body. rewrite Ht. change (negb true) with false. cbv iota.
  rewrite (bind_ok _ _ _ _ _ (self_measurement_spec s m Hm)).
  rewrite Hl. rewrite (bool_decide_eq_true_2 _ Hsparse).
  change (negb true) with false. cbv iota.
  unfold bind at 1. unfold get_this at 1. unfold resolved_for_X.
  set (s1 := if joinids_truthy (get_axis Obs (_joinids (this s)))
             then s else snd (obs_joinids s)).
  assert (Hstep1 : (if negb (joinids_truthy (get_axis Obs (_joinids (this s))))
                    then let* _ := submit obs_joinids in ret tt
                    else ret tt) s = (Ok tt, s1)).
  { subst s1. destruct (joinids_truthy (get_axis Obs (_joinids (this s)))); simpl.
    - reflexivity.
    - now apply submit_discard_open. }
  rewrite (bind_ok _ _ _ _ _ Hstep1).
  assert (Hopen1 : pool_is_open s1 = true).
  { subst s1. destruct (joinids_truthy (get_axis Obs (_joinids (this s)))); [exact Hopen|].
    destruct (axis_joinids_frames Obs s) as [F O].
    change (axis_joinids Obs s) with (obs_joinids s) in F, O.
    now rewrite (pool_is_open_frame _ _ F O). }
  assert (Hstep2 : (if negb (joinids_truthy (get_axis Var (_joinids (this s))))
                    then let* _ := submit var_joinids in ret tt
                    else ret tt) s1
                   = (Ok tt, if joinids_truthy (get_axis Var (_joinids (this s)))
                             then s1 else snd (var_joinids s1))).
  { destruct (joinids_truthy (get_axis Var (_joinids (this s)))); simpl.
    - reflexivity.
    - now apply submit_discard_open. }
  now rewrite (bind_ok _ _ _ _ _ Hstep2).
Qed.

Lemma joinids_truthy_nonempty ids : ids ≠ [] -> joinids_truthy (Some ids) = true.
Proof. destruct ids; [congruence|reflexivity]. Qed.



Lemma fetchX_unresolved arr prefetch s :
  get_axis Obs (_joinids (this s)) = None \/ get_axis Var (_joinids (this s)) = None ->
  _fetchX arr prefetch s = (Err AssertionError, s).
Proof.
  intros H. rewrite fetchX_unfold.
  destruct H as [-> | ->]; [reflexivity|].
  now destruct (get_axis Obs (_joinids (this s))).
Qed.



(** ** [read] when an axis read fails *)

(** [read] runs both axis reads whatever the first one does, and only
    then asks for their results, [obs] first: the exception of a failed
    [obs] read is handed on after the [var] read has been made, and
    the exception of a failed [var] read after a successful [obs] one;
    no matrix is read in either case. *)
Theorem read_hands_on_axis_failure X_name use_position_indexing cn X_layers s m :
  ms (experiment (this s)) !! ms_name (this s) = Some m ->
  check_X_names (X m) (X_name :: default [] X_layers) = Ok tt ->
  (forall l, cn = Some l -> is_Some (heap (world s) !! l)) ->
  pool_is_open s = true ->
  let obs_read :=
    _read_axis_dataframe Obs (obs (experiment (this s))) (requested "obs" cn s)
      (entered cn s) in
  let var_read :=
    _read_axis_dataframe Var (var m) (requested "var" cn s) (snd obs_read) in
  forall e,
    fst obs_read = Err e \/ (is_ok (fst obs_read) = true /\ fst var_read = Err e) ->
    read X_name use_position_indexing cn X_layers s = (Err e, snd var_read)
    /\ io_log (world (snd var_read))
       = io_log (world s)
         ++ [EvAxisRead Obs
               (query_columns_of
                  (bool_decide (get_axis Obs (_joinids (this s)) = None))
                  (requested "obs" cn s));
             EvAxisRead Var
               (query_columns_of
                  (bool_decide (get_axis Var (_joinids (this s)) = None))
                  (requested "var" cn s))].
Proof.
  intros Hm Hcheck Hcn Hopen obs_read var_read e Hfail.
  set (s0 := entered cn s) in *.
  set (s1 := snd obs_read) in *.
  assert (Hobs : obs_read = (fst obs_read, s1)) by (subst s1; now destruct obs_read).
  assert (Hvar : var_read = (fst var_read, snd var_read)) by now destruct var_read.
  pose proof (frame_read_axis_dataframe _ _ _ _ _ _ Hobs) as F01.
  pose proof (outer_read_axis_dataframe _ _ _ _ _ _ Hobs) as O01.
  assert (Hopen0 : pool_is_open s0 = true)
    by (subst s0; now rewrite entered_pool_is_open).
  assert (Hopen1 : pool_is_open s1 = true)
    by now rewrite (pool_is_open_frame _ _ F01 O01).
  assert (Hm1 : ms (experiment (this s1)) !! ms_name (this s1) = Some m).
  { destruct F01 as [He Hn _ _ _]. subst s0. now rewrite He, Hn, entered_this. }
  split.
  - rewrite (read_enters X_name use_position_indexing cn X_layers s m Hm Hcheck Hcn).
    unfold read_after_defaults. unfold bind at 1. unfold get_this at 1.
    rewrite (bind_ok _ _ _ _ _
               (getitem_entered "obs" cn s s0 Hcn (or_introl eq_refl) eq_refl)).
    rewrite entered_this.
    assert (Hso : submit (_read_axis_dataframe Obs (obs (experiment (this s)))
                            (requested "obs" cn s)) s0 = (Ok (fst obs_read), s1))
      by (rewrite submit_open by exact Hopen0; reflexivity).
    rewrite (bind_ok _ _ _ _ _ Hso).
    rewrite (bind_ok _ _ _ _ _ (self_measurement_spec s1 m Hm1)).
    rewrite (bind_ok _ _ _ _ _
               (getitem_entered "var" cn s s1 Hcn (or_intror eq_refl) (proj1 O01))).
    assert (Hsv : submit (_read_axis_dataframe Var (var m) (requested "var" cn s)) s1
                  = (Ok (fst var_read), snd var_read))
      by (rewrite submit_open by exact Hopen1; reflexivity).
    rewrite (bind_ok _ _ _ _ _ Hsv).
    destruct Hfail as [Hfo | [Hok Hfv]].
    + apply bind_err. unfold future_result, lift. now rewrite Hfo.
    + destruct (fst obs_read) as [t|e0] eqn:Hr; [|discriminate].
      unfold bind at 1. unfold future_result at 1. unfold lift at 1.
      apply bind_err. unfold future_result, lift. now rewrite Hfv.
  - destruct (axis_read_effect Var (var m) (requested "var" cn s) s1)
      as [Hlog2 _].
    destruct (axis_read_effect Obs (obs (experiment (this s)))
                (requested "obs" cn s) s0) as [Hlog1 [_ [_ [_ [Hother _]]]]].
    fold obs_read in Hlog1, Hother. fold s1 in Hlog1, Hother.
    fold var_read in Hlog2.
    rewrite Hlog2, Hlog1. subst s0. rewrite entered_log, entered_this.
    rewrite (Hother Var ltac:(discriminate)), entered_this.
    now rewrite <- app_assoc.
Qed.

Lemma read_hands_on_axis_failure_witness :
  read (VStr "raw") false None None unreachable_obs_state
  = (Err (StorageError "unavailable"),
     snd (_read_axis_dataframe Var (memory_dataframe example_var) None
            (snd (_read_axis_dataframe Obs failing_dataframe None
                    unreachable_obs_state))))
  /\ io_log (world (snd (_read_axis_dataframe Var (memory_dataframe example_var) None
                           (snd (_read_axis_dataframe Obs failing_dataframe None
                                   unreachable_obs_state)))))
     = io_log (world unreachable_obs_state)
       ++ [EvAxisRead Obs None; EvAxisRead Var None].
Proof.
  apply (read_hands_on_axis_failure (VStr "raw") false None None unreachable_obs_state
           example_measurement eq_refl eq_refl).
  - intros l H. discriminate.
  - reflexivity.
  - left. reflexivity.
Defined.

Example read_after_obs_failure_has_var_ids :
  get_axis Var (_joinids (this (snd (read (VStr "raw") false None None
                                       unreachable_obs_state))))
  = Some [VInt 1; VInt 2].
Proof. reflexivity. Qed.

(** ** The matrix names of a successful [read] *)

Lemma dict_set_keys {V} (k : value) (v : V) (d : dict V) :
  (dict_set k v d).*1 = add_key d.*1 k.
Proof.
  unfold dict_set, add_key. case_bool_decide.
  - induction d as [|[k' v'] d IH]; [reflexivity|]. simpl.
    destruct (decide (k' = k)) as [->|]; simpl; f_equal.
    + clear. induction d as [|[k' v'] d IH]; [reflexivity|]. simpl.
      destruct (decide (k' = k)) as [->|]; simpl; now f_equal.
    + clear. induction d as [|[k'' v''] d IH]; [reflexivity|]. simpl.
      destruct (decide (k'' = k)) as [->|]; simpl; now f_equal.
  - now rewrite fmap_app.
Qed.

Lemma fetch_X_tables_keys X_collection names :
  forall acc s d s',
    fetch_X_tables X_collection names acc s = (Ok d, s') ->
    d.*1 = keys_after acc.*1 names.
Proof.
  induction names as [|n names IH]; intros acc s d s' H; simpl in *.
  - unfold ret in H. now inversion H.
  - invert_bind H. invert_bind H. invert_bind H.
    apply IH in H. now rewrite dict_set_keys in H.
Qed.

Lemma rewrite_items_keys items :
  forall acc s d s',
    rewrite_items items acc s = (Ok d, s') ->
    d.*1 = keys_after acc.*1 items.*1.
Proof.
  induction items as [|[n t] items IH]; intros acc s d s' H; simpl in *.
  - unfold ret in H. now inversion H.
  - invert_bind H. invert_bind H. invert_bind H. invert_bind H.
    invert_bind H. invert_bind H.
    apply IH in H. now rewrite dict_set_keys in H.
Qed.

Lemma add_key_nodup keys k : NoDup keys -> NoDup (add_key keys k).
Proof.
  intros H. unfold add_key. case_bool_decide; [exact H|].
  apply NoDup_app. repeat split; auto.
  - intros x Hx Hk. apply list_elem_of_singleton in Hk. congruence.
  - apply NoDup_singleton.
Qed.

Lemma keys_after_nodup names : forall keys, NoDup keys -> NoDup (keys_after keys names).
Proof.
  induction names as [|n names IH]; intros keys H; simpl; [exact H|].
  apply IH. now apply add_key_nodup.
Qed.

Lemma keys_after_length_le names :
  forall keys, (length (keys_after keys names) <= length keys + length names)%nat.
Proof.
  induction names as [|n names IH]; intros keys; simpl; [lia|].
  specialize (IH (add_key keys n)). unfold add_key in *.
  case_bool_decide; [lia|]. rewrite length_app in IH. simpl in IH. lia.
Qed.

Lemma keys_after_full names :
  forall keys,
    NoDup keys ->
    length (keys_after keys names) = (length keys + length names)%nat ->
    NoDup (keys ++ names) /\ keys_after keys names = keys ++ names.
Proof.
  induction names as [|n names IH]; intros keys Hnd Hlen; simpl in *.
  - rewrite app_nil_r. auto.
  - pose proof (keys_after_length_le names (add_key keys n)) as Hle.
    unfold add_key in *. case_bool_decide as Hin; [lia|].
    destruct (IH (keys ++ [n])) as [Hnd' Heq].
    + apply NoDup_app. repeat split; auto.
      * intros x Hx Hk. apply list_elem_of_singleton in Hk. congruence.
      * apply NoDup_singleton.
    + rewrite length_app. simpl. lia.
    + rewrite <- app_assoc in Hnd', Heq. simpl in Hnd', Heq. auto.
Qed.

Lemma keys_after_distinct names :
  forall keys, NoDup (keys ++ names) -> keys_after keys names = keys ++ names.
Proof.
  induction names as [|n names IH]; intros keys Hnd; simpl.
  - now rewrite app_nil_r.
  - unfold add_key. apply NoDup_app in Hnd as Hparts. destruct Hparts as [_ [Hdisj _]].
    rewrite bool_decide_eq_false_2.
    + rewrite IH; rewrite <- app_assoc; [reflexivity|exact Hnd].
    + intros Hin. apply (Hdisj n Hin). left.
Qed.

Lemma keys_after_head names k : k ∈ keys_after [] (k :: names).
Proof.
  simpl. unfold add_key. simpl.
  assert (H : forall keys, k ∈ keys -> k ∈ keys_after keys names).
  { induction names as [|n names IH]; intros keys Hk; simpl; [exact Hk|].
    apply IH. unfold add_key. case_bool_decide; [exact Hk|].
    apply elem_of_app. now left. }
  apply H. left.
Qed.

Lemma dict_get_in {V} (k : value) (d : dict V) :
  k ∈ d.*1 -> is_Some (dict_get k d).
Proof.
  intros Hk. unfold dict_get.
  apply list_elem_of_fmap in Hk as [[k' v] [-> Hin]]. simpl.
  destruct (list_find (fun p : value * V => p.1 = k') d) as [[i p]|] eqn:Hf.
  { exists p.2. reflexivity. }
  apply list_find_None in Hf. rewrite Forall_forall in Hf.
  exfalso. now apply (Hf _ Hin).
Qed.

Lemma filter_keys {V} (k : value) (d : dict V) :
  (filter (fun p : value * V => p.1 ≠ k) d).*1 = filter (fun x => x ≠ k) d.*1.
Proof.
  induction d as [|[k' v] d IH]; [reflexivity|].
  rewrite fmap_cons, !filter_cons. simpl.
  destruct (decide (k' ≠ k)); [|exact IH].
  rewrite fmap_cons. simpl. f_equal. exact IH.
Qed.

Lemma filter_out_absent (k : value) (l : list value) :
  k ∉ l -> filter (fun x => x ≠ k) l = l.
Proof.
  induction l as [|x l IH]; intros Hk; [reflexivity|].
  apply not_elem_of_cons in Hk as [Hx Hl].
  rewrite filter_cons_True by congruence. now rewrite IH.
Qed.

Lemma filter_out_once (k : value) (l : list value) :
  NoDup l -> k ∈ l -> S (length (filter (fun x => x ≠ k) l)) = length l.
Proof.
  induction 1 as [|x l Hx Hnd IH]; intros Hk; [inversion Hk|].
  destruct (decide (x = k)) as [->|Hne].
  - rewrite filter_cons_False by (intros H; now apply H).
    now rewrite filter_out_absent.
  - rewrite filter_cons_True by congruence. simpl.
    apply elem_of_cons in Hk as [Hk|Hk]; [congruence|]. now rewrite IH.
Qed.

(** A [read] that succeeds was asked for matrices of distinct names:
    naming a matrix twice, be it the primary one again among the
    layers, makes the [read] fail. On success the extra matrices come
    back keyed by the layer names, in their order, and are absent
    exactly when no layer was asked for. *)
Theorem read_success_has_distinct_names X_name use_position_indexing cn X_layers
    s res s' :
  read X_name use_position_indexing cn X_layers s = (Ok res, s') ->
  NoDup (X_name :: default [] X_layers)
  /\ match res_X_layers res with
     | Some layers => layers.*1 = default [] X_layers /\ default [] X_layers ≠ []
     | None => default [] X_layers = []
     end.
Proof.
  unfold read. intros H.
  invert_bind H. invert_bind H. invert_bind H. invert_bind H.
  invert_bind H. invert_bind H. invert_bind H. invert_bind H.
  invert_bind H. invert_bind H. invert_bind H. invert_bind H.
  set (names := X_name :: default [] X_layers) in *.
  invert_bind H. invert_bind H. invert_bind H.
  match goal with
  | Hf : fetch_X_tables _ _ _ _ = (Ok ?d, _) |- _ =>
      apply fetch_X_tables_keys in Hf; rename Hf into Hkeys1; rename d into d1
  end.
  rewrite fmap_nil in Hkeys1.
  match goal with
  | Hr : (if use_position_indexing then _ else _) _ = (Ok ?d, _) |- _ =>
      rename Hr into Hrw; rename d into d2
  end.
  assert (Hkeys2 : d2.*1 = keys_after [] names).
  { destruct use_position_indexing.
    - unfold _rewrite_X_for_positional_indexing in Hrw.
      apply rewrite_items_keys in Hrw. rewrite fmap_nil in Hrw. rewrite Hrw, Hkeys1.
      apply keys_after_distinct. rewrite app_nil_l.
      apply keys_after_nodup. constructor.
    - unfold ret in Hrw. inversion Hrw; subst. exact Hkeys1. }
  assert (Hnd2 : NoDup d2.*1) by (rewrite Hkeys2; apply keys_after_nodup; constructor).
  match goal with
  | Hp : lift (dict_pop X_name d2) _ = (Ok ?p, _) |- _ =>
      rename Hp into Hpop; destruct p as [tX rest]
  end.
  unfold lift, dict_pop in Hpop.
  destruct (dict_get X_name d2) as [t|] eqn:Hget; [|discriminate].
  inversion Hpop; subst; clear Hpop.
  assert (HX : X_name ∈ d2.*1) by (rewrite Hkeys2; apply keys_after_head).
  pose proof (filter_out_once X_name d2.*1 Hnd2 HX) as Hlen.
  rewrite <- filter_keys in Hlen. rewrite !length_fmap in Hlen.
  destruct (default [] X_layers) as [|x layers] eqn:Hlayers.
  - simpl in H. unfold ret in H. inversion H; subst. simpl.
    split; [|reflexivity]. subst names. repeat constructor. intros Hin. inversion Hin.
  - change (0 <? length (x :: layers))%nat with true in H. cbv iota in H.
    invert_bind H. unfold ret in H. inversion H; subst; clear H. simpl.
    match goal with
    | Ha : assert _ _ = _ |- _ =>
        unfold assert in Ha;
        destruct (length (x :: layers) =? length _)%nat eqn:Heq in Ha;
        [|discriminate]
    end.
    apply Nat.eqb_eq in Heq.
    assert (Hfull : length (keys_after [] names) = (length ([] : list value) + length names)%nat).
    { rewrite <- Hkeys2, length_fmap, <- Hlen, <- Heq. subst names. reflexivity. }
    destruct (keys_after_full names [] ltac:(constructor) Hfull) as [Hnd Hall].
    rewrite app_nil_l in Hnd, Hall. split; [exact Hnd|]. split; [|discriminate].
    rewrite filter_keys, Hkeys2, Hall. subst names.
    rewrite filter_cons_False by (intros Hne; now apply Hne).
    apply filter_out_absent. now inversion Hnd.
Qed.

Lemma read_success_has_distinct_names_witness :
  NoDup (VStr "raw" :: default [] (Some [VStr "scaled"; VStr "norm"]))
  /\ match res_X_layers
             {| res_obs := example_obs; res_var := example_var;
                res_X := [("_dim_0", [VInt 0; VInt 1]); ("_dim_1", [VInt 0; VInt 1]);
                          ("soma_data", [VInt 5; VInt 7])];
                res_X_layers :=
                  Some [(VStr "scaled",
                         [("_dim_0", [VInt 2; VInt 0]); ("_dim_1", [VInt 1; VInt 0]);
                          ("soma_data", [VInt 3; VInt 1])]);
                        (VStr "norm",
                         [("_dim_0", [VInt 0; VInt 1]); ("_dim_1", [VInt 0; VInt 1]);
                          ("soma_data", [VInt 50; VInt 70])])] |} with
     | Some layers =>
         layers.*1 = default [] (Some [VStr "scaled"; VStr "norm"])
         /\ default [] (Some [VStr "scaled"; VStr "norm"]) ≠ []
     | None => default [] (Some [VStr "scaled"; VStr "norm"]) = []
     end.
Proof.
  apply (read_success_has_distinct_names (VStr "raw") true None
           (Some [VStr "scaled"; VStr "norm"]) layered_state
           {| res_obs := example_obs; res_var := example_var;
              res_X := [("_dim_0", [VInt 0; VInt 1]); ("_dim_1", [VInt 0; VInt 1]);
                        ("soma_data", [VInt 5; VInt 7])];
              res_X_layers :=
                Some [(VStr "scaled",
                       [("_dim_0", [VInt 2; VInt 0]); ("_dim_1", [VInt 1; VInt 0]);
                        ("soma_data", [VInt 3; VInt 1])]);
                      (VStr "norm",
                       [("_dim_0", [VInt 0; VInt 1]); ("_dim_1", [VInt 0; VInt 1]);
                        ("soma_data", [VInt 50; VInt 70])])] |}
           (snd (read (VStr "raw") true None (Some [VStr "scaled"; VStr "norm"])
                   layered_state))).
  reflexivity.
Defined.

Example read_repeated_name_fails :
  fst (read (VStr "raw") false None (Some [VStr "raw"]) (example_state None None))
  = Err AssertionError.
Proof. reflexivity. Qed.

Example read_repeated_layer_fails :
  fst (read (VStr "raw") true None (Some [VStr "scaled"; VStr "norm"; VStr "scaled"])
         layered_state)
  = Err AssertionError.
Proof. reflexivity. Qed.

(** ** Positions and join ids *)

(** A position the index gives for a join id of the cache leads back
    to this join id. *)
Lemma position_of_inverse index c :
  NoDup index -> c ∈ index ->
  (0 <= position_of index c)%Z
  /\ index !! Z.to_nat (position_of index c) = Some c.
Proof.
  intros Hnd Hc. apply list_elem_of_lookup in Hc as [i Hi].
  rewrite (position_of_lookup _ _ _ Hnd Hi). split; [lia|].
  now rewrite Nat2Z.id.
Qed.

(** [_rewrite_X_for_positional_indexing], on matrix tables of distinct
    names and with the join ids of both axes cached without
    repetitions, returns under each name the table of the same length
    whose columns [_dim_0] and [_dim_1] hold, row by row, the positions
    of the table's join ids in the cached sequences, the data column
    being kept; and the position of a join id of the cache leads back
    to it. *)
Theorem positional_rewrite_spec m o v X_tables s :
  indexable m o v s ->
  NoDup X_tables.*1 ->
  Forall (fun p => exists dim0 dim1 data, matrix_table p.2 dim0 dim1 data) X_tables ->
  (exists out s',
      _rewrite_X_for_positional_indexing X_tables s = (Ok out, s')
      /\ Forall2 (fun p q =>
                    q.1 = p.1
                    /\ exists dim0 dim1 data,
                        matrix_table p.2 dim0 dim1 data
                        /\ q.2 = positional_table o v dim0 dim1 data
                        /\ num_rows q.2 = length data)
           X_tables out)
  /\ (forall c, c ∈ o -> o !! Z.to_nat (position_of o c) = Some c)
  /\ (forall c, c ∈ v -> v !! Z.to_nat (position_of v c) = Some c).
Proof.
  intros Hs Hnd Htables. split; [|split].
  - destruct (rewrite_items_positions m o v X_tables [] s Hs Hnd
                ltac:(intros n _ Hin; rewrite fmap_nil in Hin; inversion Hin) Htables)
      as [out [s' [Hrun Hout]]].
    exists out, s'. split; [exact Hrun|].
    eapply Forall2_impl; [exact Hout|].
    intros p q [Hname [dim0 [dim1 [data [Ht Hq]]]]]. split; [exact Hname|].
    exists dim0, dim1, data. split; [exact Ht|]. split; [exact Hq|].
    rewrite Hq. simpl. rewrite !length_map. now destruct Ht as [_ [_ [_ [H0 _]]]].
  - intros c Hc. now apply position_of_inverse; [destruct Hs|].
  - intros c Hc. now apply position_of_inverse; [destruct Hs|].
Qed.

Lemma positional_rewrite_spec_witness :
  (exists out s',
      _rewrite_X_for_positional_indexing
        [(VStr "raw", chunk_of [(20, 2, 7); (10, 1, 5); (20, 1, 9)])]
        (run_calls [Call_obs_joinids; Call_var_joinids] (example_state None None))
      = (Ok out, s')
      /\ Forall2 (fun p q =>
                    q.1 = p.1
                    /\ exists dim0 dim1 data,
                        matrix_table p.2 dim0 dim1 data
                        /\ q.2 = positional_table [VInt 10; VInt 20; VInt 30]
                                   [VInt 1; VInt 2] dim0 dim1 data
                        /\ num_rows q.2 = length data)
           [(VStr "raw", chunk_of [(20, 2, 7); (10, 1, 5); (20, 1, 9)])] out)
  /\ (forall c, c ∈ [VInt 10; VInt 20; VInt 30] ->
        [VInt 10; VInt 20; VInt 30]
          !! Z.to_nat (position_of [VInt 10; VInt 20; VInt 30] c) = Some c)
  /\ (forall c, c ∈ [VInt 1; VInt 2] ->
        [VInt 1; VInt 2] !! Z.to_nat (position_of [VInt 1; VInt 2] c) = Some c).
Proof.
  apply (positional_rewrite_spec example_measurement
           [VInt 10; VInt 20; VInt 30] [VInt 1; VInt 2]
           [(VStr "raw", chunk_of [(20, 2, 7); (10, 1, 5); (20, 1, 9)])]
           (run_calls [Call_obs_joinids; Call_var_joinids] (example_state None None))).
  - constructor; try reflexivity.
    + refine (bool_decide_unpack _ _). reflexivity.
    + refine (bool_decide_unpack _ _). reflexivity.
    + left. reflexivity.
    + left. reflexivity.
  - refine (bool_decide_unpack _ _). reflexivity.
  - constructor; [|constructor].
    exists [VInt 20; VInt 10; VInt 20], [VInt 2; VInt 1; VInt 1],
           [VInt 7; VInt 5; VInt 9].
    repeat split; reflexivity.
Defined.

Example positional_rewrite_example :
  fst (_rewrite_X_for_positional_indexing
         [(VStr "raw", chunk_of [(20, 2, 7); (10, 1, 5); (20, 1, 9)])]
         (run_calls [Call_obs_joinids; Call_var_joinids] (example_state None None)))
  = Ok [(VStr "raw", [("_dim_0", [VInt 1; VInt 0; VInt 1]);
                      ("_dim_1", [VInt 1; VInt 0; VInt 0]);
                      ("soma_data", [VInt 7; VInt 5; VInt 9])])].
Proof. reflexivity. Qed.

(** ** The wrapped generator, call after call *)

(** The function [wrap_generator] returns hands out the values of the
    generator one per call, in order and each with [done] unset, and
    from the call after the last value on it answers [(None, True)],
    however often it is called. *)
Theorem wrap_generator_calls_spec {T} (k : nat) :
  forall gen : list T,
    wrap_generator_calls k gen
    = (match gen !! k with
       | Some value => (Some value, false)
       | None => (None, true)
       end,
       drop (S k) gen).
Proof.
  induction k as [|k IH]; intros gen.
  - destruct gen; reflexivity.
  - simpl. rewrite IH. destruct gen as [|x gen]; reflexivity.
Qed.

(** ** The asynchronous facade and the join ids *)

(** The facade's [obs_joinids] and [var_joinids] return what the
    query's own methods return and leave the same state: the cached
    sequence without a read, or the outcome of the resolving read. *)
Theorem async_joinids_agree s :
  AsyncExperimentQuery_obs_joinids s = obs_joinids s
  /\ (is_Some (ms (experiment (this s)) !! ms_name (this s)) ->
      AsyncExperimentQuery_var_joinids s = var_joinids s).
Proof.
  split.
  - unfold AsyncExperimentQuery_obs_joinids. unfold bind at 1. unfold get_this at 1.
    case_bool_decide as Hc; [|reflexivity].
    destruct (get_axis Obs (_joinids (this s))) as [ids|] eqn:Hids; [|congruence].
    unfold ret, obs_joinids. unfold bind at 1. unfold get_this at 1.
    now rewrite (read_axis_joinids_cached Obs _ s ids Hids).
  - intros [m Hm].
    unfold AsyncExperimentQuery_var_joinids. unfold bind at 1. unfold get_this at 1.
    case_bool_decide as Hc; [|reflexivity].
    destruct (get_axis Var (_joinids (this s))) as [ids|] eqn:Hids; [|congruence].
    pose proof (axis_joinids_cached Var s m ids Hm Hids) as Hcached.
    change (axis_joinids Var s) with (var_joinids s) in Hcached.
    unfold ret. now rewrite Hcached.
Qed.

(** ** What the calls leave alone *)

Lemma default_key_Local key d s :
  default_key key (Local d) s = (Ok (Local (default_at key d)), s).
Proof.
  unfold default_key, default_at, bind, deref, ret. simpl.
  case_bool_decide; reflexivity.
Qed.

(** A relation that holds across every change of the query object and
    every logged storage request holds across every call, given that
    it holds across what the call does besides: writing to a dict of
    the caller, shutting the executor down. *)
Section Effects.
Context (R : State -> State -> Prop).
Context (R_refl : forall s, R s s).
Context (R_trans : forall s1 s2 s3, R s1 s2 -> R s2 s3 -> R s1 s3).
Context (R_this : forall f, preserves R (modify_this f)).
Context (R_log : forall ev, preserves R (log_io ev)).

#[local] Hint Resolve R_this R_log : preserves.

Lemma preserves_bind_pure {A B} (c : M A) (k : A -> M B) a :
  (forall s, c s = (Ok a, s)) -> preserves R (k a) -> preserves R (bind c k).
Proof. intros Hc Hk s r s'. unfold bind. rewrite Hc. apply Hk. Qed.

Lemma effects_read_axis_dataframe a axis_df column_names :
  preserves R (_read_axis_dataframe a axis_df column_names).
Proof. unfold _read_axis_dataframe. solve_preserves. Qed.

#[local] Hint Resolve effects_read_axis_dataframe : preserves.

Lemma effects_read_axis_joinids a axis_df : preserves R (_read_axis_joinids a axis_df).
Proof. unfold _read_axis_joinids. solve_preserves. Qed.

#[local] Hint Resolve effects_read_axis_joinids : preserves.

Lemma effects_obs_table column_names : preserves R (obs_table column_names).
Proof. unfold obs_table. solve_preserves. Qed.

Lemma effects_var_table column_names : preserves R (var_table column_names).
Proof. unfold var_table. solve_preserves. Qed.

Lemma effects_obs_joinids : preserves R obs_joinids.
Proof. unfold obs_joinids. solve_preserves. Qed.

Lemma effects_var_joinids : preserves R var_joinids.
Proof. unfold var_joinids. solve_preserves. Qed.

#[local] Hint Resolve effects_obs_joinids effects_var_joinids : preserves.

Lemma effects_n_obs : preserves R n_obs.
Proof. unfold n_obs. solve_preserves. Qed.

Lemma effects_n_vars : preserves R n_vars.
Proof. unfold n_vars. solve_preserves. Qed.

Lemma effects_obs_index target : preserves R (obs_index target).
Proof. unfold obs_index. solve_preserves. Qed.

Lemma effects_var_index target : preserves R (var_index target).
Proof. unfold var_index. solve_preserves. Qed.

Lemma effects_prefetch_loop fuel :
  forall gen fut, preserves R (prefetch_loop fuel gen fut).
Proof. induction fuel as [|fuel IH]; intros gen fut; simpl; solve_preserves. Qed.

#[local] Hint Resolve effects_obs_index effects_var_index effects_prefetch_loop : preserves.

Lemma effects_fetchX arr prefetch : preserves R (_fetchX arr prefetch).
Proof. unfold _fetchX. solve_preserves. Qed.

#[local] Hint Resolve effects_fetchX : preserves.

Lemma effects_X_body layer prefetch : preserves R (X_body layer prefetch).
Proof. unfold X_body. solve_preserves. Qed.

Lemma effects_rewrite_items items :
  forall acc, preserves R (rewrite_items items acc).
Proof.
  induction items as [|[X_name X_table] items IH]; intros acc; simpl; solve_preserves.
Qed.

Lemma effects_fetch_X_tables X_collection names :
  forall acc, preserves R (fetch_X_tables X_collection names acc).
Proof. induction names as [|n names IH]; intros acc; simpl; solve_preserves. Qed.

#[local] Hint Resolve effects_rewrite_items effects_fetch_X_tables : preserves.

Lemma effects_setitem key v r :
  (forall f, preserves R (modify_world (fun w => with_heap (f w) w))) ->
  preserves R (setitem key v r).
Proof.
  intros R_heap. destruct r as [d|l]; cbn [setitem].
  - now apply preserves_ret.
  - apply preserves_bind; [assumption|now apply preserves_deref|intros d].
    apply preserves_bind; [assumption| |intros; now apply preserves_ret].
    apply (R_heap (fun w => <[l := <[key := v]> d]> (heap w))).
Qed.

Lemma effects_read X_name use_position_indexing cn X_layers :
  (cn ≠ None -> forall f, preserves R (modify_world (fun w => with_heap (f w) w))) ->
  preserves R (read X_name use_position_indexing cn X_layers).
Proof.
  intros R_heap. unfold read.
  apply preserves_bind; [assumption|now apply preserves_self_measurement|intros m].
  apply preserves_bind; [assumption|now apply preserves_lift|intros _].
  destruct cn as [l|].
  - specialize (R_heap ltac:(discriminate)).
    pose proof (fun key v r => effects_setitem key v r R_heap) as Hset.
    unfold default_key, _rewrite_X_for_positional_indexing. solve_preserves.
  - apply (preserves_bind_pure _ _ _ (default_key_Local "obs" _)).
    apply (preserves_bind_pure _ _ _ (default_key_Local "var" _)).
    unfold _rewrite_X_for_positional_indexing. solve_preserves.
Qed.

Lemma effects_run_call c s :
  (uses_caller_dict c = true ->
   forall f, preserves R (modify_world (fun w => with_heap (f w) w))) ->
  (is_close c = true -> forall pool, preserves R (shutdown pool)) ->
  R s (run_call c s).
Proof.
  intros R_heap R_pool.
  destruct c; cbn [run_call]; apply preserves_snd;
    auto using effects_read_axis_dataframe, effects_read_axis_joinids, effects_obs_table,
      effects_var_table, effects_obs_joinids, effects_var_joinids, effects_n_obs,
      effects_n_vars, effects_X_body, effects_obs_index, effects_var_index.
  - intros s0 r s'. rewrite async_X_body_spec. apply effects_X_body.
  - apply effects_read. intros Hcn. apply R_heap.
    match goal with
    | Hc : ?cn ≠ None |- _ => destruct cn; [reflexivity|congruence]
    end.
  - unfold close.
    apply preserves_bind; [assumption|now apply preserves_get_this|intros q].
    now apply R_pool.
Qed.

Lemma effects_run_calls calls :
  forall s,
    (existsb uses_caller_dict calls = true ->
     forall f, preserves R (modify_world (fun w => with_heap (f w) w))) ->
    (existsb is_close calls = true -> forall pool, preserves R (shutdown pool)) ->
    R s (run_calls calls s).
Proof.
  induction calls as [|c calls IH]; intros s R_heap R_pool; simpl.
  - apply R_refl.
  - simpl in R_heap, R_pool.
    eapply R_trans; [apply effects_run_call|apply IH]; intros H.
    + apply R_heap. now rewrite H.
    + apply R_pool. now rewrite H.
    + apply R_heap. rewrite H. apply orb_true_r.
    + apply R_pool. rewrite H. apply orb_true_r.
Qed.
End Effects.

(** In every run of calls on a query, exceptions included: the
    executors of the queries are as they were unless [close] was among
    the calls, and the dicts of the caller are as they were unless a
    [read] was handed one of them as [column_names]. The first part is
    about the calls of the query itself: a call of the asynchronous
    facade runs on the event loop's executor, which [pools] does not
    hold. *)
Theorem run_calls_effects calls s :
  (existsb is_close calls = false -> existsb is_async calls = false ->
   same_pools s (run_calls calls s))
  /\ (existsb uses_caller_dict calls = false -> same_heap s (run_calls calls s)).
Proof.
  split.
  - intros Hnone _. apply (effects_run_calls same_pools).
    + intros s0. reflexivity.
    + unfold same_pools. congruence.
    + intros f s0 r s' [= _ <-]. reflexivity.
    + intros ev s0 r s' [= _ <-]. reflexivity.
    + intros _ f s0 r s' [= _ <-]. reflexivity.
    + congruence.
  - intros Hnone. apply (effects_run_calls same_heap).
    + intros s0. reflexivity.
    + unfold same_heap. congruence.
    + intros f s0 r s' [= _ <-]. reflexivity.
    + intros ev s0 r s' [= _ <-]. reflexivity.
    + congruence.
    + intros _ pool s0 r s' [= _ <-]. reflexivity.
Qed.

Lemma run_calls_effects_witness :
  same_pools (example_state_with_dict ∅)
    (run_calls [Call_read (VStr "raw") true (Some O) None; Call_n_obs;
                Call_X (VStr "") false]
       (example_state_with_dict ∅))
  /\ same_heap (example_state_with_dict ∅)
       (run_calls [Call_read (VStr "raw") true None None; Call_obs_index [VInt 20];
                   Call_close]
          (example_state_with_dict ∅)).
Proof.
  split.
  - apply (proj1 (run_calls_effects
                    [Call_read (VStr "raw") true (Some O) None; Call_n_obs;
                     Call_X (VStr "") false]
                    (example_state_with_dict ∅))).
    + reflexivity.
    + reflexivity.
  - apply (proj2 (run_calls_effects
                    [Call_read (VStr "raw") true None None; Call_obs_index [VInt 20];
                     Call_close]
                    (example_state_with_dict ∅))).
    reflexivity.
Defined.

(** Neither side of the theorem can do without its condition. *)
Example run_calls_effects_conditions :
  pools (world (run_call Call_close (example_state None None)))
  ≠ pools (world (example_state None None))
  /\ heap (world (run_call (Call_read (VStr "raw") false (Some O) None)
                    (example_state_with_dict ∅)))
     ≠ heap (world (example_state_with_dict ∅)).
Proof.
  split.
  - vm_compute. discriminate.
  - intros H.
    assert (Hl : heap (world (run_call (Call_read (VStr "raw") false (Some O) None)
                                (example_state_with_dict ∅))) !! O
                 = heap (world (example_state_with_dict ∅)) !! O) by now rewrite H.
    vm_compute in Hl. discriminate.
Qed.

(** ** The index and the cache, in every reachable state *)

Lemma indexer_consistent_reachable_witness :
  indexer_consistent
    (run_calls [Call_obs_index [VInt 20]; Call_var_joinids;
                Call_read (VStr "raw") true None None; Call_close]
       (example_state None None)).
Proof.
  apply (indexer_consistent_reachable example_experiment "RNA" None None empty_world
           (this (example_state None None)) (with_pools [O] empty_world)).
  reflexivity.
Defined.

(** ** The counts *)

(** Once [n_obs] or [n_vars] has returned a number, it returns this
    number after any further calls on the query, and reads nothing from
    storage to do so. *)
Theorem counts_are_stable s n s1 calls :
  (n_obs s = (Ok n, s1) ->
   n_obs (run_calls calls s1) = (Ok n, run_calls calls s1))
  /\ (n_vars s = (Ok n, s1) ->
      n_vars (run_calls calls s1) = (Ok n, run_calls calls s1)).
Proof.
  pose proof (frame_run_calls calls s1) as [He Hn _ _ Hids].
  split; intros H.
  - unfold n_obs in H. apply bind_inv_ok in H as [ids [s0 [Hj H]]].
    destruct ids as [ids|]; [|discriminate]. unfold py_len, ret in H.
    inversion H; subst.
    pose proof (axis_joinids_result Obs _ _ _ Hj) as Hc. symmetry in Hc.
    apply Hids in Hc.
    unfold n_obs, obs_joinids. unfold bind at 1. unfold bind at 1. unfold get_this at 1.
    now rewrite (read_axis_joinids_cached Obs _ _ ids Hc).
  - unfold n_vars in H. apply bind_inv_ok in H as [ids [s0 [Hj H]]].
    destruct ids as [ids|]; [|discriminate]. unfold py_len, ret in H.
    inversion H; subst.
    pose proof (axis_joinids_result Var _ _ _ Hj) as Hc. symmetry in Hc.
    assert (Hm : is_Some (ms (experiment (this s1)) !! ms_name (this s1))).
    { unfold var_joinids in Hj. apply bind_inv_ok in Hj as [m [s0 [Hm Hj]]].
      pose proof (frame_read_axis_joinids _ _ _ _ _ Hj) as [He' Hn' _ _ _].
      rewrite He', Hn'.
      pose proof (self_measurement_state _ _ _ Hm). subst s0.
      unfold self_measurement, bind, get_this in Hm.
      destruct (ms (experiment (this s)) !! ms_name (this s)); [eauto|discriminate]. }
    destruct Hm as [m Hm]. rewrite <- He, <- Hn in Hm.
    apply Hids in Hc.
    pose proof (axis_joinids_cached Var _ m ids Hm Hc) as Hcached.
    change (axis_joinids Var (run_calls calls s1))
      with (var_joinids (run_calls calls s1)) in Hcached.
    unfold n_vars. now rewrite (bind_ok _ _ _ _ _ Hcached).
Qed.

Lemma counts_are_stable_witness :
  n_obs (run_calls [Call_var (Some ["gene"]); Call_close]
           (run_call Call_n_obs (example_state None None)))
  = (Ok 3%nat, run_calls [Call_var (Some ["gene"]); Call_close]
                 (run_call Call_n_obs (example_state None None)))
  /\ n_vars (run_calls [Call_obs None; Call_close]
               (run_call Call_n_vars (example_state None None)))
     = (Ok 2%nat, run_calls [Call_obs None; Call_close]
                    (run_call Call_n_vars (example_state None None))).
Proof.
  split.
  - apply (proj1 (counts_are_stable (example_state None None) 3%nat
                    (run_call Call_n_obs (example_state None None))
                    [Call_var (Some ["gene"]); Call_close])).
    reflexivity.
  - apply (proj2 (counts_are_stable (example_state None None) 2%nat
                    (run_call Call_n_vars (example_state None None))
                    [Call_obs None; Call_close])).
    reflexivity.
Defined.

(** ** The asynchronous facade and the join ids, an instance *)

Lemma async_joinids_agree_witness :
  AsyncExperimentQuery_obs_joinids (run_call Call_obs_joinids (example_state None None))
  = obs_joinids (run_call Call_obs_joinids (example_state None None))
  /\ AsyncExperimentQuery_var_joinids (run_call Call_var_joinids (example_state None None))
     = var_joinids (run_call Call_var_joinids (example_state None None)).
Proof.
  split.
  - apply (proj1 (async_joinids_agree (run_call Call_obs_joinids (example_state None None)))).
  - apply (proj2 (async_joinids_agree (run_call Call_var_joinids (example_state None None)))).
    eexists. reflexivity.
Defined.
